(** * Hexahedron elements, B-spline hexahedron elements and the persisted
      particle record of the MPM geomechanics code

    The development embeds the element kernels of
    [include/elements/3d/hexahedron_element.tcc],
    [include/elements/3d/hexahedron_bspline_element.tcc] and the HDF5 field
    tables of [src/hdf5_particle.cc], and states the properties the
    specification gives for them.

    Modelling conventions.
    - A C++ [double] is a real number: arithmetic is exact, and an identity
      below is an identity of the formulas the code evaluates.  Where a
      property depends on rounding, the same formulas are evaluated in IEEE
      754 binary64 ([Binary64]) or over the reals with a rounding after every
      operation ([Rounded]).
    - [Eigen::Matrix<double, 3, 1>] is the record [Vector3d];
      [Eigen::VectorXd] is a list of coefficients; [Eigen::MatrixXd] is a list
      of rows.  Eigen asserts that the operands of a product, a sum or an
      assignment to a fixed-size matrix agree in size; an operation whose
      assertion fails has no value here ([None]).
    - [console_->error(...)] appends the caught exception to the log that an
      operation returns next to its value. *)

From Stdlib Require Import String DecimalString Reals Lra Psatz List Arith Lia Bool.
From Stdlib Require ZArith QArith Uint63 PrimFloat FloatOps SpecFloat.
Import ListNotations.
Open Scope R_scope.

(** ** Dense linear algebra as the code uses it *)

Module Eigen.

Definition VectorXd : Type := list R.
Definition MatrixXd : Type := list (list R).

(** [Eigen::Matrix<double, 3, 1>] *)
Record Vector3d : Type := vec3 { c0 : R; c1 : R; c2 : R }.

(** [v(i)] for a fixed-size vector; the code only reads [i = 0, 1, 2]. *)
Definition coeff (v : Vector3d) (i : nat) : R :=
  match i with
  | 0%nat => c0 v
  | 1%nat => c1 v
  | _ => c2 v
  end.

Definition rows (m : MatrixXd) : nat := length m.
Definition cols (m : MatrixXd) : nat :=
  match m with
  | [] => 0%nat
  | r :: _ => length r
  end.

(** [m(i, j)] *)
Definition mcoeff (m : MatrixXd) (i j : nat) : R := nth j (nth i m []) 0.

Definition Constant (r c : nat) (x : R) : MatrixXd := repeat (repeat x c) r.
Definition Zero (r c : nat) : MatrixXd := Constant r c 0.

(** Coefficient-wise assignment [v(i) = e], [m(i, j) = e]. *)
Fixpoint update {A : Type} (l : list A) (i : nat) (f : A -> A) : list A :=
  match l, i with
  | [], _ => []
  | x :: t, 0%nat => f x :: t
  | x :: t, S k => x :: update t k f
  end.

Definition put (i : nat) (e : R) : nat * R := (i, e).
Definition put2 (i j : nat) (e : R) : nat * nat * R := (i, j, e).

(** A vector of [n] coefficients after the assignments [l], in order. *)
Definition assign (n : nat) (l : list (nat * R)) : VectorXd :=
  fold_left (fun v a => update v (fst a) (fun _ => snd a)) l (repeat 0 n).

(** An [r] by [c] matrix after the assignments [l], in order. *)
Definition assign2 (r c : nat) (l : list (nat * nat * R)) : MatrixXd :=
  fold_left
    (fun m a =>
       update m (fst (fst a)) (fun row => update row (snd (fst a)) (fun _ => snd a)))
    l (Zero r c).

Definition sum (v : VectorXd) : R := fold_right Rplus 0 v.

Definition column (j : nat) (m : MatrixXd) : VectorXd :=
  map (fun r => nth j r 0) m.

Definition transpose (m : MatrixXd) : MatrixXd :=
  map (fun j => column j m) (seq 0 (cols m)).

Fixpoint dotXd (u v : VectorXd) : R :=
  match u, v with
  | x :: u', y :: v' => x * y + dotXd u' v'
  | _, _ => 0
  end.

(** [a * b]; Eigen requires [a.cols() == b.rows()]. *)
Definition mmul (a b : MatrixXd) : option MatrixXd :=
  if (cols a =? rows b)%nat
  then Some (map (fun ra => map (fun j => dotXd ra (column j b)) (seq 0 (cols b))) a)
  else None.

Fixpoint vaddXd (u v : VectorXd) : VectorXd :=
  match u, v with
  | x :: u', y :: v' => (x + y) :: vaddXd u' v'
  | _, _ => []
  end.

Fixpoint maddXd (a b : MatrixXd) : MatrixXd :=
  match a, b with
  | ra :: a', rb :: b' => vaddXd ra rb :: maddXd a' b'
  | _, _ => []
  end.

(** [a += b]; Eigen requires equal sizes. *)
Definition madd (a b : MatrixXd) : option MatrixXd :=
  if ((rows a =? rows b) && (cols a =? cols b))%nat
  then Some (maddXd a b)
  else None.

(** Assignment of a dynamic expression to [Eigen::Matrix<double, r, c>]. *)
Definition fixed (r c : nat) (m : option MatrixXd) : option MatrixXd :=
  match m with
  | Some x => if ((rows x =? r) && (cols x =? c))%nat then Some x else None
  | None => None
  end.

(** [m.row(k)] assigned to an [Eigen::Matrix<double, 3, 1>]. *)
Definition row3 (m : MatrixXd) (k : nat) : option Vector3d :=
  match nth_error m k with
  | Some [a; b; c] => Some (vec3 a b c)
  | _ => None
  end.

Definition sub3 (u v : Vector3d) : Vector3d :=
  vec3 (c0 u - c0 v) (c1 u - c1 v) (c2 u - c2 v).
Definition add3 (u v : Vector3d) : Vector3d :=
  vec3 (c0 u + c0 v) (c1 u + c1 v) (c2 u + c2 v).
Definition dot3 (u v : Vector3d) : R :=
  c0 u * c0 v + c1 u * c1 v + c2 u * c2 v.
Definition cross3 (u v : Vector3d) : Vector3d :=
  vec3 (c1 u * c2 v - c2 u * c1 v)
       (c2 u * c0 v - c0 u * c2 v)
       (c0 u * c1 v - c1 u * c0 v).

(** Inverse of a 3 by 3 matrix by cofactors, the closed form Eigen uses for
    fixed sizes up to 4.  For a singular matrix Eigen divides by zero and
    returns infinities or NaN, which the real numbers do not have: what is
    stated of a value of [inverse] is stated for a non-zero determinant. *)
Definition next3 (i : nat) : nat :=
  match i with
  | 0%nat => 1%nat
  | 1%nat => 2%nat
  | _ => 0%nat
  end.

Definition cofactor (m : MatrixXd) (i j : nat) : R :=
  let i1 := next3 i in
  let i2 := next3 i1 in
  let j1 := next3 j in
  let j2 := next3 j1 in
  mcoeff m i1 j1 * mcoeff m i2 j2 - mcoeff m i1 j2 * mcoeff m i2 j1.

Definition determinant (m : MatrixXd) : R :=
  cofactor m 0 0 * mcoeff m 0 0
  + cofactor m 1 0 * mcoeff m 1 0
  + cofactor m 2 0 * mcoeff m 2 0.

Definition inverse (m : MatrixXd) : MatrixXd :=
  let invdet := 1 / determinant m in
  map (fun r => map (fun c => cofactor m c r * invdet) (seq 0 3)) (seq 0 3).

Definition Identity3 : MatrixXd := [[1; 0; 0]; [0; 1; 0]; [0; 0; 1]].

(** A list of rows is a matrix when every row has the same length. *)
Definition rectangular (r c : nat) (m : MatrixXd) : Prop :=
  length m = r /\ Forall (fun row => length row = c) m.

(** A vector as the [n] by 1 matrix it is in a product. *)
Definition as_matrix (v : VectorXd) : MatrixXd := map (fun x => [x]) v.

End Eigen.

Arguments Eigen.put i%_nat e%_R.
Arguments Eigen.put2 (i j)%_nat e%_R.
Arguments Eigen.coeff v i%_nat.
Arguments Eigen.mcoeff m (i j)%_nat.
Arguments Eigen.cofactor m (i j)%_nat.

Notation "v .[ i ]" := (Eigen.coeff v i%nat)
  (at level 1, left associativity, format "v .[ i ]").

(** ** Logging and Eigen assertions *)

(** The exceptions the element code throws and catches. *)
Inductive exception : Type :=
| runtime_error (what : string)
| out_of_range.

(** What an operation wrote to [console_->error], oldest entry first, and its
    value; [None] when an Eigen size assertion stopped it. *)
Definition M (A : Type) : Type := (list exception * option A)%type.

Definition ret {A : Type} (a : A) : M A := ([], Some a).

Definition bind {A B : Type} (m : M A) (f : A -> M B) : M B :=
  match m with
  | (l, Some a) => let (l', r) := f a in (l ++ l', r)
  | (l, None) => (l, None)
  end.

Definition console_error (e : exception) : M unit := ([e], Some tt).

Definition eigen {A : Type} (o : option A) : M A := ([], o).

Declare Scope M_scope.
Delimit Scope M_scope with M.
Notation "x <- m ;; k" := (bind m (fun x => k))
  (at level 61, m at next level, right associativity) : M_scope.
Notation "m ;; k" := (bind m (fun _ => k))
  (at level 61, right associativity) : M_scope.

(** ** [HexahedronElement<3, Tnfunctions>] *)

Module HexahedronElement.
Import Eigen.

(** The two instantiations the constructor's [static_assert] admits. *)
Inductive Tnfunctions : Type := Hex8 | Hex20.

Definition nfunctions (T : Tnfunctions) : nat :=
  match T with
  | Hex8 => 8
  | Hex20 => 20
  end.

(** [HexahedronElement<3, 8>::shapefn] *)
Definition shapefn8 (xi particle_size : Vector3d)
    (deformation_gradient : MatrixXd) : VectorXd :=
  assign 8 [
    put 0 (0.125 * (1 - xi.[0]) * (1 - xi.[1]) * (1 - xi.[2]));
    put 1 (0.125 * (1 + xi.[0]) * (1 - xi.[1]) * (1 - xi.[2]));
    put 2 (0.125 * (1 + xi.[0]) * (1 + xi.[1]) * (1 - xi.[2]));
    put 3 (0.125 * (1 - xi.[0]) * (1 + xi.[1]) * (1 - xi.[2]));
    put 4 (0.125 * (1 - xi.[0]) * (1 - xi.[1]) * (1 + xi.[2]));
    put 5 (0.125 * (1 + xi.[0]) * (1 - xi.[1]) * (1 + xi.[2]));
    put 6 (0.125 * (1 + xi.[0]) * (1 + xi.[1]) * (1 + xi.[2]));
    put 7 (0.125 * (1 - xi.[0]) * (1 + xi.[1]) * (1 + xi.[2])) ].

(** [HexahedronElement<3, 8>::grad_shapefn] *)
Definition grad_shapefn8 (xi particle_size : Vector3d)
    (deformation_gradient : MatrixXd) : MatrixXd :=
  assign2 8 3 [
    put2 0 0 (-0.125 * (1 - xi.[1]) * (1 - xi.[2]));
    put2 1 0 (0.125 * (1 - xi.[1]) * (1 - xi.[2]));
    put2 2 0 (0.125 * (1 + xi.[1]) * (1 - xi.[2]));
    put2 3 0 (-0.125 * (1 + xi.[1]) * (1 - xi.[2]));
    put2 4 0 (-0.125 * (1 - xi.[1]) * (1 + xi.[2]));
    put2 5 0 (0.125 * (1 - xi.[1]) * (1 + xi.[2]));
    put2 6 0 (0.125 * (1 + xi.[1]) * (1 + xi.[2]));
    put2 7 0 (-0.125 * (1 + xi.[1]) * (1 + xi.[2]));
    put2 0 1 (-0.125 * (1 - xi.[0]) * (1 - xi.[2]));
    put2 1 1 (-0.125 * (1 + xi.[0]) * (1 - xi.[2]));
    put2 2 1 (0.125 * (1 + xi.[0]) * (1 - xi.[2]));
    put2 3 1 (0.125 * (1 - xi.[0]) * (1 - xi.[2]));
    put2 4 1 (-0.125 * (1 - xi.[0]) * (1 + xi.[2]));
    put2 5 1 (-0.125 * (1 + xi.[0]) * (1 + xi.[2]));
    put2 6 1 (0.125 * (1 + xi.[0]) * (1 + xi.[2]));
    put2 7 1 (0.125 * (1 - xi.[0]) * (1 + xi.[2]));
    put2 0 2 (-0.125 * (1 - xi.[0]) * (1 - xi.[1]));
    put2 1 2 (-0.125 * (1 + xi.[0]) * (1 - xi.[1]));
    put2 2 2 (-0.125 * (1 + xi.[0]) * (1 + xi.[1]));
    put2 3 2 (-0.125 * (1 - xi.[0]) * (1 + xi.[1]));
    put2 4 2 (0.125 * (1 - xi.[0]) * (1 - xi.[1]));
    put2 5 2 (0.125 * (1 + xi.[0]) * (1 - xi.[1]));
    put2 6 2 (0.125 * (1 + xi.[0]) * (1 + xi.[1]));
    put2 7 2 (0.125 * (1 - xi.[0]) * (1 + xi.[1])) ].

(** [HexahedronElement<3, 8>::unit_cell_coordinates] *)
Definition unit_cell_coordinates8 : MatrixXd :=
  [ [-1; -1; -1];
    [ 1; -1; -1];
    [ 1;  1; -1];
    [-1;  1; -1];
    [-1; -1;  1];
    [ 1; -1;  1];
    [ 1;  1;  1];
    [-1;  1;  1] ].

(** [HexahedronElement<3, 20>::shapefn] *)
Definition shapefn20 (xi particle_size : Vector3d)
    (deformation_gradient : MatrixXd) : VectorXd :=
  assign 20 [
    put 0 (-0.125 * (1 - xi.[0]) * (1 - xi.[1]) * (1 - xi.[2])
        * (2 + xi.[0] + xi.[1] + xi.[2]));
    put 1 (-0.125 * (1 + xi.[0]) * (1 - xi.[1]) * (1 - xi.[2])
        * (2 - xi.[0] + xi.[1] + xi.[2]));
    put 2 (-0.125 * (1 + xi.[0]) * (1 + xi.[1]) * (1 - xi.[2])
        * (2 - xi.[0] - xi.[1] + xi.[2]));
    put 3 (-0.125 * (1 - xi.[0]) * (1 + xi.[1]) * (1 - xi.[2])
        * (2 + xi.[0] - xi.[1] + xi.[2]));
    put 4 (-0.125 * (1 - xi.[0]) * (1 - xi.[1]) * (1 + xi.[2])
        * (2 + xi.[0] + xi.[1] - xi.[2]));
    put 5 (-0.125 * (1 + xi.[0]) * (1 - xi.[1]) * (1 + xi.[2])
        * (2 - xi.[0] + xi.[1] - xi.[2]));
    put 6 (-0.125 * (1 + xi.[0]) * (1 + xi.[1]) * (1 + xi.[2])
        * (2 - xi.[0] - xi.[1] - xi.[2]));
    put 7 (-0.125 * (1 - xi.[0]) * (1 + xi.[1]) * (1 + xi.[2])
        * (2 + xi.[0] - xi.[1] - xi.[2]));
    put 8 (0.25 * (1 - xi.[0] * xi.[0]) * (1 - xi.[1]) * (1 - xi.[2]));
    put 11 (0.25 * (1 - xi.[1] * xi.[1]) * (1 + xi.[0]) * (1 - xi.[2]));
    put 13 (0.25 * (1 - xi.[0] * xi.[0]) * (1 + xi.[1]) * (1 - xi.[2]));
    put 9 (0.25 * (1 - xi.[1] * xi.[1]) * (1 - xi.[0]) * (1 - xi.[2]));
    put 10 (0.25 * (1 - xi.[2] * xi.[2]) * (1 - xi.[0]) * (1 - xi.[1]));
    put 12 (0.25 * (1 - xi.[2] * xi.[2]) * (1 + xi.[0]) * (1 - xi.[1]));
    put 14 (0.25 * (1 - xi.[2] * xi.[2]) * (1 + xi.[0]) * (1 + xi.[1]));
    put 15 (0.25 * (1 - xi.[2] * xi.[2]) * (1 - xi.[0]) * (1 + xi.[1]));
    put 16 (0.25 * (1 - xi.[0] * xi.[0]) * (1 - xi.[1]) * (1 + xi.[2]));
    put 18 (0.25 * (1 - xi.[1] * xi.[1]) * (1 + xi.[0]) * (1 + xi.[2]));
    put 19 (0.25 * (1 - xi.[0] * xi.[0]) * (1 + xi.[1]) * (1 + xi.[2]));
    put 17 (0.25 * (1 - xi.[1] * xi.[1]) * (1 - xi.[0]) * (1 + xi.[2])) ].

(** [HexahedronElement<3, 20>::grad_shapefn] *)
Definition grad_shapefn20 (xi particle_size : Vector3d)
    (deformation_gradient : MatrixXd) : MatrixXd :=
  assign2 20 3 [
    put2 0 0 (0.125 * (2 * xi.[0] + xi.[1] + xi.[2] + 1) * (1 - xi.[1])
        * (1 - xi.[2]));
    put2 1 0 (-0.125 * (-2 * xi.[0] + xi.[1] + xi.[2] + 1)
        * (1 - xi.[1]) * (1 - xi.[2]));
    put2 2 0 (-0.125 * (-2 * xi.[0] - xi.[1] + xi.[2] + 1)
        * (1 + xi.[1]) * (1 - xi.[2]));
    put2 3 0 (0.125 * (2 * xi.[0] - xi.[1] + xi.[2] + 1) * (1 + xi.[1])
        * (1 - xi.[2]));
    put2 4 0 (0.125 * (2 * xi.[0] + xi.[1] - xi.[2] + 1) * (1 - xi.[1])
        * (1 + xi.[2]));
    put2 5 0 (-0.125 * (-2 * xi.[0] + xi.[1] - xi.[2] + 1)
        * (1 - xi.[1]) * (1 + xi.[2]));
    put2 6 0 (-0.125 * (-2 * xi.[0] - xi.[1] - xi.[2] + 1)
        * (1 + xi.[1]) * (1 + xi.[2]));
    put2 7 0 (0.125 * (2 * xi.[0] - xi.[1] - xi.[2] + 1) * (1 + xi.[1])
        * (1 + xi.[2]));
    put2 8 0 (-0.5 * xi.[0] * (1 - xi.[1]) * (1 - xi.[2]));
    put2 9 0 (-0.25 * (1 - xi.[1] * xi.[1]) * (1 - xi.[2]));
    put2 10 0 (-0.25 * (1 - xi.[2] * xi.[2]) * (1 - xi.[1]));
    put2 11 0 (0.25 * (1 - xi.[1] * xi.[1]) * (1 - xi.[2]));
    put2 12 0 (0.25 * (1 - xi.[2] * xi.[2]) * (1 - xi.[1]));
    put2 13 0 (-0.5 * xi.[0] * (1 + xi.[1]) * (1 - xi.[2]));
    put2 14 0 (0.25 * (1 - xi.[2] * xi.[2]) * (1 + xi.[1]));
    put2 15 0 (-0.25 * (1 - xi.[2] * xi.[2]) * (1 + xi.[1]));
    put2 16 0 (-0.5 * xi.[0] * (1 - xi.[1]) * (1 + xi.[2]));
    put2 18 0 (0.25 * (1 - xi.[1] * xi.[1]) * (1 + xi.[2]));
    put2 19 0 (-0.5 * xi.[0] * (1 + xi.[1]) * (1 + xi.[2]));
    put2 17 0 (-0.25 * (1 - xi.[1] * xi.[1]) * (1 + xi.[2]));
    put2 0 1 (0.125 * (xi.[0] + 2 * xi.[1] + xi.[2] + 1) * (1 - xi.[0])
        * (1 - xi.[2]));
    put2 1 1 (0.125 * (-xi.[0] + 2 * xi.[1] + xi.[2] + 1) * (1 + xi.[0])
        * (1 - xi.[2]));
    put2 2 1 (-0.125 * (-xi.[0] - 2 * xi.[1] + xi.[2] + 1)
        * (1 + xi.[0]) * (1 - xi.[2]));
    put2 3 1 (-0.125 * (xi.[0] - 2 * xi.[1] + xi.[2] + 1) * (1 - xi.[1])
        * (1 - xi.[2]));
    put2 4 1 (0.125 * (xi.[0] + 2 * xi.[1] - xi.[2] + 1) * (1 - xi.[0])
        * (1 + xi.[2]));
    put2 5 1 (0.125 * (-xi.[0] + 2 * xi.[1] - xi.[2] + 1) * (1 + xi.[0])
        * (1 + xi.[2]));
    put2 6 1 (-0.125 * (-xi.[0] - 2 * xi.[1] - xi.[2] + 1)
        * (1 + xi.[0]) * (1 + xi.[2]));
    put2 7 1 (-0.125 * (xi.[0] - 2 * xi.[1] - xi.[2] + 1) * (1 - xi.[1])
        * (1 + xi.[2]));
    put2 8 1 (-0.25 * (1 - xi.[0] * xi.[0]) * (1 - xi.[2]));
    put2 9 1 (-0.5 * xi.[1] * (1 - xi.[0]) * (1 - xi.[2]));
    put2 10 1 (-0.25 * (1 - xi.[2] * xi.[2]) * (1 - xi.[0]));
    put2 11 1 (-0.5 * xi.[1] * (1 + xi.[0]) * (1 - xi.[2]));
    put2 12 1 (-0.25 * (1 - xi.[2] * xi.[2]) * (1 + xi.[0]));
    put2 13 1 (0.25 * (1 - xi.[0] * xi.[0]) * (1 - xi.[2]));
    put2 14 1 (0.25 * (1 - xi.[2] * xi.[2]) * (1 + xi.[0]));
    put2 15 1 (0.25 * (1 - xi.[2] * xi.[2]) * (1 - xi.[0]));
    put2 16 1 (-0.25 * (1 - xi.[0] * xi.[0]) * (1 + xi.[2]));
    put2 18 1 (-0.5 * xi.[1] * (1 + xi.[0]) * (1 + xi.[2]));
    put2 19 1 (0.25 * (1 - xi.[0] * xi.[0]) * (1 + xi.[2]));
    put2 17 1 (-0.5 * xi.[1] * (1 - xi.[0]) * (1 + xi.[2]));
    put2 0 2 (0.125 * (xi.[0] + xi.[1] + 2 * xi.[2] + 1) * (1 - xi.[0])
        * (1 - xi.[1]));
    put2 1 2 (0.125 * (-xi.[0] + xi.[1] + 2 * xi.[2] + 1) * (1 + xi.[0])
        * (1 - xi.[1]));
    put2 2 2 (0.125 * (-xi.[0] - xi.[1] + 2 * xi.[2] + 1) * (1 + xi.[0])
        * (1 + xi.[1]));
    put2 3 2 (0.125 * (xi.[0] - xi.[1] + 2 * xi.[2] + 1) * (1 - xi.[1])
        * (1 + xi.[1]));
    put2 4 2 (-0.125 * (xi.[0] + xi.[1] - 2 * xi.[2] + 1) * (1 - xi.[0])
        * (1 - xi.[1]));
    put2 5 2 (-0.125 * (-xi.[0] + xi.[1] - 2 * xi.[2] + 1)
        * (1 + xi.[0]) * (1 - xi.[1]));
    put2 6 2 (-0.125 * (-xi.[0] - xi.[1] - 2 * xi.[2] + 1)
        * (1 + xi.[0]) * (1 + xi.[1]));
    put2 7 2 (-0.125 * (xi.[0] - xi.[1] - 2 * xi.[2] + 1) * (1 - xi.[1])
        * (1 + xi.[1]));
    put2 8 2 (-0.25 * (1 - xi.[0] * xi.[0]) * (1 - xi.[1]));
    put2 9 2 (-0.25 * (1 - xi.[1] * xi.[1]) * (1 - xi.[0]));
    put2 10 2 (-0.5 * xi.[2] * (1 - xi.[0]) * (1 - xi.[1]));
    put2 11 2 (-0.25 * (1 - xi.[1] * xi.[1]) * (1 + xi.[0]));
    put2 12 2 (-0.5 * xi.[2] * (1 + xi.[0]) * (1 - xi.[1]));
    put2 13 2 (-0.25 * (1 - xi.[0] * xi.[0]) * (1 + xi.[1]));
    put2 14 2 (-0.5 * xi.[2] * (1 + xi.[0]) * (1 + xi.[1]));
    put2 15 2 (-0.5 * xi.[2] * (1 - xi.[0]) * (1 + xi.[1]));
    put2 16 2 (0.25 * (1 - xi.[0] * xi.[0]) * (1 - xi.[1]));
    put2 18 2 (0.25 * (1 - xi.[1] * xi.[1]) * (1 + xi.[0]));
    put2 19 2 (0.25 * (1 - xi.[0] * xi.[0]) * (1 + xi.[1]));
    put2 17 2 (0.25 * (1 - xi.[1] * xi.[1]) * (1 - xi.[0])) ].

(** [HexahedronElement<3, 20>::unit_cell_coordinates] *)
Definition unit_cell_coordinates20 : MatrixXd :=
  [ [-1; -1; -1];
    [ 1; -1; -1];
    [ 1;  1; -1];
    [-1;  1; -1];
    [-1; -1;  1];
    [ 1; -1;  1];
    [ 1;  1;  1];
    [-1;  1;  1];
    [ 0; -1; -1];
    [-1;  0; -1];
    [-1; -1;  0];
    [ 1;  0; -1];
    [ 1; -1;  0];
    [ 0;  1; -1];
    [ 1;  1;  0];
    [-1;  1;  0];
    [ 0; -1;  1];
    [-1;  0;  1];
    [ 1;  0;  1];
    [ 0;  1;  1] ].

(** The explicit specialisations, selected by the template argument. *)
Definition shapefn (T : Tnfunctions) :=
  match T with
  | Hex8 => shapefn8
  | Hex20 => shapefn20
  end.

Definition grad_shapefn (T : Tnfunctions) :=
  match T with
  | Hex8 => grad_shapefn8
  | Hex20 => grad_shapefn20
  end.

Definition unit_cell_coordinates (T : Tnfunctions) : MatrixXd :=
  match T with
  | Hex8 => unit_cell_coordinates8
  | Hex20 => unit_cell_coordinates20
  end.

Definition shapefn_local (T : Tnfunctions) (xi particle_size : Vector3d)
    (deformation_gradient : MatrixXd) : VectorXd :=
  shapefn T xi particle_size deformation_gradient.

Local Open Scope M_scope.

(** The size test shared by [jacobian] and [bmatrix]; [xi] has 3 rows. *)
Definition incorrect_dimension (grad_sf nodal_coordinates : MatrixXd) : bool :=
  negb (rows grad_sf =? rows nodal_coordinates)%nat
  || negb (3 =? cols nodal_coordinates)%nat.

Definition jacobian (T : Tnfunctions) (xi : Vector3d)
    (nodal_coordinates : MatrixXd) (particle_size : Vector3d)
    (deformation_gradient : MatrixXd) : M MatrixXd :=
  let grad_shapefn := grad_shapefn T xi particle_size deformation_gradient in
  if incorrect_dimension grad_shapefn nodal_coordinates then
    console_error
      (runtime_error
         "Jacobian calculation: Incorrect dimension of xi and nodal_coordinates"%string) ;;
    ret (Zero 3 3)
  else
    eigen (fixed 3 3 (mmul (transpose grad_shapefn) nodal_coordinates)).

Definition jacobian_local (T : Tnfunctions) (xi : Vector3d)
    (nodal_coordinates : MatrixXd) (particle_size : Vector3d)
    (deformation_gradient : MatrixXd) : M MatrixXd :=
  jacobian T xi nodal_coordinates particle_size deformation_gradient.

Definition dn_dx (T : Tnfunctions) (xi : Vector3d)
    (nodal_coordinates : MatrixXd) (particle_size : Vector3d)
    (deformation_gradient : MatrixXd) : M MatrixXd :=
  let grad_sf := grad_shapefn T xi particle_size deformation_gradient in
  jacobian <- eigen (fixed 3 3 (mmul (transpose grad_sf) nodal_coordinates)) ;;
  eigen (mmul grad_sf (transpose (inverse jacobian))).

(** The 6 by 3 strain-displacement block of node [i]. *)
Definition bi (grad_shapefn : MatrixXd) (i : nat) : MatrixXd :=
  let g := mcoeff grad_shapefn i in
  [ [g 0%nat; 0;       0      ];
    [0;       g 1%nat; 0      ];
    [0;       0;       g 2%nat];
    [g 1%nat; g 0%nat; 0      ];
    [0;       g 2%nat; g 1%nat];
    [g 2%nat; 0;       g 0%nat] ].

Definition bmatrix (T : Tnfunctions) (xi : Vector3d)
    (nodal_coordinates : MatrixXd) (particle_size : Vector3d)
    (deformation_gradient : MatrixXd) : M (list MatrixXd) :=
  let grad_sf := grad_shapefn T xi particle_size deformation_gradient in
  if incorrect_dimension grad_sf nodal_coordinates then
    console_error
      (runtime_error
         "BMatrix - Jacobian calculation: Incorrect dimension of xi and nodal_coordinates"%string) ;;
    ret []
  else
    jacobian <- eigen (fixed 3 3 (mmul (transpose grad_sf) nodal_coordinates)) ;;
    grad_shapefn <- eigen (mmul grad_sf (transpose (inverse jacobian))) ;;
    ret (map (bi grad_shapefn) (seq 0 (nfunctions T))).

(** The [try] block of [laplace_matrix]: the runtime error of the size test
    and the [std::out_of_range] of [xi_s.at(0)] on an empty [xi_s] are both
    caught and logged; the handler does not return. *)
Definition laplace_check (T : Tnfunctions) (xi_s : list Vector3d)
    (nodal_coordinates : MatrixXd) : M unit :=
  let mismatch :=
    console_error
      (runtime_error "Jacobian calculation: Incorrect dimension of xi & nodes"%string) in
  if negb (nfunctions T =? rows nodal_coordinates)%nat then mismatch
  else
    match xi_s with
    | [] => console_error out_of_range
    | _ :: _ =>
        if negb (3 =? cols nodal_coordinates)%nat then mismatch else ret tt
    end.

(** One pass of the loop of [laplace_matrix]. *)
Definition laplace_step (T : Tnfunctions) (nodal_coordinates : MatrixXd)
    (laplace_matrix : MatrixXd) (xi : Vector3d) : M MatrixXd :=
  let zeros := vec3 0 0 0 in
  let zero_matrix := Zero 3 3 in
  let grad_sf := grad_shapefn T xi zeros zero_matrix in
  jacobian <- eigen (fixed 3 3 (mmul (transpose grad_sf) nodal_coordinates)) ;;
  grad_shapefn <- eigen (mmul grad_sf (inverse jacobian)) ;;
  outer <- eigen (mmul grad_shapefn (transpose grad_shapefn)) ;;
  eigen (madd laplace_matrix outer).

Definition laplace_matrix (T : Tnfunctions) (xi_s : list Vector3d)
    (nodal_coordinates : MatrixXd) : M MatrixXd :=
  laplace_check T xi_s nodal_coordinates ;;
  fold_left
    (fun acc xi => laplace_matrix <- acc ;;
                   laplace_step T nodal_coordinates laplace_matrix xi)
    xi_s (ret (Zero (nfunctions T) (nfunctions T))).

Definition corner_indices : list nat := [0; 1; 2; 3; 4; 5; 6; 7]%nat.

(** [compute_volume]; the rows it reads must exist and hold 3 coefficients. *)
Definition compute_volume (nodal_coordinates : MatrixXd) : option R :=
  match row3 nodal_coordinates 7, row3 nodal_coordinates 6,
        row3 nodal_coordinates 2, row3 nodal_coordinates 3,
        row3 nodal_coordinates 4, row3 nodal_coordinates 5,
        row3 nodal_coordinates 1, row3 nodal_coordinates 0 with
  | Some a, Some b, Some c, Some d, Some e, Some f, Some g, Some h =>
      let dot := dot3 in
      let cross := cross3 in
      let plus := add3 in
      let minus := sub3 in
      Some
        ((1.0 / 12) * dot (minus a g)
                          (plus (plus (cross (minus b d) (minus c a))
                                      (cross (minus e b) (minus f a)))
                                (cross (minus d e) (minus h a)))
         + (1.0 / 12) * dot (minus b g)
                            (plus (cross (minus b d) (minus c a))
                                  (cross (minus c g) (minus c f)))
         + (1.0 / 12) * dot (minus e g)
                            (plus (cross (minus e b) (minus f a))
                                  (cross (minus f g) (minus h f)))
         + (1.0 / 12) * dot (minus d g)
                            (plus (cross (minus d e) (minus h a))
                                  (cross (minus h g) (minus h c))))
  | _, _, _, _, _, _, _, _ => None
  end.

(** One pass of the loop of [ni_nj_matrix]. *)
Definition ni_nj_step (T : Tnfunctions) (ni_nj_matrix : MatrixXd)
    (xi : Vector3d) : M MatrixXd :=
  let zeros := vec3 0 0 0 in
  let zero_matrix := Zero 3 3 in
  let shape_fn := as_matrix (shapefn T xi zeros zero_matrix) in
  outer <- eigen (mmul shape_fn (transpose shape_fn)) ;;
  eigen (madd ni_nj_matrix outer).

Definition ni_nj_matrix (T : Tnfunctions) (xi_s : list Vector3d) : M MatrixXd :=
  fold_left
    (fun acc xi => ni_nj_matrix <- acc ;; ni_nj_step T ni_nj_matrix xi)
    xi_s (ret (Zero (nfunctions T) (nfunctions T))).

(** [sides_indices]: one row per side. *)
Definition sides_indices : list (list nat) :=
  [ [0; 1];
    [1; 2];
    [2; 3];
    [3; 0];
    [4; 5];
    [5; 6];
    [6; 7];
    [7; 4];
    [0; 4];
    [1; 5];
    [2; 6];
    [3; 7] ]%nat.

Definition nfaces : nat := 6.

(** [std::map::at]: the value stored under [key], or [std::out_of_range]. *)
Fixpoint map_at {A : Type} (m : list (nat * A)) (key : nat) : exception + A :=
  match m with
  | [] => inl out_of_range
  | (k, v) :: m' => if (k =? key)%nat then inr v else map_at m' key
  end.

(** [HexahedronElement<3, 8>::face_indices] *)
Definition face_indices8 (face_id : nat) : exception + list nat :=
  let face_indices_hexahedron :=
    [ (0, [0; 1; 5; 4]);
      (1, [5; 1; 2; 6]);
      (2, [7; 6; 2; 3]);
      (3, [0; 4; 7; 3]);
      (4, [1; 0; 3; 2]);
      (5, [4; 5; 6; 7]) ]%nat in
  map_at face_indices_hexahedron face_id.

(** [HexahedronElement<3, 20>::face_indices] *)
Definition face_indices20 (face_id : nat) : exception + list nat :=
  let face_indices_hexahedron :=
    [ (0, [0; 1; 5; 4;  8; 12; 16; 10]);
      (1, [5; 1; 2; 6; 12; 11; 14; 18]);
      (2, [7; 6; 2; 3; 19; 14; 13; 15]);
      (3, [0; 4; 7; 3; 10; 17; 15;  9]);
      (4, [1; 0; 3; 2;  8;  9; 13; 11]);
      (5, [4; 5; 6; 7; 16; 18; 19; 17]) ]%nat in
  map_at face_indices_hexahedron face_id.

Definition face_indices (T : Tnfunctions) : nat -> exception + list nat :=
  match T with
  | Hex8 => face_indices8
  | Hex20 => face_indices20
  end.

(** [unit_element_length] *)
Definition unit_element_length : R := 2.

End HexahedronElement.

(** ** [HexahedronBSplineElement<3, Tpolynomial>]

    The class derives from [HexahedronElement<3, 8>].  What its header
    declares is a parameter here: the knot table [knot(node_type)] and the
    default value of the [index] argument of [kernel] and [gradient]. *)

Module HexahedronBSplineElement.
Import Eigen.
Local Open Scope M_scope.

(** [std::numeric_limits<double>::epsilon()] *)
Definition epsilon : R := / 2 ^ 52.

(** [poly_order - 1] on [unsigned]: 0 wraps to [UINT_MAX]. *)
Definition UINT_MAX : nat := 2 ^ 32 - 1.
Definition minus_one (n : nat) : nat :=
  match n with
  | 0%nat => UINT_MAX
  | S p => p
  end.

Definition lt (x y : R) : bool := if Rlt_dec x y then true else false.
Definition ge (x y : R) : bool := if Rge_dec x y then true else false.

(** The data members the element code reads. *)
Record state : Type := {
  nconnectivity_ : nat;
  nodal_coordinates_ : MatrixXd;
  node_type_ : list (list nat);
  spacing_length_ : R
}.

(** [initialise_bspline_connectivity_properties]; [None] when its [assert]
    fails. *)
Definition initialise_bspline_connectivity_properties
    (nodal_coordinates : MatrixXd) (nodal_properties : list (list nat))
    : option state :=
  if (rows nodal_coordinates =? length nodal_properties)%nat then
    Some {| nconnectivity_ := rows nodal_coordinates;
            nodal_coordinates_ := nodal_coordinates;
            node_type_ := nodal_properties;
            spacing_length_ :=
              Rabs (mcoeff nodal_coordinates 1 0 - mcoeff nodal_coordinates 0 0) |}
  else None.

Fixpoint mapM {A B : Type} (f : A -> M B) (l : list A) : M (list B) :=
  match l with
  | [] => ret []
  | x :: t => y <- f x ;; ys <- mapM f t ;; ret (y :: ys)
  end.

Section Element.
Variable Tpolynomial : nat.
Variable knot : nat -> list R.
Variable index_default : nat.
Variable this : state.

(** [nodal_coord * one + spacing_length_ * knot_vector] *)
Definition knot_coord (nodal_coord : R) (node_type : nat) : VectorXd :=
  map (fun k => nodal_coord * 1.0 + spacing_length_ this * k) (knot node_type).

(** [kernel]: the Cox-de Boor recursion in one direction.  A read
    [knot_coord[i]] past the end of the knot vector gives 0 here. *)
Fixpoint kernel (point_coord nodal_coord : R) (node_type poly_order : nat)
    (index : nat) {struct poly_order} : R :=
  let knot_coord i := nth i (knot_coord nodal_coord node_type) 0 in
  match poly_order with
  | 0%nat =>
      if ge point_coord (knot_coord index)
         && lt point_coord (knot_coord (index + 1)%nat)
      then 1.0 else 0.0
  | S poly_order_minus_1 =>
      let den_a := knot_coord (index + poly_order)%nat - knot_coord index in
      let a :=
        if lt den_a epsilon then 0
        else (point_coord - knot_coord index) / den_a in
      let den_b :=
        knot_coord (index + poly_order + 1)%nat - knot_coord (index + 1)%nat in
      let b :=
        if lt den_b epsilon then 0
        else (knot_coord (index + poly_order + 1)%nat - point_coord) / den_b in
      a * kernel point_coord nodal_coord node_type poly_order_minus_1 index
      + b * kernel point_coord nodal_coord node_type poly_order_minus_1
              (index + 1)%nat
  end.

(** [gradient]: the derivative of the same recursion. *)
Definition gradient (point_coord nodal_coord : R)
    (node_type poly_order : nat) (index : nat) : R :=
  let knot_coord i := nth i (knot_coord nodal_coord node_type) 0 in
  let den_a := knot_coord (index + poly_order)%nat - knot_coord index in
  let a := if lt den_a epsilon then 0 else INR poly_order / den_a in
  let den_b :=
    knot_coord (index + poly_order + 1)%nat - knot_coord (index + 1)%nat in
  let b := if lt den_b epsilon then 0 else INR poly_order / den_b in
  a * kernel point_coord nodal_coord node_type (minus_one poly_order) index
  - b * kernel point_coord nodal_coord node_type (minus_one poly_order)
          (index + 1)%nat.

(** A basis value or derivative of order [Tpolynomial], called without
    [index], with the term the [switch] adds for node types 1 and 4. *)
Definition with_boundary_term (f : R -> R -> nat -> nat -> nat -> R)
    (point_coord nodal_coord : R) (node_type : nat) : R :=
  let N := f point_coord nodal_coord node_type Tpolynomial index_default in
  match node_type with
  | 1%nat => N + f point_coord nodal_coord 5%nat Tpolynomial index_default
  | 4%nat => N + f point_coord nodal_coord 6%nat Tpolynomial index_default
  | _ => N
  end.

(** [shapefn_local] *)
Definition shapefn_local (xi particle_size : Vector3d)
    (deformation_gradient : MatrixXd) : VectorXd :=
  HexahedronElement.shapefn8 xi particle_size deformation_gradient.

(** The real coordinates of [xi]: the loop
    [pcoord += local_shapefn(i) * nodal_coordinates_.row(i).transpose()]. *)
Definition pcoord (xi particle_size : Vector3d)
    (deformation_gradient : MatrixXd) : M Vector3d :=
  let local_shapefn := shapefn_local xi particle_size deformation_gradient in
  fold_left
    (fun acc i =>
       pcoord <- acc ;;
       row <- eigen (row3 (nodal_coordinates_ this) i) ;;
       let N := nth i local_shapefn 0 in
       ret (add3 pcoord (vec3 (N * row.[0]) (N * row.[1]) (N * row.[2]))))
    (seq 0 (length local_shapefn)) (ret (vec3 0 0 0)).

Definition node_type (n i : nat) : nat :=
  nth i (nth n (node_type_ this) []) 0%nat.

(** [shapefn].  No statement of its [try] block throws a
    [std::exception]; the handler is not modelled. *)
Definition shapefn (xi particle_size : Vector3d)
    (deformation_gradient : MatrixXd) : M VectorXd :=
  if (nconnectivity_ this =? 8)%nat then
    ret (HexahedronElement.shapefn8 xi particle_size deformation_gradient)
  else
    pcoord <- pcoord xi particle_size deformation_gradient ;;
    mapM
      (fun n =>
         row <- eigen (row3 (nodal_coordinates_ this) n) ;;
         ret (fold_left
                (fun shapefn_n i =>
                   shapefn_n
                   * with_boundary_term kernel pcoord.[i] row.[i] (node_type n i))
                (seq 0 3) 1.0))
      (seq 0 (nconnectivity_ this)).

(** [grad_shapefn], with the same [try] block. *)
Definition grad_shapefn (xi particle_size : Vector3d)
    (deformation_gradient : MatrixXd) : M MatrixXd :=
  if (nconnectivity_ this =? 8)%nat then
    ret (HexahedronElement.grad_shapefn8 xi particle_size deformation_gradient)
  else
    pcoord <- pcoord xi particle_size deformation_gradient ;;
    mapM
      (fun n =>
         row <- eigen (row3 (nodal_coordinates_ this) n) ;;
         ret (map
                (fun i =>
                   fold_left
                     (fun dN_dx j =>
                        if (j =? i)%nat then dN_dx
                        else dN_dx
                             * with_boundary_term kernel pcoord.[j] row.[j]
                                 (node_type n j))
                     (seq 0 3)
                     (with_boundary_term gradient pcoord.[i] row.[i]
                        (node_type n i)))
                (seq 0 3)))
      (seq 0 (nconnectivity_ this)).

(** [jacobian] *)
Definition jacobian (xi : Vector3d) (nodal_coordinates : MatrixXd)
    (particle_size : Vector3d) (deformation_gradient : MatrixXd) : M MatrixXd :=
  grad_shapefn <- grad_shapefn xi particle_size deformation_gradient ;;
  if HexahedronElement.incorrect_dimension grad_shapefn nodal_coordinates then
    console_error
      (runtime_error
         "Jacobian calculation: Incorrect dimension of xi and nodal_coordinates"%string) ;;
    ret (Zero 3 3)
  else
    eigen (fixed 3 3 (mmul (transpose grad_shapefn) nodal_coordinates)).

(** [dn_dx] *)
Definition dn_dx (xi : Vector3d) (nodal_coordinates : MatrixXd)
    (particle_size : Vector3d) (deformation_gradient : MatrixXd) : M MatrixXd :=
  grad_shapefn xi particle_size deformation_gradient.

Definition jacobian_local (xi : Vector3d) (nodal_coordinates : MatrixXd)
    (particle_size : Vector3d) (deformation_gradient : MatrixXd) : M MatrixXd :=
  jacobian xi nodal_coordinates particle_size deformation_gradient.

(** [bmatrix] *)
Definition bmatrix (xi : Vector3d) (nodal_coordinates : MatrixXd)
    (particle_size : Vector3d) (deformation_gradient : MatrixXd)
    : M (list MatrixXd) :=
  grad_sf <- grad_shapefn xi particle_size deformation_gradient ;;
  if HexahedronElement.incorrect_dimension grad_sf nodal_coordinates then
    console_error
      (runtime_error
         "BMatrix - Jacobian calculation: Incorrect dimension of xi and nodal_coordinates"%string) ;;
    ret []
  else
    jacobian <- eigen (fixed 3 3 (mmul (transpose grad_sf) nodal_coordinates)) ;;
    grad_shapefn <- eigen (mmul grad_sf (transpose (inverse jacobian))) ;;
    ret (map (HexahedronElement.bi grad_shapefn) (seq 0 (nconnectivity_ this))).

End Element.

End HexahedronBSplineElement.

(** ** The element variants behind [Element<3>] *)

Module Element.
Import Eigen.

Inductive variant : Type :=
| Hexahedron (T : HexahedronElement.Tnfunctions)
| HexahedronBSpline (Tpolynomial : nat) (this : HexahedronBSplineElement.state).

Section Dispatch.
Variable knot : nat -> list R.
Variable index_default : nat.

Definition grad_shapefn (e : variant) (xi particle_size : Vector3d)
    (deformation_gradient : MatrixXd) : M MatrixXd :=
  match e with
  | Hexahedron T =>
      ret (HexahedronElement.grad_shapefn T xi particle_size deformation_gradient)
  | HexahedronBSpline p this =>
      HexahedronBSplineElement.grad_shapefn p knot index_default this
        xi particle_size deformation_gradient
  end.

Definition jacobian (e : variant) (xi : Vector3d) (nodal_coordinates : MatrixXd)
    (particle_size : Vector3d) (deformation_gradient : MatrixXd) : M MatrixXd :=
  match e with
  | Hexahedron T =>
      HexahedronElement.jacobian T xi nodal_coordinates particle_size
        deformation_gradient
  | HexahedronBSpline p this =>
      HexahedronBSplineElement.jacobian p knot index_default this
        xi nodal_coordinates particle_size deformation_gradient
  end.

Definition shapefn_local (e : variant) (xi particle_size : Vector3d)
    (deformation_gradient : MatrixXd) : VectorXd :=
  match e with
  | Hexahedron T =>
      HexahedronElement.shapefn_local T xi particle_size deformation_gradient
  | HexahedronBSpline p this =>
      HexahedronBSplineElement.shapefn_local xi particle_size deformation_gradient
  end.

Definition dn_dx (e : variant) (xi : Vector3d) (nodal_coordinates : MatrixXd)
    (particle_size : Vector3d) (deformation_gradient : MatrixXd) : M MatrixXd :=
  match e with
  | Hexahedron T =>
      HexahedronElement.dn_dx T xi nodal_coordinates particle_size
        deformation_gradient
  | HexahedronBSpline p this =>
      HexahedronBSplineElement.dn_dx p knot index_default this
        xi nodal_coordinates particle_size deformation_gradient
  end.
End Dispatch.

End Element.

(** ** The HDF5 particle tables of [src/hdf5_particle.cc] *)

Module hdf5_particle.
Local Open Scope string_scope.

(** The HDF5 native types the table names. *)
Inductive hid_t : Type :=
| H5T_NATIVE_LLONG
| H5T_NATIVE_DOUBLE
| H5T_NATIVE_HBOOL
| H5T_NATIVE_UINT.

(** A member of [HDF5Particle] as [HOFFSET] and [sizeof] designate it. *)
Inductive designator : Type :=
| member (name : string)
| svars (k : nat).

(** Modelled from the spec: [NFIELDS], declared in [hdf5_particle.h]; the
    persisted record has 56 fields. *)
Definition NFIELDS : nat := 56.

(** Modelled from the spec: the types of the members of [HDF5Particle],
    declared in [hdf5_particle.h]: a 64-bit integer for the id and the cell
    id, a boolean for the status flag, an unsigned integer for the material
    id and the number of state variables, a double for every other member. *)
Definition member_type (m : designator) : hid_t :=
  match m with
  | svars _ => H5T_NATIVE_DOUBLE
  | member name =>
      if (name =? "id") || (name =? "cell_id") then H5T_NATIVE_LLONG
      else if name =? "status" then H5T_NATIVE_HBOOL
      else if (name =? "material_id") || (name =? "nstate_vars")
           then H5T_NATIVE_UINT
      else H5T_NATIVE_DOUBLE
  end.

(** An array of [n] elements declared with the initialisers [init]: the
    elements past the last initialiser are zero, which is no native type. *)
Definition array {A : Type} (n : nat) (init : list A) : list (option A) :=
  firstn n (map Some init ++ repeat None (n - length init)).

Definition dst_offset : list designator :=
  [
    member "id"; member "mass"; member "volume";
    member "pressure"; member "coord_x"; member "coord_y";
    member "coord_z"; member "displacement_x"; member "displacement_y";
    member "displacement_z"; member "nsize_x"; member "nsize_y";
    member "nsize_z"; member "velocity_x"; member "velocity_y";
    member "velocity_z"; member "acceleration_x"; member "acceleration_y";
    member "acceleration_z"; member "stress_xx"; member "stress_yy";
    member "stress_zz"; member "tau_xy"; member "tau_yz";
    member "tau_xz"; member "strain_xx"; member "strain_yy";
    member "strain_zz"; member "gamma_xy"; member "gamma_yz";
    member "gamma_xz"; member "epsilon_v"; member "status";
    member "cell_id"; member "material_id"; member "nstate_vars";
    svars 0; svars 1; svars 2;
    svars 3; svars 4; svars 5;
    svars 6; svars 7; svars 8;
    svars 9; svars 10; svars 11;
    svars 12; svars 13; svars 14;
    svars 15; svars 16; svars 17;
    svars 18; svars 19 ].

Definition dst_sizes : list designator :=
  [
    member "id"; member "mass"; member "volume";
    member "pressure"; member "coord_x"; member "coord_y";
    member "coord_z"; member "displacement_x"; member "displacement_y";
    member "displacement_z"; member "nsize_x"; member "nsize_y";
    member "nsize_z"; member "velocity_x"; member "velocity_y";
    member "velocity_z"; member "acceleration_x"; member "acceleration_y";
    member "acceleration_z"; member "stress_xx"; member "stress_yy";
    member "stress_zz"; member "tau_xy"; member "tau_yz";
    member "tau_xz"; member "strain_xx"; member "strain_yy";
    member "strain_zz"; member "gamma_xy"; member "gamma_yz";
    member "gamma_xz"; member "epsilon_v"; member "status";
    member "cell_id"; member "material_id"; member "nstate_vars";
    svars 0; svars 1; svars 2;
    svars 3; svars 4; svars 5;
    svars 6; svars 7; svars 8;
    svars 9; svars 10; svars 11;
    svars 12; svars 13; svars 14;
    svars 15; svars 16; svars 17;
    svars 18; svars 19 ].

Definition field_names : list string :=
  [
    "id"; "mass"; "volume"; "pressure";
    "coord_x"; "coord_y"; "coord_z"; "displacement_x";
    "displacement_y"; "displacement_z"; "nsize_x"; "nsize_y";
    "nsize_z"; "velocity_x"; "velocity_y"; "velocity_z";
    "acceleration_x"; "acceleration_y"; "acceleration_z"; "stress_xx";
    "stress_yy"; "stress_zz"; "tau_xy"; "tau_yz";
    "tau_xz"; "strain_xx"; "strain_yy"; "strain_zz";
    "gamma_xy"; "gamma_yz"; "gamma_xz"; "epsilon_v";
    "status"; "cell_id"; "material_id"; "nstate_vars";
    "svars_0"; "svars_1"; "svars_2"; "svars_3";
    "svars_4"; "svars_5"; "svars_6"; "svars_7";
    "svars_8"; "svars_9"; "svars_10"; "svars_11";
    "svars_12"; "svars_13"; "svars_14"; "svars_15";
    "svars_16"; "svars_17"; "svars_18"; "svars_19" ].

Definition field_type : list hid_t :=
  [
    H5T_NATIVE_LLONG; H5T_NATIVE_DOUBLE; H5T_NATIVE_DOUBLE; H5T_NATIVE_DOUBLE;
    H5T_NATIVE_DOUBLE; H5T_NATIVE_DOUBLE; H5T_NATIVE_DOUBLE; H5T_NATIVE_DOUBLE;
    H5T_NATIVE_DOUBLE; H5T_NATIVE_DOUBLE; H5T_NATIVE_DOUBLE; H5T_NATIVE_DOUBLE;
    H5T_NATIVE_DOUBLE; H5T_NATIVE_DOUBLE; H5T_NATIVE_DOUBLE; H5T_NATIVE_DOUBLE;
    H5T_NATIVE_DOUBLE; H5T_NATIVE_DOUBLE; H5T_NATIVE_DOUBLE; H5T_NATIVE_DOUBLE;
    H5T_NATIVE_DOUBLE; H5T_NATIVE_DOUBLE; H5T_NATIVE_DOUBLE; H5T_NATIVE_DOUBLE;
    H5T_NATIVE_DOUBLE; H5T_NATIVE_DOUBLE; H5T_NATIVE_DOUBLE; H5T_NATIVE_DOUBLE;
    H5T_NATIVE_DOUBLE; H5T_NATIVE_HBOOL; H5T_NATIVE_LLONG; H5T_NATIVE_UINT;
    H5T_NATIVE_UINT; H5T_NATIVE_DOUBLE; H5T_NATIVE_DOUBLE; H5T_NATIVE_DOUBLE;
    H5T_NATIVE_DOUBLE; H5T_NATIVE_DOUBLE; H5T_NATIVE_DOUBLE; H5T_NATIVE_DOUBLE;
    H5T_NATIVE_DOUBLE; H5T_NATIVE_DOUBLE; H5T_NATIVE_DOUBLE; H5T_NATIVE_DOUBLE;
    H5T_NATIVE_DOUBLE; H5T_NATIVE_DOUBLE; H5T_NATIVE_DOUBLE; H5T_NATIVE_DOUBLE;
    H5T_NATIVE_DOUBLE; H5T_NATIVE_DOUBLE; H5T_NATIVE_DOUBLE; H5T_NATIVE_DOUBLE;
    H5T_NATIVE_DOUBLE ].

(** The name under which a member is persisted. *)
Definition decimal (k : nat) : string :=
  NilEmpty.string_of_uint (Nat.to_uint k).

Definition persisted_name (m : designator) : string :=
  match m with
  | member name => name
  | svars k => "svars_" ++ decimal k
  end.

(** The order of the fields of the persisted record, as the specification
    lists them. *)
Definition record_layout : list designator :=
  map member
    ["id"; "mass"; "volume"; "pressure";
     "coord_x"; "coord_y"; "coord_z";
     "displacement_x"; "displacement_y"; "displacement_z";
     "nsize_x"; "nsize_y"; "nsize_z";
     "velocity_x"; "velocity_y"; "velocity_z";
     "acceleration_x"; "acceleration_y"; "acceleration_z";
     "stress_xx"; "stress_yy"; "stress_zz"; "tau_xy"; "tau_yz"; "tau_xz";
     "strain_xx"; "strain_yy"; "strain_zz"; "gamma_xy"; "gamma_yz"; "gamma_xz";
     "epsilon_v"; "status"; "cell_id"; "material_id"; "nstate_vars"]
  ++ map svars (seq 0 20).

End hdf5_particle.

(** ** Notions the properties are stated with *)

(** The isoparametric unit cell [[-1, 1]^3]. *)
Definition in_unit_cell (xi : Eigen.Vector3d) : Prop :=
  -1 <= xi.[0] <= 1 /\ -1 <= xi.[1] <= 1 /\ -1 <= xi.[2] <= 1.

(** [xi] with its coefficient [j] replaced by [t]. *)
Definition with_coeff (xi : Eigen.Vector3d) (j : nat) (t : R) : Eigen.Vector3d :=
  match j with
  | 0%nat => Eigen.vec3 t xi.[1] xi.[2]
  | 1%nat => Eigen.vec3 xi.[0] t xi.[2]
  | _ => Eigen.vec3 xi.[0] xi.[1] t
  end.

(** [l] is the partial derivative of [f] with respect to [xi(j)] at [xi]. *)
Definition partial_derivative (f : Eigen.Vector3d -> R) (j : nat)
    (xi : Eigen.Vector3d) (l : R) : Prop :=
  derivable_pt_lim (fun t => f (with_coeff xi j t)) xi.[j] l.

(** Entry [(i, j)] of [grad] is the partial derivative of entry [i] of [N]. *)
Definition gradient_entry_consistent (N : Eigen.Vector3d -> Eigen.VectorXd)
    (grad : Eigen.Vector3d -> Eigen.MatrixXd) (xi : Eigen.Vector3d)
    (i j : nat) : Prop :=
  partial_derivative (fun x => nth i (N x) 0) j xi (Eigen.mcoeff (grad xi) i j).

(** The entries of the 20-node gradient whose formula reads [xi(1)] where the
    derivative of the shape function has [xi(0)]: rows 3 and 7, columns 1
    and 2. *)
Definition grad_shapefn20_slip (i j : nat) : bool :=
  ((i =? 3) || (i =? 7))%nat && ((j =? 1) || (j =? 2))%nat.

(** The chain rule the specification gives for [dn_dx]: the local gradients
    times the transpose of the inverse of the Jacobian, for a nodal-coordinate
    matrix of matching size and a non-singular Jacobian. *)
Definition dn_dx_chain_rule (knot : nat -> list R) (index_default : nat)
    (e : Element.variant) (xi : Eigen.Vector3d)
    (nodal_coordinates : Eigen.MatrixXd) (particle_size : Eigen.Vector3d)
    (deformation_gradient : Eigen.MatrixXd) : Prop :=
  forall G J,
    Element.grad_shapefn knot index_default e xi particle_size
      deformation_gradient = ret G ->
    Element.jacobian knot index_default e xi nodal_coordinates particle_size
      deformation_gradient = ret J ->
    Eigen.rectangular (Eigen.rows G) 3 nodal_coordinates ->
    Eigen.determinant J <> 0 ->
    Element.dn_dx knot index_default e xi nodal_coordinates particle_size
      deformation_gradient
    = eigen (Eigen.mmul G (Eigen.transpose (Eigen.inverse J))).

(** The types the persisted record declares, position by position, and the
    types its members have. *)
Definition declared_types : list (option hdf5_particle.hid_t) :=
  hdf5_particle.array hdf5_particle.NFIELDS hdf5_particle.field_type.

Definition expected_types : list (option hdf5_particle.hid_t) :=
  map (fun m => Some (hdf5_particle.member_type m)) hdf5_particle.record_layout.

(** A cube of side 4 centred at the origin, in the node order of the 8-node
    element, and a B-spline element initialised on its 8 nodes. *)
Definition cube4 : Eigen.MatrixXd :=
  [ [-2; -2; -2];
    [ 2; -2; -2];
    [ 2;  2; -2];
    [-2;  2; -2];
    [-2; -2;  2];
    [ 2; -2;  2];
    [ 2;  2;  2];
    [-2;  2;  2] ].

Definition bspline_cube4 : HexahedronBSplineElement.state :=
  {| HexahedronBSplineElement.nconnectivity_ := 8;
     HexahedronBSplineElement.nodal_coordinates_ := cube4;
     HexahedronBSplineElement.node_type_ := repeat [0; 0; 0]%nat 8;
     HexahedronBSplineElement.spacing_length_ := 4 |}.

(** The image of a unit-cell coordinate [u] under the affine map that sends
    the origin to [c] and the three unit axes to [a0], [a1], [a2]. *)
Definition affine_image (c a0 a1 a2 : Eigen.Vector3d) (u : list R) : list R :=
  map (fun k => c.[k] + nth 0 u 0 * a0.[k] + nth 1 u 0 * a1.[k] + nth 2 u 0 * a2.[k])
      (seq 0 3).

(** The nodal coordinates of a parallelepiped cell: the affine image of the
    unit cell of the element. *)
Definition affine_cell (T : HexahedronElement.Tnfunctions)
    (c a0 a1 a2 : Eigen.Vector3d) : Eigen.MatrixXd :=
  map (affine_image c a0 a1 a2) (HexahedronElement.unit_cell_coordinates T).

Definition row_of (v : Eigen.Vector3d) : list R := [v.[0]; v.[1]; v.[2]].

(** The sum of all coefficients of a matrix. *)
Definition total (m : Eigen.MatrixXd) : R := Eigen.sum (map Eigen.sum m).

(** The strain [B * u] a 6 by 3 block gives for the displacement [u] of its
    node, and the strain of a list of blocks for one displacement per node. *)
Definition block_strain (B : Eigen.MatrixXd) (u : Eigen.Vector3d) : Eigen.VectorXd :=
  map (fun row => Eigen.dotXd row (row_of u)) B.

Fixpoint strain (blocks : list Eigen.MatrixXd) (u : list Eigen.Vector3d)
    : Eigen.VectorXd :=
  match blocks, u with
  | B :: blocks', ui :: u' =>
      Eigen.vaddXd (block_strain B ui) (strain blocks' u')
  | _, _ => [0; 0; 0; 0; 0; 0]
  end.

(** The call [kernel(., ., ., poly_order, index)] reads the knots [index] to
    [index + poly_order + 1]: they are in the knot vector and in
    non-decreasing order. *)
Definition knots_ordered (knot_coord : Eigen.VectorXd) (index poly_order : nat)
    : Prop :=
  (index + poly_order + 1 < length knot_coord)%nat /\
  forall i, (index <= i < index + poly_order + 1)%nat ->
            nth i knot_coord 0 <= nth (S i) knot_coord 0.

(** The B-spline element reads [node_type_[n][i]] for every connected node
    [n] and direction [i], and the knots [index_default] to
    [index_default + Tpolynomial + 1] of the knot vectors: all of them
    exist. *)
Definition reads_in_range (Tpolynomial : nat) (knot : nat -> list R)
    (index_default : nat) (this : HexahedronBSplineElement.state) : Prop :=
  length (HexahedronBSplineElement.node_type_ this)
  = HexahedronBSplineElement.nconnectivity_ this /\
  Forall (fun types => length types = 3%nat)
         (HexahedronBSplineElement.node_type_ this) /\
  forall t, (index_default + Tpolynomial + 1 < length (knot t))%nat.

(** The cube of side 4 with a ninth node, one spacing to the right of node 1,
    and the B-spline element initialised on these 9 nodes. *)
Definition cube4_plus : Eigen.MatrixXd := cube4 ++ [[6; -2; -2]].

Definition bspline_cube4_plus : HexahedronBSplineElement.state :=
  {| HexahedronBSplineElement.nconnectivity_ := 9;
     HexahedronBSplineElement.nodal_coordinates_ := cube4_plus;
     HexahedronBSplineElement.node_type_ := repeat [0; 0; 0]%nat 9;
     HexahedronBSplineElement.spacing_length_ := 4 |}.

(** The squared distance between the nodes [a] and [b] of the unit cell. *)
Definition unit_cell_distance2 (T : HexahedronElement.Tnfunctions) (a b : nat) : R :=
  let u := Eigen.mcoeff (HexahedronElement.unit_cell_coordinates T) in
  (u a 0%nat - u b 0%nat) * (u a 0%nat - u b 0%nat)
  + (u a 1%nat - u b 1%nat) * (u a 1%nat - u b 1%nat)
  + (u a 2%nat - u b 2%nat) * (u a 2%nat - u b 2%nat).

(** The nodes [a] and [b] are joined by a side of [sides_indices]. *)
Definition joined_by_side (a b : nat) : Prop :=
  In [a; b] HexahedronElement.sides_indices \/
  In [b; a] HexahedronElement.sides_indices.

(** The local gradients of the 8-node element at the centre of the cell,
    halved: what the chain rule gives on a cube of side 4. *)
Definition half_gradients : Eigen.MatrixXd :=
  map (map (fun g => g / 2))
      (HexahedronElement.grad_shapefn8 (Eigen.vec3 0 0 0) (Eigen.vec3 0 0 0) []).

(** The trilinear shape function of the corner [s] of the unit cell: the
    product of the three linear functions that are 1 on the faces through the
    corner and 0 on the opposite faces. *)
Definition trilinear (s : list R) (xi : Eigen.Vector3d) : R :=
  (1 + nth 0 s 0 * xi.[0]) / 2 * ((1 + nth 1 s 0 * xi.[1]) / 2)
  * ((1 + nth 2 s 0 * xi.[2]) / 2).

(** The 8 trilinear shape functions, in the node order of the unit cell. *)
Definition trilinear_shape_functions (xi : Eigen.Vector3d) : Eigen.VectorXd :=
  map (fun s => trilinear s xi) HexahedronElement.unit_cell_coordinates8.

(** The trilinear map of a cell: the point of local coordinate [xi] in the
    hexahedron whose corners are the first 8 rows of [nodes]. *)
Definition trilinear_map (nodes : Eigen.MatrixXd) (xi : Eigen.Vector3d) : list R :=
  map (fun j => Eigen.dotXd (trilinear_shape_functions xi)
                  (Eigen.column j (firstn 8 nodes)))
      (seq 0 3).

(** ** The arithmetic of [double] *)

(** The definitions above read [double] as a real number.  The two modules
    below evaluate the same formulas with rounding.  [Binary64] computes in
    IEEE 754 binary64, every operation rounded to nearest with ties to even
    and none fused, through the primitive floating-point numbers of Rocq.
    [Rounded] computes over the real numbers and applies a rounding function
    after every operation. *)

Module Binary64.
Import ZArith QArith PrimFloat FloatOps SpecFloat.
Local Open Scope float_scope.

Definition double : Type := float.
Definition VectorXd : Type := list double.
Definition MatrixXd : Type := list (list double).

Record Vector3d : Type := vec3 { c0 : double; c1 : double; c2 : double }.

Definition coeff (v : Vector3d) (i : nat) : double :=
  match i with
  | 0%nat => c0 v
  | 1%nat => c1 v
  | _ => c2 v
  end.

Local Notation "v .[ i ]" := (coeff v i%nat)
  (at level 1, left associativity, format "v .[ i ]") : float_scope.

Definition put (i : nat) (e : double) : nat * double := (i, e).

Definition assign (n : nat) (l : list (nat * double)) : VectorXd :=
  fold_left (fun v a => Eigen.update v (fst a) (fun _ => snd a)) l (repeat 0 n).

(** [HexahedronElement<3, 8>::shapefn] *)
Definition shapefn8 (xi particle_size : Vector3d)
    (deformation_gradient : MatrixXd) : VectorXd :=
  assign 8 [
    put 0 (0.125 * (1 - xi.[0]) * (1 - xi.[1]) * (1 - xi.[2]));
    put 1 (0.125 * (1 + xi.[0]) * (1 - xi.[1]) * (1 - xi.[2]));
    put 2 (0.125 * (1 + xi.[0]) * (1 + xi.[1]) * (1 - xi.[2]));
    put 3 (0.125 * (1 - xi.[0]) * (1 + xi.[1]) * (1 - xi.[2]));
    put 4 (0.125 * (1 - xi.[0]) * (1 - xi.[1]) * (1 + xi.[2]));
    put 5 (0.125 * (1 + xi.[0]) * (1 - xi.[1]) * (1 + xi.[2]));
    put 6 (0.125 * (1 + xi.[0]) * (1 + xi.[1]) * (1 + xi.[2]));
    put 7 (0.125 * (1 - xi.[0]) * (1 + xi.[1]) * (1 + xi.[2])) ].

(** [HexahedronElement<3, 20>::shapefn] *)
Definition shapefn20 (xi particle_size : Vector3d)
    (deformation_gradient : MatrixXd) : VectorXd :=
  assign 20 [
    put 0 (-0.125 * (1 - xi.[0]) * (1 - xi.[1]) * (1 - xi.[2])
        * (2 + xi.[0] + xi.[1] + xi.[2]));
    put 1 (-0.125 * (1 + xi.[0]) * (1 - xi.[1]) * (1 - xi.[2])
        * (2 - xi.[0] + xi.[1] + xi.[2]));
    put 2 (-0.125 * (1 + xi.[0]) * (1 + xi.[1]) * (1 - xi.[2])
        * (2 - xi.[0] - xi.[1] + xi.[2]));
    put 3 (-0.125 * (1 - xi.[0]) * (1 + xi.[1]) * (1 - xi.[2])
        * (2 + xi.[0] - xi.[1] + xi.[2]));
    put 4 (-0.125 * (1 - xi.[0]) * (1 - xi.[1]) * (1 + xi.[2])
        * (2 + xi.[0] + xi.[1] - xi.[2]));
    put 5 (-0.125 * (1 + xi.[0]) * (1 - xi.[1]) * (1 + xi.[2])
        * (2 - xi.[0] + xi.[1] - xi.[2]));
    put 6 (-0.125 * (1 + xi.[0]) * (1 + xi.[1]) * (1 + xi.[2])
        * (2 - xi.[0] - xi.[1] - xi.[2]));
    put 7 (-0.125 * (1 - xi.[0]) * (1 + xi.[1]) * (1 + xi.[2])
        * (2 + xi.[0] - xi.[1] - xi.[2]));
    put 8 (0.25 * (1 - xi.[0] * xi.[0]) * (1 - xi.[1]) * (1 - xi.[2]));
    put 11 (0.25 * (1 - xi.[1] * xi.[1]) * (1 + xi.[0]) * (1 - xi.[2]));
    put 13 (0.25 * (1 - xi.[0] * xi.[0]) * (1 + xi.[1]) * (1 - xi.[2]));
    put 9 (0.25 * (1 - xi.[1] * xi.[1]) * (1 - xi.[0]) * (1 - xi.[2]));
    put 10 (0.25 * (1 - xi.[2] * xi.[2]) * (1 - xi.[0]) * (1 - xi.[1]));
    put 12 (0.25 * (1 - xi.[2] * xi.[2]) * (1 + xi.[0]) * (1 - xi.[1]));
    put 14 (0.25 * (1 - xi.[2] * xi.[2]) * (1 + xi.[0]) * (1 + xi.[1]));
    put 15 (0.25 * (1 - xi.[2] * xi.[2]) * (1 - xi.[0]) * (1 + xi.[1]));
    put 16 (0.25 * (1 - xi.[0] * xi.[0]) * (1 - xi.[1]) * (1 + xi.[2]));
    put 18 (0.25 * (1 - xi.[1] * xi.[1]) * (1 + xi.[0]) * (1 + xi.[2]));
    put 19 (0.25 * (1 - xi.[0] * xi.[0]) * (1 + xi.[1]) * (1 + xi.[2]));
    put 17 (0.25 * (1 - xi.[1] * xi.[1]) * (1 - xi.[0]) * (1 + xi.[2])) ].

Definition shapefn (T : HexahedronElement.Tnfunctions) :=
  match T with
  | HexahedronElement.Hex8 => shapefn8
  | HexahedronElement.Hex20 => shapefn20
  end.

(** [HexahedronElement<3, 8>::unit_cell_coordinates] *)
Definition unit_cell_coordinates8 : MatrixXd :=
  [ [-1; -1; -1];
    [ 1; -1; -1];
    [ 1;  1; -1];
    [-1;  1; -1];
    [-1; -1;  1];
    [ 1; -1;  1];
    [ 1;  1;  1];
    [-1;  1;  1] ].

Definition row3 (m : MatrixXd) (k : nat) : option Vector3d :=
  match nth_error m k with
  | Some [a; b; c] => Some (vec3 a b c)
  | _ => None
  end.

Definition sub3 (u v : Vector3d) : Vector3d :=
  vec3 (c0 u - c0 v) (c1 u - c1 v) (c2 u - c2 v).
Definition add3 (u v : Vector3d) : Vector3d :=
  vec3 (c0 u + c0 v) (c1 u + c1 v) (c2 u + c2 v).
Definition cross3 (u v : Vector3d) : Vector3d :=
  vec3 (c1 u * c2 v - c2 u * c1 v)
       (c2 u * c0 v - c0 u * c2 v)
       (c0 u * c1 v - c1 u * c0 v).

(** The order in which [dot] adds its three products is Eigen's choice, not
    the source's: from the left, or the first product to the sum of the
    other two. *)
Inductive reduction : Type := from_the_left | by_halves.

Definition dot3 (o : reduction) (u v : Vector3d) : double :=
  match o with
  | from_the_left => c0 u * c0 v + c1 u * c1 v + c2 u * c2 v
  | by_halves => c0 u * c0 v + (c1 u * c1 v + c2 u * c2 v)
  end.

(** [compute_volume] *)
Definition compute_volume (o : reduction) (nodal_coordinates : MatrixXd)
    : option double :=
  match row3 nodal_coordinates 7, row3 nodal_coordinates 6,
        row3 nodal_coordinates 2, row3 nodal_coordinates 3,
        row3 nodal_coordinates 4, row3 nodal_coordinates 5,
        row3 nodal_coordinates 1, row3 nodal_coordinates 0 with
  | Some a, Some b, Some c, Some d, Some e, Some f, Some g, Some h =>
      let dot := dot3 o in
      let cross := cross3 in
      let plus := add3 in
      let minus := sub3 in
      Some
      ((1.0 / 12) * dot (minus a g)
                        (plus (plus (cross (minus b d) (minus c a))
                                    (cross (minus e b) (minus f a)))
                              (cross (minus d e) (minus h a)))
       + (1.0 / 12) * dot (minus b g)
                          (plus (cross (minus b d) (minus c a))
                                (cross (minus c g) (minus c f)))
       + (1.0 / 12) * dot (minus e g)
                          (plus (cross (minus e b) (minus f a))
                                (cross (minus f g) (minus h f)))
       + (1.0 / 12) * dot (minus d g)
                          (plus (cross (minus d e) (minus h a))
                                (cross (minus h g) (minus h c))))
  | _, _, _, _, _, _, _, _ => None
  end.

(** The rational number a finite [double] stands for. *)
Definition exact (x : double) : option Q :=
  match Prim2SF x with
  | S754_zero _ => Some 0%Q
  | S754_finite s m e =>
      Some (Qred (inject_Z (if s then Z.neg m else Z.pos m) * Qpower 2 e))
  | _ => None
  end.

(** The sum of the entries of a vector as rational numbers, without
    rounding. *)
Fixpoint exact_sum (v : VectorXd) : option Q :=
  match v with
  | [] => Some 0%Q
  | x :: v' =>
      match exact x, exact_sum v' with
      | Some q, Some s => Some (Qred (q + s))
      | _, _ => None
      end
  end.

(** [v.sum()], added from the left. *)
Definition sum (v : VectorXd) : double := fold_left PrimFloat.add v 0.

Definition in_unit_cell (xi : Vector3d) : bool :=
  (-1 <=? xi.[0]) && (xi.[0] <=? 1) && (-1 <=? xi.[1]) && (xi.[1] <=? 1)
  && (-1 <=? xi.[2]) && (xi.[2] <=? 1).

(** An integer of magnitude below [2^53], which [double] holds exactly. *)
Definition of_Z (z : Z) : double :=
  match z with
  | Z0 => 0
  | Zpos _ => of_uint63 (Uint63.of_Z z)
  | Zneg p => - of_uint63 (Uint63.of_Z (Zpos p))
  end.

(** The [double] nearest to 0.1, and the local coordinate
    [(0.1, 0.1, 0.1)]. *)
Definition tenth : double := 0x1.999999999999ap-4.
Definition tenths : Vector3d := vec3 tenth tenth tenth.

End Binary64.

Module Rounded.

Declare Scope rounded_scope.
Delimit Scope rounded_scope with rounded.

Section Rounding.

(** The rounding applied to the exact result of every operation. *)
Variable rnd : R -> R.

Definition add (a b : R) : R := rnd (a + b).
Definition sub (a b : R) : R := rnd (a - b).
Definition mul (a b : R) : R := rnd (a * b).

Arguments add (a b)%_rounded.
Arguments sub (a b)%_rounded.
Arguments mul (a b)%_rounded.

Local Infix "+" := add : rounded_scope.
Local Infix "-" := sub : rounded_scope.
Local Infix "*" := mul : rounded_scope.

Definition put (i : nat) (e : R) : nat * R := Eigen.put i e.
Arguments put i%_nat e%_rounded.

(** [HexahedronElement<3, 8>::shapefn]; its literals are binary fractions
    and small integers, which [double] holds exactly. *)
Definition shapefn8 (xi particle_size : Eigen.Vector3d)
    (deformation_gradient : Eigen.MatrixXd) : Eigen.VectorXd :=
  Eigen.assign 8 [
    put 0 (0.125 * (1 - xi.[0]) * (1 - xi.[1]) * (1 - xi.[2]));
    put 1 (0.125 * (1 + xi.[0]) * (1 - xi.[1]) * (1 - xi.[2]));
    put 2 (0.125 * (1 + xi.[0]) * (1 + xi.[1]) * (1 - xi.[2]));
    put 3 (0.125 * (1 - xi.[0]) * (1 + xi.[1]) * (1 - xi.[2]));
    put 4 (0.125 * (1 - xi.[0]) * (1 - xi.[1]) * (1 + xi.[2]));
    put 5 (0.125 * (1 + xi.[0]) * (1 - xi.[1]) * (1 + xi.[2]));
    put 6 (0.125 * (1 + xi.[0]) * (1 + xi.[1]) * (1 + xi.[2]));
    put 7 (0.125 * (1 - xi.[0]) * (1 + xi.[1]) * (1 + xi.[2])) ].

(** [HexahedronElement<3, 20>::shapefn] *)
Definition shapefn20 (xi particle_size : Eigen.Vector3d)
    (deformation_gradient : Eigen.MatrixXd) : Eigen.VectorXd :=
  Eigen.assign 20 [
    put 0 (-0.125 * (1 - xi.[0]) * (1 - xi.[1]) * (1 - xi.[2])
        * (2 + xi.[0] + xi.[1] + xi.[2]));
    put 1 (-0.125 * (1 + xi.[0]) * (1 - xi.[1]) * (1 - xi.[2])
        * (2 - xi.[0] + xi.[1] + xi.[2]));
    put 2 (-0.125 * (1 + xi.[0]) * (1 + xi.[1]) * (1 - xi.[2])
        * (2 - xi.[0] - xi.[1] + xi.[2]));
    put 3 (-0.125 * (1 - xi.[0]) * (1 + xi.[1]) * (1 - xi.[2])
        * (2 + xi.[0] - xi.[1] + xi.[2]));
    put 4 (-0.125 * (1 - xi.[0]) * (1 - xi.[1]) * (1 + xi.[2])
        * (2 + xi.[0] + xi.[1] - xi.[2]));
    put 5 (-0.125 * (1 + xi.[0]) * (1 - xi.[1]) * (1 + xi.[2])
        * (2 - xi.[0] + xi.[1] - xi.[2]));
    put 6 (-0.125 * (1 + xi.[0]) * (1 + xi.[1]) * (1 + xi.[2])
        * (2 - xi.[0] - xi.[1] - xi.[2]));
    put 7 (-0.125 * (1 - xi.[0]) * (1 + xi.[1]) * (1 + xi.[2])
        * (2 + xi.[0] - xi.[1] - xi.[2]));
    put 8 (0.25 * (1 - xi.[0] * xi.[0]) * (1 - xi.[1]) * (1 - xi.[2]));
    put 11 (0.25 * (1 - xi.[1] * xi.[1]) * (1 + xi.[0]) * (1 - xi.[2]));
    put 13 (0.25 * (1 - xi.[0] * xi.[0]) * (1 + xi.[1]) * (1 - xi.[2]));
    put 9 (0.25 * (1 - xi.[1] * xi.[1]) * (1 - xi.[0]) * (1 - xi.[2]));
    put 10 (0.25 * (1 - xi.[2] * xi.[2]) * (1 - xi.[0]) * (1 - xi.[1]));
    put 12 (0.25 * (1 - xi.[2] * xi.[2]) * (1 + xi.[0]) * (1 - xi.[1]));
    put 14 (0.25 * (1 - xi.[2] * xi.[2]) * (1 + xi.[0]) * (1 + xi.[1]));
    put 15 (0.25 * (1 - xi.[2] * xi.[2]) * (1 - xi.[0]) * (1 + xi.[1]));
    put 16 (0.25 * (1 - xi.[0] * xi.[0]) * (1 - xi.[1]) * (1 + xi.[2]));
    put 18 (0.25 * (1 - xi.[1] * xi.[1]) * (1 + xi.[0]) * (1 + xi.[2]));
    put 19 (0.25 * (1 - xi.[0] * xi.[0]) * (1 + xi.[1]) * (1 + xi.[2]));
    put 17 (0.25 * (1 - xi.[1] * xi.[1]) * (1 - xi.[0]) * (1 + xi.[2])) ].

Definition shapefn (T : HexahedronElement.Tnfunctions) :=
  match T with
  | HexahedronElement.Hex8 => shapefn8
  | HexahedronElement.Hex20 => shapefn20
  end.

End Rounding.

(** *** Accumulated rounding error *)

(** [x] is a computed value of the exact value [X]: the magnitude of [X] is
    at most [M] and [x] is within [k] rounding errors [w] of it. *)
Definition near (w x X M k : R) : Prop :=
  0 <= k /\ Rabs X <= M /\ Rabs (x - X) <= k * w.

(** The entries of [l] are computed values of the entries of [L], within [K]
    rounding errors in total. *)
Inductive near_all (w : R) : list R -> list R -> R -> Prop :=
| near_nil : near_all w [] [] 0
| near_cons x X M k l L K :
    near w x X M k -> near_all w l L K -> near_all w (x :: l) (X :: L) (k + K).

End Rounded.


(** ** Proof support *)

(** The decimal literals of the source, as fractions. *)
Lemma lit_0125 : 0.125 = 1 / 8. Proof. lra. Qed.
Lemma lit_m0125 : -0.125 = - (1 / 8). Proof. lra. Qed.
Lemma lit_025 : 0.25 = 1 / 4. Proof. lra. Qed.
Lemma lit_m025 : -0.25 = - (1 / 4). Proof. lra. Qed.
Lemma lit_m05 : -0.5 = - (1 / 2). Proof. lra. Qed.
Lemma lit_10 : 1.0 = 1. Proof. lra. Qed.
Lemma lit_00 : 0.0 = 0. Proof. lra. Qed.

Create Rewrite HintDb literals.
#[global] Hint Rewrite lit_0125 lit_m0125 lit_025 lit_m025 lit_m05 lit_10 lit_00
  : literals.

(** Evaluate the coefficient-wise construction of a vector or matrix. *)
Ltac build :=
  cbv [HexahedronElement.shapefn HexahedronElement.grad_shapefn
       HexahedronElement.shapefn8 HexahedronElement.grad_shapefn8
       HexahedronElement.shapefn20 HexahedronElement.grad_shapefn20
       HexahedronElement.shapefn_local
       Eigen.assign Eigen.assign2 Eigen.put Eigen.put2 Eigen.update
       Eigen.Zero Eigen.Constant Eigen.coeff Eigen.c0 Eigen.c1 Eigen.c2
       fold_left repeat fst snd].

Ltac literals := autorewrite with literals.

Example shapefn8_origin :
  HexahedronElement.shapefn8 (Eigen.vec3 0 0 0) (Eigen.vec3 0 0 0) [] =
  [1/8; 1/8; 1/8; 1/8; 1/8; 1/8; 1/8; 1/8].
Proof. build. literals. repeat (f_equal; try lra). Qed.

(** The shape functions of both elements sum to 1 at every [xi]. *)
Lemma shapefn_sum :
  forall T xi particle_size deformation_gradient,
    Eigen.sum (HexahedronElement.shapefn T xi particle_size deformation_gradient) = 1.
Proof.
  intros [] [x y z] ps F; build; cbv [Eigen.sum fold_right]; literals; field.
Qed.

(** *** Derivatives of polynomials of degree at most 2 *)

Lemma derivable_pt_lim_quadratic (f : R -> R) (a b c x l : R) :
  (forall t, f t = a + b * t + c * (t * t)) ->
  l = b + 2 * c * x ->
  derivable_pt_lim f x l.
Proof.
  intros Hf Hl.
  assert (D : derivable_pt_lim
                (fct_cte a + mult_real_fct b id + mult_real_fct c (id * id))%F
                x (0 + b * 1 + c * (1 * id x + id x * 1))).
  { apply derivable_pt_lim_plus; [apply derivable_pt_lim_plus |].
    - apply derivable_pt_lim_const.
    - apply derivable_pt_lim_scal, derivable_pt_lim_id.
    - apply derivable_pt_lim_scal, derivable_pt_lim_mult; apply derivable_pt_lim_id. }
  replace l with (0 + b * 1 + c * (1 * id x + id x * 1)) by (unfold id; lra).
  intros eps Heps. destruct (D eps Heps) as [delta Hd]. exists delta.
  intros h Hh Hlt. specialize (Hd h Hh Hlt).
  rewrite !Hf.
  unfold plus_fct, mult_real_fct, mult_fct, fct_cte, id in Hd. exact Hd.
Qed.

(** Decide a partial derivative of a function that is quadratic in [t]. *)
Ltac quadratic :=
  lazymatch goal with
  | |- derivable_pt_lim ?f ?x ?l =>
      apply (derivable_pt_lim_quadratic f (f 0) ((f 1 - f (-1)) / 2)
               ((f 1 + f (-1) - 2 * f 0) / 2) x l);
      [ intros ?t; cbv beta; literals; field
      | cbv beta; literals; field ]
  end.

Ltac entry :=
  cbv [gradient_entry_consistent partial_derivative with_coeff Eigen.mcoeff nth];
  build; cbv [nth]; quadratic.

(** X2.  Every entry [(i, j)] of the 8-node [grad_shapefn] is the partial
    derivative of entry [i] of the 8-node [shapefn] with respect to [xi(j)],
    at every local coordinate. *)
Lemma grad_shapefn8_consistent :
  forall xi particle_size deformation_gradient i j,
    (i < 8)%nat -> (j < 3)%nat ->
    gradient_entry_consistent
      (fun x => HexahedronElement.shapefn8 x particle_size deformation_gradient)
      (fun x => HexahedronElement.grad_shapefn8 x particle_size deformation_gradient)
      xi i j.
Proof.
  intros [x y z] ps F i j Hi Hj.
  do 8 (destruct i as [|i]; [ do 3 (destruct j as [|j]; [ entry |]); lia |]); lia.
Qed.

(** X1.  Each shape function of the 8-node and of the 20-node element is 1
    at its own node of the unit cell and 0 at every other node. *)
Lemma shapefn_nodal_values T k xi particle_size deformation_gradient :
  Eigen.row3 (HexahedronElement.unit_cell_coordinates T) k = Some xi ->
  HexahedronElement.shapefn T xi particle_size deformation_gradient
  = map (fun i => if (i =? k)%nat then 1 else 0)
        (seq 0 (HexahedronElement.nfunctions T)).
Proof.
  destruct T.
  - do 8 (destruct k as [|k];
          [ intros [= <-]; build; cbv [map seq Nat.eqb HexahedronElement.nfunctions];
            literals; repeat (apply (f_equal2 cons); [lra |]); reflexivity |]).
    destruct k; discriminate.
  - do 20 (destruct k as [|k];
           [ intros [= <-]; build; cbv [map seq Nat.eqb HexahedronElement.nfunctions];
             literals; repeat (apply (f_equal2 cons); [lra |]); reflexivity |]).
    destruct k; discriminate.
Qed.

(** X3.  Apart from the entries (3, 1), (7, 1), (3, 2) and (7, 2), every
    entry [(i, j)] of the 20-node [grad_shapefn] is the partial derivative of
    entry [i] of the 20-node [shapefn] with respect to [xi(j)], at every local
    coordinate. *)
Lemma grad_shapefn20_consistent_elsewhere :
  forall xi particle_size deformation_gradient i j,
    (i < 20)%nat -> (j < 3)%nat ->
    grad_shapefn20_slip i j = false ->
    gradient_entry_consistent
      (fun x => HexahedronElement.shapefn20 x particle_size deformation_gradient)
      (fun x => HexahedronElement.grad_shapefn20 x particle_size deformation_gradient)
      xi i j.
Proof.
  intros [x y z] ps F i j Hi Hj Hs.
  do 20 (destruct i as [|i];
         [ do 3 (destruct j as [|j]; [ first [ discriminate Hs | entry ] |]); lia |]);
  lia.
Qed.

(** The derivative a quadratic function really has, for comparison. *)
Ltac true_derivative f x :=
  constr:(derivable_pt_lim_quadratic f (f 0) ((f 1 - f (-1)) / 2)
            ((f 1 + f (-1) - 2 * f 0) / 2) x
            ((f 1 - f (-1)) / 2 + 2 * ((f 1 + f (-1) - 2 * f 0) / 2) * x)).

Ltac refute_entry :=
  cbv [gradient_entry_consistent partial_derivative with_coeff Eigen.mcoeff nth];
  build; cbv [nth];
  lazymatch goal with
  | |- ~ derivable_pt_lim ?f ?x ?l =>
      let D := true_derivative f x in
      let H := fresh "H" in
      let E := fresh "E" in
      intro H;
      assert (E := uniqueness_limite f x _ _ H
                     (D ltac:(intros ?t; cbv beta; literals; field) eq_refl));
      cbv beta in E; revert E; literals; lra
  end.

(** C2.  At [xi = (1/2, 0, 0)] four entries of the 20-node [grad_shapefn]
    are not the partial derivatives of the 20-node [shapefn]: entries (3, 1),
    (7, 1), (3, 2) and (7, 2) hold 3/16 in absolute value where the
    derivative is 3/32.  Their formulas have [(1 - xi(1))] where the
    derivative has [(1 - xi(0))]. *)
Theorem grad_shapefn20_inconsistent :
  let xi := Eigen.vec3 (1 / 2) 0 0 in
  let N x := HexahedronElement.shapefn20 x (Eigen.vec3 0 0 0) [] in
  let G x := HexahedronElement.grad_shapefn20 x (Eigen.vec3 0 0 0) [] in
  (Eigen.mcoeff (G xi) 3 1 = - (3 / 16) /\
   partial_derivative (fun x => nth 3 (N x) 0) 1 xi (- (3 / 32))) /\
  (Eigen.mcoeff (G xi) 7 1 = - (3 / 16) /\
   partial_derivative (fun x => nth 7 (N x) 0) 1 xi (- (3 / 32))) /\
  (Eigen.mcoeff (G xi) 3 2 = 3 / 16 /\
   partial_derivative (fun x => nth 3 (N x) 0) 2 xi (3 / 32)) /\
  (Eigen.mcoeff (G xi) 7 2 = - (3 / 16) /\
   partial_derivative (fun x => nth 7 (N x) 0) 2 xi (- (3 / 32))) /\
  ~ gradient_entry_consistent N G xi 3 1 /\
  ~ gradient_entry_consistent N G xi 7 1 /\
  ~ gradient_entry_consistent N G xi 3 2 /\
  ~ gradient_entry_consistent N G xi 7 2.
Proof.
  cbv zeta.
  repeat match goal with
         | |- _ /\ _ => split
         | |- Eigen.mcoeff _ _ _ = _ =>
             cbv [Eigen.mcoeff nth]; build; cbv [nth]; literals; lra
         | |- partial_derivative _ _ _ _ =>
             cbv [partial_derivative with_coeff nth]; build; cbv [nth]; quadratic
         | |- ~ _ => refute_entry
         end.
Qed.

(** ** The persisted particle record *)

Lemma particle_tables_order :
  hdf5_particle.dst_offset = hdf5_particle.record_layout /\
  hdf5_particle.dst_sizes = hdf5_particle.record_layout /\
  hdf5_particle.field_names =
    map hdf5_particle.persisted_name hdf5_particle.record_layout /\
  length hdf5_particle.record_layout = hdf5_particle.NFIELDS.
Proof. repeat split; reflexivity. Qed.

(** C1.  The offsets, sizes and names tables list the 56 fields in the order
    of the record, but [field_type] has 53 initialisers: it agrees with the
    members' types on positions 0 to 28 only.  From position 29 on the
    declared types are those of a record without the three acceleration
    fields, so the boolean, the 64-bit integer and the two unsigned integers
    sit three positions early (the status flag is declared an unsigned
    integer, the cell id a double), and the last three state-variable slots
    have no declared type. *)
Theorem field_type_misaligned :
  length hdf5_particle.field_names = 56%nat /\
  length hdf5_particle.field_type = 53%nat /\
  firstn 29 declared_types = firstn 29 expected_types /\
  map (fun i => (nth i hdf5_particle.field_names ""%string,
                 nth i declared_types None, nth i expected_types None))
      (seq 29 7)
  = [ ("gamma_yz"%string, Some hdf5_particle.H5T_NATIVE_HBOOL,
                          Some hdf5_particle.H5T_NATIVE_DOUBLE);
      ("gamma_xz"%string, Some hdf5_particle.H5T_NATIVE_LLONG,
                          Some hdf5_particle.H5T_NATIVE_DOUBLE);
      ("epsilon_v"%string, Some hdf5_particle.H5T_NATIVE_UINT,
                           Some hdf5_particle.H5T_NATIVE_DOUBLE);
      ("status"%string, Some hdf5_particle.H5T_NATIVE_UINT,
                        Some hdf5_particle.H5T_NATIVE_HBOOL);
      ("cell_id"%string, Some hdf5_particle.H5T_NATIVE_DOUBLE,
                         Some hdf5_particle.H5T_NATIVE_LLONG);
      ("material_id"%string, Some hdf5_particle.H5T_NATIVE_DOUBLE,
                             Some hdf5_particle.H5T_NATIVE_UINT);
      ("nstate_vars"%string, Some hdf5_particle.H5T_NATIVE_DOUBLE,
                             Some hdf5_particle.H5T_NATIVE_UINT) ] /\
  skipn 53 declared_types = [None; None; None] /\
  declared_types <> expected_types.
Proof.
  repeat split; try reflexivity.
  intro H. apply (f_equal (fun l => nth 32 l None)) in H. discriminate H.
Qed.

(** ** Shape functions *)




(** ** Size checks, Jacobian and physical gradients *)

Ltac linalg :=
  cbv [HexahedronElement.jacobian HexahedronElement.dn_dx HexahedronElement.bmatrix
       HexahedronElement.laplace_matrix HexahedronElement.laplace_check
       HexahedronElement.laplace_step HexahedronElement.incorrect_dimension
       HexahedronElement.nfunctions
       HexahedronElement.unit_cell_coordinates8
       Eigen.mmul Eigen.madd Eigen.maddXd Eigen.vaddXd Eigen.fixed Eigen.transpose
       Eigen.column Eigen.rows Eigen.cols Eigen.dotXd Eigen.inverse
       Eigen.mcoeff Eigen.Identity3
       bind ret eigen console_error
       length map seq nth app fold_left negb orb andb Nat.eqb].

Lemma rows_grad_shapefn T xi particle_size deformation_gradient :
  Eigen.rows (HexahedronElement.grad_shapefn T xi particle_size deformation_gradient)
  = HexahedronElement.nfunctions T.
Proof. destruct T; reflexivity. Qed.

Lemma cols_grad_shapefn T xi particle_size deformation_gradient :
  Eigen.cols (HexahedronElement.grad_shapefn T xi particle_size deformation_gradient)
  = 3%nat.
Proof. destruct T; reflexivity. Qed.

Lemma transpose_grad_shapefn_size T xi particle_size deformation_gradient :
  let Gt := Eigen.transpose
              (HexahedronElement.grad_shapefn T xi particle_size deformation_gradient) in
  Eigen.rows Gt = 3%nat /\ Eigen.cols Gt = HexahedronElement.nfunctions T.
Proof. destruct T; split; reflexivity. Qed.

Lemma rectangular_cols r c m :
  (0 < r)%nat -> Eigen.rectangular r c m -> Eigen.cols m = c.
Proof.
  intros Hr [Hlen Hall]. destruct m as [|row m]; simpl in *; [lia |].
  now inversion Hall.
Qed.

Lemma mmul_size a b :
  (0 < Eigen.rows a)%nat -> Eigen.cols a = Eigen.rows b ->
  exists p, Eigen.mmul a b = Some p /\
            Eigen.rows p = Eigen.rows a /\ Eigen.cols p = Eigen.cols b.
Proof.
  intros Ha Hab. unfold Eigen.mmul. rewrite Hab, Nat.eqb_refl.
  eexists; split; [reflexivity |]. unfold Eigen.rows. rewrite length_map.
  split; [reflexivity |].
  destruct a as [|ra a]; simpl in *; [lia |]. now rewrite length_map, length_seq.
Qed.

Lemma inverse_transpose_size m :
  let It := Eigen.transpose (Eigen.inverse m) in
  Eigen.rows It = 3%nat /\ Eigen.cols It = 3%nat.
Proof. split; reflexivity. Qed.

Lemma nfunctions_pos T : (0 < HexahedronElement.nfunctions T)%nat.
Proof. destruct T; simpl; lia. Qed.

Lemma incorrect_dimension_spec T xi particle_size deformation_gradient nodal_coordinates :
  HexahedronElement.incorrect_dimension
    (HexahedronElement.grad_shapefn T xi particle_size deformation_gradient)
    nodal_coordinates = false
  <-> Eigen.rows nodal_coordinates = HexahedronElement.nfunctions T /\
      Eigen.cols nodal_coordinates = 3%nat.
Proof.
  unfold HexahedronElement.incorrect_dimension. rewrite rows_grad_shapefn.
  rewrite orb_false_iff, !negb_false_iff, !Nat.eqb_eq. intuition congruence.
Qed.

(** On a size mismatch [jacobian] logs the error and returns the zero 3 by 3
    matrix. *)
Lemma jacobian_mismatch T xi nodal_coordinates particle_size deformation_gradient :
  Eigen.rows nodal_coordinates <> HexahedronElement.nfunctions T \/
  Eigen.cols nodal_coordinates <> 3%nat ->
  HexahedronElement.jacobian T xi nodal_coordinates particle_size deformation_gradient
  = ([runtime_error
        "Jacobian calculation: Incorrect dimension of xi and nodal_coordinates"],
     Some [[0; 0; 0]; [0; 0; 0]; [0; 0; 0]]).
Proof.
  intros H. unfold HexahedronElement.jacobian.
  destruct (HexahedronElement.incorrect_dimension _ _) eqn:E; [reflexivity |].
  apply incorrect_dimension_spec in E. tauto.
Qed.

(** On a size mismatch [bmatrix] logs the error and returns no block. *)
Lemma bmatrix_mismatch T xi nodal_coordinates particle_size deformation_gradient :
  Eigen.rows nodal_coordinates <> HexahedronElement.nfunctions T \/
  Eigen.cols nodal_coordinates <> 3%nat ->
  HexahedronElement.bmatrix T xi nodal_coordinates particle_size deformation_gradient
  = ([runtime_error
        "BMatrix - Jacobian calculation: Incorrect dimension of xi and nodal_coordinates"],
     Some []).
Proof.
  intros H. unfold HexahedronElement.bmatrix.
  destruct (HexahedronElement.incorrect_dimension _ _) eqn:E; [reflexivity |].
  apply incorrect_dimension_spec in E. tauto.
Qed.

(** On a size mismatch [laplace_matrix] logs the error and then runs its
    loop. *)
Lemma laplace_matrix_logs_then_loops T xi_s nodal_coordinates :
  Eigen.rows nodal_coordinates <> HexahedronElement.nfunctions T \/
  (xi_s <> [] /\ Eigen.cols nodal_coordinates <> 3%nat) ->
  HexahedronElement.laplace_matrix T xi_s nodal_coordinates
  = (runtime_error "Jacobian calculation: Incorrect dimension of xi & nodes"
       :: fst (fold_left
                 (fun acc xi =>
                    bind acc (fun L =>
                      HexahedronElement.laplace_step T nodal_coordinates L xi))
                 xi_s
                 (ret (Eigen.Zero (HexahedronElement.nfunctions T)
                         (HexahedronElement.nfunctions T)))),
     snd (fold_left
            (fun acc xi =>
               bind acc (fun L =>
                 HexahedronElement.laplace_step T nodal_coordinates L xi))
            xi_s
            (ret (Eigen.Zero (HexahedronElement.nfunctions T)
                    (HexahedronElement.nfunctions T))))).
Proof.
  intros H. unfold HexahedronElement.laplace_matrix, HexahedronElement.laplace_check.
  set (loop := fold_left _ _ _).
  assert (E : forall m : M unit,
             m = console_error
                   (runtime_error "Jacobian calculation: Incorrect dimension of xi & nodes") ->
             bind m (fun _ => loop) = (runtime_error
               "Jacobian calculation: Incorrect dimension of xi & nodes" :: fst loop,
               snd loop)).
  { intros m ->. unfold bind, console_error. now destruct loop. }
  apply E.
  destruct (Nat.eqb_spec (HexahedronElement.nfunctions T) (Eigen.rows nodal_coordinates))
    as [Hr | Hr]; [| reflexivity].
  destruct H as [H | [Hx Hc]]; [congruence |].
  destruct xi_s; [congruence |].
  apply not_eq_sym, Nat.eqb_neq in Hc. now rewrite Hc.
Qed.

(** C4.  With a nodal-coordinate matrix of 9 rows, or of 2 columns, the
    8-node [laplace_matrix] logs the size error and goes on to the product
    of the gradients with the mismatched matrix, which has no value;
    [jacobian] and [bmatrix] on the same input log the error and return the
    zero 3 by 3 matrix and the empty list of blocks. *)
Theorem laplace_matrix_mismatch_continues :
  let T := HexahedronElement.Hex8 in
  let xi := Eigen.vec3 0 0 0 in
  let rows9 := HexahedronElement.unit_cell_coordinates8 ++ [[0; 0; 0]] in
  let cols2 := map (firstn 2) HexahedronElement.unit_cell_coordinates8 in
  let size_error :=
    runtime_error "Jacobian calculation: Incorrect dimension of xi & nodes" in
  HexahedronElement.laplace_matrix T [xi] rows9 = ([size_error], None) /\
  HexahedronElement.laplace_matrix T [xi] cols2 = ([size_error], None) /\
  snd (HexahedronElement.jacobian T xi rows9 xi []) = Some (Eigen.Zero 3 3) /\
  snd (HexahedronElement.bmatrix T xi rows9 xi []) = Some [].
Proof.
  cbv zeta. repeat split; reflexivity.
Qed.

(** The cofactor formula inverts every 3 by 3 matrix of non-zero
    determinant. *)
Lemma inverse_correct a b c d e f g h i :
  let m := [[a; b; c]; [d; e; f]; [g; h; i]] in
  Eigen.determinant m <> 0 ->
  Eigen.mmul m (Eigen.inverse m) = Some Eigen.Identity3.
Proof.
  cbv zeta. intros Hdet.
  cbv [Eigen.determinant Eigen.cofactor Eigen.mcoeff Eigen.next3 nth] in Hdet.
  cbv [Eigen.mmul Eigen.inverse Eigen.determinant Eigen.cofactor Eigen.mcoeff
       Eigen.next3 Eigen.column Eigen.rows Eigen.cols Eigen.dotXd Eigen.Identity3
       length map seq nth Nat.eqb].
  match goal with
  | |- context [1 / ?det] =>
      assert (Hk : det * (1 / det) = 1)
        by (unfold Rdiv; rewrite Rmult_1_l; apply Rinv_r; exact Hdet);
      set (k := 1 / det) in *; clearbody k
  end.
  apply (f_equal Some).
  repeat (apply (f_equal2 cons);
          [repeat (apply (f_equal2 cons); [first [ring | rewrite <- Hk; ring] |]) |]);
  reflexivity.
Qed.

(** With matching sizes [laplace_matrix] logs nothing and returns an 8 by 8
    matrix. *)
Example laplace_matrix_unit_cell :
  let r := HexahedronElement.laplace_matrix HexahedronElement.Hex8
             [Eigen.vec3 0 0 0] HexahedronElement.unit_cell_coordinates8 in
  fst r = [] /\
  option_map (fun L => (Eigen.rows L, Eigen.cols L)) (snd r) = Some (8%nat, 8%nat).
Proof. split; vm_compute; reflexivity. Qed.

(** For the standard elements [dn_dx] multiplies the local gradients by the
    transpose of the inverse of the matrix [jacobian] returns. *)
Lemma hexahedron_dn_dx T xi nodal_coordinates particle_size deformation_gradient :
  Eigen.rectangular (HexahedronElement.nfunctions T) 3 nodal_coordinates ->
  exists J D,
    HexahedronElement.jacobian T xi nodal_coordinates particle_size
      deformation_gradient = ret J /\
    Eigen.mmul
      (HexahedronElement.grad_shapefn T xi particle_size deformation_gradient)
      (Eigen.transpose (Eigen.inverse J)) = Some D /\
    HexahedronElement.dn_dx T xi nodal_coordinates particle_size
      deformation_gradient = ret D.
Proof.
  intros Hnc.
  pose proof (rectangular_cols _ _ _ (nfunctions_pos T) Hnc) as Hc.
  destruct Hnc as [Hr _]. change (length nodal_coordinates) with
    (Eigen.rows nodal_coordinates) in Hr.
  set (G := HexahedronElement.grad_shapefn T xi particle_size deformation_gradient).
  destruct (transpose_grad_shapefn_size T xi particle_size deformation_gradient)
    as [Htr Htc]. fold G in Htr, Htc.
  destruct (mmul_size (Eigen.transpose G) nodal_coordinates) as (J & HJ & HJr & HJc);
    [lia | congruence |].
  rewrite Htr in HJr. rewrite Hc in HJc.
  assert (HF : Eigen.fixed 3 3 (Eigen.mmul (Eigen.transpose G) nodal_coordinates)
               = Some J).
  { rewrite HJ. unfold Eigen.fixed. now rewrite HJr, HJc. }
  destruct (mmul_size G (Eigen.transpose (Eigen.inverse J))) as (D & HD & _ & _).
  { unfold G. rewrite rows_grad_shapefn. apply nfunctions_pos. }
  { unfold G. now rewrite cols_grad_shapefn. }
  exists J, D. split; [| split].
  - unfold HexahedronElement.jacobian. fold G.
    assert (E : HexahedronElement.incorrect_dimension G nodal_coordinates = false)
      by (apply incorrect_dimension_spec; split; assumption).
    now rewrite E, HF.
  - exact HD.
  - unfold HexahedronElement.dn_dx. fold G. rewrite HF.
    unfold eigen, bind, ret. now rewrite HD.
Qed.


Example bspline_cube4_initialised :
  HexahedronBSplineElement.initialise_bspline_connectivity_properties cube4
    (repeat [0; 0; 0]%nat 8)
  = Some {| HexahedronBSplineElement.nconnectivity_ := 8;
            HexahedronBSplineElement.nodal_coordinates_ := cube4;
            HexahedronBSplineElement.node_type_ := repeat [0; 0; 0]%nat 8;
            HexahedronBSplineElement.spacing_length_ := Rabs (2 - -2) |}.
Proof. reflexivity. Qed.

Ltac rows_eq tac :=
  repeat (apply (f_equal2 cons); [repeat (apply (f_equal2 cons); [tac |]) |]);
  try reflexivity.

Lemma inverse_twice_identity :
  Eigen.inverse [[2; 0; 0]; [0; 2; 0]; [0; 0; 2]]
  = [[1 / 2; 0; 0]; [0; 1 / 2; 0]; [0; 0; 1 / 2]].
Proof.
  cbv [Eigen.inverse Eigen.determinant Eigen.cofactor Eigen.mcoeff Eigen.next3
       map seq nth].
  rows_eq ltac:(field).
Qed.

(** The chain rule fails for a B-spline element on the 8 nodes of a cube of
    side 4, at the centre of the cell: the Jacobian is twice the identity and
    [dn_dx] returns the local gradients unscaled. *)
Lemma dn_dx_chain_rule_fails_for_bspline :
  ~ (exists knot index_default,
       dn_dx_chain_rule knot index_default
         (Element.HexahedronBSpline 2 bspline_cube4)
         (Eigen.vec3 0 0 0) cube4 (Eigen.vec3 0 0 0) []).
Proof.
  intros (knot & index_default & H).
  unfold dn_dx_chain_rule in H.
  specialize (H _ _ eq_refl eq_refl).
  assert (Hrect : Eigen.rectangular
                    (Eigen.rows (HexahedronElement.grad_shapefn8
                                   (Eigen.vec3 0 0 0) (Eigen.vec3 0 0 0) []))
                    3 cube4)
    by (split; [reflexivity | repeat constructor]).
  specialize (H Hrect). clear Hrect.
  match type of H with
  | Eigen.determinant ?m <> 0 -> _ =>
      assert (HJ : m = [[2; 0; 0]; [0; 2; 0]; [0; 0; 2]])
  end.
  { cbv [Eigen.transpose Eigen.column Eigen.cols Eigen.dotXd cube4
         length map seq nth].
    build. literals. rows_eq ltac:(lra). }
  rewrite HJ, inverse_twice_identity in H.
  assert (Hdet : Eigen.determinant [[2; 0; 0]; [0; 2; 0]; [0; 0; 2]] <> 0).
  { cbv [Eigen.determinant Eigen.cofactor Eigen.mcoeff Eigen.next3 nth]. lra. }
  specialize (H Hdet).
  apply (f_equal (fun r => option_map (fun m => Eigen.mcoeff m 0 0) (snd r))) in H.
  revert H.
  cbv [Element.dn_dx HexahedronBSplineElement.dn_dx
       HexahedronBSplineElement.grad_shapefn
       HexahedronBSplineElement.nconnectivity_ bspline_cube4 Nat.eqb
       ret eigen snd option_map
       Eigen.mmul Eigen.transpose Eigen.column Eigen.cols Eigen.rows Eigen.dotXd
       Eigen.mcoeff length map seq nth].
  build. cbv [nth]. literals. intros H. injection H as H. lra.
Qed.

(** ** The B-spline hexahedron element *)

(** C7.  A B-spline element whose connectivity holds exactly 8 nodes returns
    the shape functions and the gradients of the 8-node linear element, for
    every polynomial order, knot table, local coordinate, particle size and
    deformation gradient. *)
Theorem bspline_base_count_fallback :
  forall Tpolynomial knot index_default this xi particle_size deformation_gradient,
    HexahedronBSplineElement.nconnectivity_ this = 8%nat ->
    HexahedronBSplineElement.shapefn Tpolynomial knot index_default this
      xi particle_size deformation_gradient
    = ret (HexahedronElement.shapefn HexahedronElement.Hex8
             xi particle_size deformation_gradient) /\
    HexahedronBSplineElement.grad_shapefn Tpolynomial knot index_default this
      xi particle_size deformation_gradient
    = ret (HexahedronElement.grad_shapefn HexahedronElement.Hex8
             xi particle_size deformation_gradient).
Proof.
  intros p knot idx this xi ps F H8.
  unfold HexahedronBSplineElement.shapefn, HexahedronBSplineElement.grad_shapefn.
  rewrite H8. split; reflexivity.
Qed.

Lemma bspline_base_count_fallback_witness :
  HexahedronBSplineElement.nconnectivity_ bspline_cube4 = 8%nat /\
  HexahedronBSplineElement.shapefn 2 (fun _ => [0; 1; 2; 3]) 0 bspline_cube4
    (Eigen.vec3 (1 / 2) 0 0) (Eigen.vec3 1 1 1) []
  = ret (HexahedronElement.shapefn HexahedronElement.Hex8
           (Eigen.vec3 (1 / 2) 0 0) (Eigen.vec3 1 1 1) []).
Proof.
  split; [reflexivity |].
  exact (proj1 (bspline_base_count_fallback 2 (fun _ => [0; 1; 2; 3]) 0
                  bspline_cube4 (Eigen.vec3 (1 / 2) 0 0) (Eigen.vec3 1 1 1) []
                  eq_refl)).
Defined.

(** The real coordinates the B-spline basis is evaluated at are the
    trilinear interpolation of the first 8 rows of the nodal coordinates. *)
Lemma bspline_pcoord_trilinear :
  forall this xi particle_size deformation_gradient r0 r1 r2 r3 r4 r5 r6 r7 rest,
    HexahedronBSplineElement.nodal_coordinates_ this
    = [ [Eigen.c0 r0; Eigen.c1 r0; Eigen.c2 r0];
        [Eigen.c0 r1; Eigen.c1 r1; Eigen.c2 r1];
        [Eigen.c0 r2; Eigen.c1 r2; Eigen.c2 r2];
        [Eigen.c0 r3; Eigen.c1 r3; Eigen.c2 r3];
        [Eigen.c0 r4; Eigen.c1 r4; Eigen.c2 r4];
        [Eigen.c0 r5; Eigen.c1 r5; Eigen.c2 r5];
        [Eigen.c0 r6; Eigen.c1 r6; Eigen.c2 r6];
        [Eigen.c0 r7; Eigen.c1 r7; Eigen.c2 r7] ] ++ rest ->
    exists p,
      HexahedronBSplineElement.pcoord this xi particle_size deformation_gradient
      = ret p /\
      forall j, (j < 3)%nat ->
        p.[j] = Eigen.dotXd
                  (HexahedronElement.shapefn8 xi particle_size deformation_gradient)
                  (map (fun r => r.[j]) [r0; r1; r2; r3; r4; r5; r6; r7]).
Proof.
  intros this [x y z] ps F [] [] [] [] [] [] [] [] rest Hnc.
  unfold HexahedronBSplineElement.pcoord. rewrite Hnc.
  eexists. split.
  - cbv [HexahedronBSplineElement.shapefn_local]. build.
    cbv [length seq fold_left bind ret eigen Eigen.row3 nth_error app nth
         Eigen.add3 Eigen.coeff Eigen.c0 Eigen.c1 Eigen.c2].
    reflexivity.
  - intros j Hj. build. cbv [Eigen.dotXd map].
    do 3 (destruct j as [|j]; [cbv [Eigen.coeff Eigen.c0 Eigen.c1 Eigen.c2]; ring |]).
    lia.
Qed.

(** The recursion on a concrete knot vector: the hat function of the knots
    [-1, 0, 1] takes the value 1/2 half-way between two knots. *)
Lemma epsilon_small : 0 < HexahedronBSplineElement.epsilon < 1.
Proof.
  unfold HexahedronBSplineElement.epsilon.
  assert (H : 1 < 2 ^ 52) by (apply Rlt_pow_R1; [lra | lia]).
  split; [apply Rinv_0_lt_compat; lra |].
  rewrite <- Rinv_1. apply Rinv_lt_contravar; lra.
Qed.

Ltac compare_reals :=
  unfold HexahedronBSplineElement.lt, HexahedronBSplineElement.ge;
  repeat match goal with
         | |- context [Rlt_dec ?a ?b] => destruct (Rlt_dec a b); try lra
         | |- context [Rge_dec ?a ?b] => destruct (Rge_dec a b); try lra
         end.

Example kernel_hat :
  let this := {| HexahedronBSplineElement.nconnectivity_ := 27;
                 HexahedronBSplineElement.nodal_coordinates_ := [];
                 HexahedronBSplineElement.node_type_ := [];
                 HexahedronBSplineElement.spacing_length_ := 1 |} in
  HexahedronBSplineElement.kernel (fun _ => [-1; 0; 1]) this (1 / 2) 0 0 1 0 = 1 / 2.
Proof.
  pose proof epsilon_small as He.
  cbv [HexahedronBSplineElement.kernel HexahedronBSplineElement.knot_coord
       HexahedronBSplineElement.spacing_length_ map nth Nat.add].
  set (eps := HexahedronBSplineElement.epsilon) in *.
  autorewrite with literals.
  compare_reals; simpl; lra.
Qed.

(** ** Further properties of the elements *)

(** *** Gradients and geometry of the 8-node element *)

Ltac vec_eq tac := repeat (apply (f_equal2 cons); [tac |]); try reflexivity.


Lemma affine_cell_rectangular T c a0 a1 a2 :
  Eigen.rectangular (HexahedronElement.nfunctions T) 3 (affine_cell T c a0 a1 a2).
Proof.
  split.
  - unfold affine_cell. rewrite length_map. destruct T; reflexivity.
  - unfold affine_cell. apply Forall_forall. intros row Hin.
    apply in_map_iff in Hin. destruct Hin as (u & <- & _). reflexivity.
Qed.

Lemma jacobian_affine_cell_value :
  forall xi c a0 a1 a2 particle_size deformation_gradient,
    HexahedronElement.jacobian HexahedronElement.Hex8 xi
      (affine_cell HexahedronElement.Hex8 c a0 a1 a2)
      particle_size deformation_gradient
    = ret [row_of a0; row_of a1; row_of a2].
Proof.
  intros [x y z] [cx cy cz] [a00 a01 a02] [a10 a11 a12] [a20 a21 a22] ps F.
  unfold HexahedronElement.jacobian.
  assert (E : HexahedronElement.incorrect_dimension
                (HexahedronElement.grad_shapefn HexahedronElement.Hex8
                   {| Eigen.c0 := x; Eigen.c1 := y; Eigen.c2 := z |} ps F)
                (affine_cell HexahedronElement.Hex8
                   {| Eigen.c0 := cx; Eigen.c1 := cy; Eigen.c2 := cz |}
                   {| Eigen.c0 := a00; Eigen.c1 := a01; Eigen.c2 := a02 |}
                   {| Eigen.c0 := a10; Eigen.c1 := a11; Eigen.c2 := a12 |}
                   {| Eigen.c0 := a20; Eigen.c1 := a21; Eigen.c2 := a22 |}) = false)
    by reflexivity.
  rewrite E. unfold eigen, ret. f_equal.
  cbv [affine_cell affine_image HexahedronElement.unit_cell_coordinates
       HexahedronElement.unit_cell_coordinates8 row_of
       Eigen.fixed Eigen.mmul Eigen.transpose Eigen.column Eigen.cols Eigen.rows
       Eigen.dotXd length map seq nth Nat.eqb andb].
  build. literals. apply (f_equal Some). rows_eq ltac:(field).
Qed.


(** X6.  The volume of a parallelepiped cell is 8 times the triple product of
    its edge directions, for the 8-node and the 20-node element; it does not
    depend on where the cell is. *)
Theorem compute_volume_affine_cell :
  forall T c a0 a1 a2,
    HexahedronElement.compute_volume (affine_cell T c a0 a1 a2)
    = Some (8 * Eigen.dot3 a0 (Eigen.cross3 a1 a2)).
Proof.
  intros T [cx cy cz] [a00 a01 a02] [a10 a11 a12] [a20 a21 a22].
  destruct T;
    cbv [HexahedronElement.compute_volume affine_cell affine_image
         HexahedronElement.unit_cell_coordinates
         HexahedronElement.unit_cell_coordinates8
         HexahedronElement.unit_cell_coordinates20
         Eigen.row3 nth_error map seq nth
         Eigen.dot3 Eigen.cross3 Eigen.add3 Eigen.sub3
         Eigen.coeff Eigen.c0 Eigen.c1 Eigen.c2];
    apply (f_equal Some); literals; field.
Qed.

(** X7.  [compute_volume] reads the 8 corner rows alone: rows after the
    eighth, the mid-side nodes of the 20-node element among them, do not
    change the volume. *)
Theorem compute_volume_corners_only :
  forall corners rest,
    length corners = 8%nat ->
    HexahedronElement.compute_volume (corners ++ rest)
    = HexahedronElement.compute_volume corners.
Proof.
  intros corners rest H.
  do 9 (destruct corners as [|? corners]; try discriminate H).
  reflexivity.
Qed.

Lemma compute_volume_corners_only_witness :
  length cube4 = 8%nat /\
  HexahedronElement.compute_volume (cube4 ++ [[0; 0; 0]])
  = HexahedronElement.compute_volume cube4.
Proof.
  split; [reflexivity |].
  exact (compute_volume_corners_only cube4 [[0; 0; 0]] eq_refl).
Defined.



(** For nodal coordinates of matching size, the blocks of [bmatrix] are
    built from the matrix [dn_dx] returns. *)
Lemma hexahedron_bmatrix T xi nodal_coordinates particle_size deformation_gradient :
  Eigen.rectangular (HexahedronElement.nfunctions T) 3 nodal_coordinates ->
  exists J D,
    Eigen.fixed 3 3
      (Eigen.mmul
         (Eigen.transpose
            (HexahedronElement.grad_shapefn T xi particle_size deformation_gradient))
         nodal_coordinates) = Some J /\
    Eigen.mmul
      (HexahedronElement.grad_shapefn T xi particle_size deformation_gradient)
      (Eigen.transpose (Eigen.inverse J)) = Some D /\
    HexahedronElement.dn_dx T xi nodal_coordinates particle_size
      deformation_gradient = ret D /\
    HexahedronElement.bmatrix T xi nodal_coordinates particle_size
      deformation_gradient
    = ret (map (HexahedronElement.bi D) (seq 0 (HexahedronElement.nfunctions T))).
Proof.
  intros Hnc.
  pose proof (rectangular_cols _ _ _ (nfunctions_pos T) Hnc) as Hc.
  destruct Hnc as [Hr _]. change (length nodal_coordinates) with
    (Eigen.rows nodal_coordinates) in Hr.
  set (G := HexahedronElement.grad_shapefn T xi particle_size deformation_gradient).
  destruct (transpose_grad_shapefn_size T xi particle_size deformation_gradient)
    as [Htr Htc]. fold G in Htr, Htc.
  destruct (mmul_size (Eigen.transpose G) nodal_coordinates) as (J & HJ & HJr & HJc);
    [lia | congruence |].
  rewrite Htr in HJr. rewrite Hc in HJc.
  assert (HF : Eigen.fixed 3 3 (Eigen.mmul (Eigen.transpose G) nodal_coordinates)
               = Some J).
  { rewrite HJ. unfold Eigen.fixed. now rewrite HJr, HJc. }
  destruct (mmul_size G (Eigen.transpose (Eigen.inverse J))) as (D & HD & _ & _).
  { unfold G. rewrite rows_grad_shapefn. apply nfunctions_pos. }
  { unfold G. now rewrite cols_grad_shapefn. }
  exists J, D. repeat split; try assumption.
  - unfold HexahedronElement.dn_dx. fold G. rewrite HF.
    unfold eigen, bind, ret. now rewrite HD.
  - unfold HexahedronElement.bmatrix. fold G.
    assert (E : HexahedronElement.incorrect_dimension G nodal_coordinates = false)
      by (apply incorrect_dimension_spec; split; assumption).
    rewrite E, HF. unfold eigen, bind, ret. now rewrite HD.
Qed.
(** X9.  For the 8-node element, nodal coordinates of matching size and a
    non-singular Jacobian, [bmatrix] returns 8 blocks, and a rigid
    translation, the same displacement at every node, gives zero strain in
    all 6 components. *)
Theorem bmatrix_rigid_translation :
  forall xi nodal_coordinates particle_size deformation_gradient t J,
    Eigen.rectangular 8 3 nodal_coordinates ->
    HexahedronElement.jacobian HexahedronElement.Hex8 xi nodal_coordinates
      particle_size deformation_gradient = ret J ->
    Eigen.determinant J <> 0 ->
    exists blocks,
      HexahedronElement.bmatrix HexahedronElement.Hex8 xi nodal_coordinates
        particle_size deformation_gradient = ret blocks /\
      length blocks = 8%nat /\
      strain blocks (repeat t 8) = [0; 0; 0; 0; 0; 0].
Proof.
  intros xi nc ps F [t0 t1 t2] J0 Hnc _ _.
  destruct (hexahedron_bmatrix HexahedronElement.Hex8 xi nc ps F Hnc)
    as (J & D & _ & HD & _ & HB).
  eexists. split; [exact HB |]. split; [reflexivity |].
  destruct xi as [x y z].
  cbv [Eigen.mmul Eigen.transpose Eigen.inverse Eigen.column Eigen.cols Eigen.rows
       length map seq nth Nat.eqb] in HD.
  revert HD. build. cbv [length Nat.eqb]. intros [= <-].
  generalize (1 / Eigen.determinant J). intros k.
  cbv [HexahedronElement.nfunctions HexahedronElement.bi Eigen.mcoeff
       strain block_strain row_of Eigen.dotXd Eigen.vaddXd
       Eigen.coeff Eigen.c0 Eigen.c1 Eigen.c2 map seq nth repeat].
  literals. vec_eq ltac:(field).
Qed.

(** The cube of side 4 centred at [(1, 1, 1)], whose Jacobian is twice the
    identity. *)
Lemma bmatrix_rigid_translation_witness :
  let nodal_coordinates :=
    affine_cell HexahedronElement.Hex8 (Eigen.vec3 1 1 1)
      (Eigen.vec3 2 0 0) (Eigen.vec3 0 2 0) (Eigen.vec3 0 0 2) in
  Eigen.rectangular 8 3 nodal_coordinates /\
  Eigen.determinant [[2; 0; 0]; [0; 2; 0]; [0; 0; 2]] <> 0 /\
  exists blocks,
    HexahedronElement.bmatrix HexahedronElement.Hex8 (Eigen.vec3 0 0 0)
      nodal_coordinates (Eigen.vec3 0 0 0) [] = ret blocks /\
    length blocks = 8%nat /\
    strain blocks (repeat (Eigen.vec3 1 2 3) 8) = [0; 0; 0; 0; 0; 0].
Proof.
  intros nc.
  assert (H : Eigen.rectangular 8 3 nc)
    by (exact (affine_cell_rectangular HexahedronElement.Hex8 _ _ _ _)).
  assert (HJ : HexahedronElement.jacobian HexahedronElement.Hex8 (Eigen.vec3 0 0 0)
                 nc (Eigen.vec3 0 0 0) []
               = ret [[2; 0; 0]; [0; 2; 0]; [0; 0; 2]])
    by (exact (jacobian_affine_cell_value _ _ _ _ _ _ _)).
  assert (Hd : Eigen.determinant [[2; 0; 0]; [0; 2; 0]; [0; 0; 2]] <> 0)
    by (cbv [Eigen.determinant Eigen.cofactor Eigen.mcoeff Eigen.next3 nth]; lra).
  split; [exact H |]. split; [exact Hd |].
  exact (bmatrix_rigid_translation (Eigen.vec3 0 0 0) nc (Eigen.vec3 0 0 0) []
           (Eigen.vec3 1 2 3) _ H HJ Hd).
Defined.

(** *** Accumulated matrices: [ni_nj_matrix] and [laplace_matrix] *)

Lemma rectangular_Zero r c : Eigen.rectangular r c (Eigen.Zero r c).
Proof.
  unfold Eigen.Zero, Eigen.Constant. split.
  - apply repeat_length.
  - apply Forall_forall. intros row Hin. apply repeat_spec in Hin. subst.
    apply repeat_length.
Qed.

Lemma rectangular_rows_cols r c m :
  Eigen.rectangular r c m ->
  Eigen.rows m = r /\ (Eigen.cols m = c \/ (r = 0%nat /\ Eigen.cols m = 0%nat)).
Proof.
  intros [Hl Hall]. split; [exact Hl |].
  destruct m as [|row m]; simpl in *; [right; auto |].
  left. now inversion Hall.
Qed.

Lemma maddXd_rectangular r c a b :
  Eigen.rectangular r c a -> Eigen.rectangular r c b ->
  Eigen.rectangular r c (Eigen.maddXd a b).
Proof.
  revert r b. induction a as [|ra a IH]; intros r b [Hla Ha] [Hlb Hb].
  - simpl in *. subst. split; [reflexivity | constructor].
  - destruct b as [|rb b]; simpl in *; [congruence |].
    inversion Ha as [|? ? Hra Ha']. inversion Hb as [|? ? Hrb Hb']. subst.
    destruct (IH (length a) b) as [Hl' Hall']; [split; auto | split; auto; congruence |].
    split; [simpl; congruence |].
    constructor; [| exact Hall'].
    clear -Hrb. revert rb Hrb. induction ra as [|x ra IHr]; intros [|y rb] H;
      simpl in *; try congruence. f_equal. apply IHr. congruence.
Qed.

Lemma madd_rectangular r c a b :
  Eigen.rectangular r c a -> Eigen.rectangular r c b ->
  Eigen.madd a b = Some (Eigen.maddXd a b).
Proof.
  intros Ha Hb. unfold Eigen.madd.
  destruct (rectangular_rows_cols _ _ _ Ha) as [Hra Hca].
  destruct (rectangular_rows_cols _ _ _ Hb) as [Hrb Hcb].
  rewrite Hra, Hrb, Nat.eqb_refl.
  assert (E : Eigen.cols a = Eigen.cols b).
  { destruct Ha as [Hla Fa], Hb as [Hlb Fb].
    destruct a, b; simpl in *; lia. }
  now rewrite E, Nat.eqb_refl.
Qed.

Lemma sum_vaddXd u v :
  length u = length v ->
  Eigen.sum (Eigen.vaddXd u v) = Eigen.sum u + Eigen.sum v.
Proof.
  revert v. induction u as [|x u IH]; intros [|y v] H; simpl in *; try congruence.
  - lra.
  - rewrite IH by congruence. lra.
Qed.

Lemma total_maddXd r c a b :
  Eigen.rectangular r c a -> Eigen.rectangular r c b ->
  total (Eigen.maddXd a b) = total a + total b.
Proof.
  unfold total. revert r b. induction a as [|ra a IH]; intros r b [Hla Ha] [Hlb Hb].
  - destruct b; simpl in *; [lra | subst; discriminate].
  - destruct b as [|rb b]; simpl in *; [congruence |].
    inversion Ha as [|? ? Hra Ha']. inversion Hb as [|? ? Hrb Hb']. subst.
    rewrite sum_vaddXd by congruence.
    rewrite (IH (length a) b); [lra | split; auto | split; auto; congruence].
Qed.

Lemma total_Zero r c : total (Eigen.Zero r c) = 0.
Proof.
  unfold total, Eigen.Zero, Eigen.Constant.
  induction r as [|r IH]; simpl; [reflexivity |].
  rewrite IH. clear IH. induction c as [|c IH]; simpl; lra.
Qed.

Lemma mmul_rectangular r a b :
  (0 < r)%nat -> Eigen.rows a = r -> Eigen.cols a = Eigen.rows b ->
  exists p, Eigen.mmul a b = Some p /\ Eigen.rectangular r (Eigen.cols b) p.
Proof.
  intros Hr Ha Hab. unfold Eigen.mmul. rewrite Hab, Nat.eqb_refl.
  eexists. split; [reflexivity |]. split.
  - rewrite length_map. exact Ha.
  - apply Forall_forall. intros row Hin. apply in_map_iff in Hin.
    destruct Hin as (ra & <- & _). now rewrite length_map, length_seq.
Qed.

Lemma map_nth_seq (f : R -> R) v :
  map (fun j => f (nth j v 0)) (seq 0 (length v)) = map f v.
Proof.
  induction v as [|x v IH]; simpl; [reflexivity |].
  f_equal. rewrite <- seq_shift, map_map. exact IH.
Qed.

(** The product of a vector with its transpose. *)
Lemma outer_product v :
  v <> [] ->
  Eigen.mmul (Eigen.as_matrix v) (Eigen.transpose (Eigen.as_matrix v))
  = Some (map (fun x => map (fun y => x * y + 0) v) v).
Proof.
  intros Hv.
  assert (Ht : Eigen.transpose (Eigen.as_matrix v) = [v]).
  { destruct v as [|x v]; [congruence |].
    unfold Eigen.transpose. simpl. unfold Eigen.column.
    do 2 f_equal. unfold Eigen.as_matrix. rewrite map_map. simpl. apply map_id. }
  rewrite Ht. unfold Eigen.mmul.
  assert (Hc : Eigen.cols (Eigen.as_matrix v) = 1%nat)
    by (destruct v; [congruence | reflexivity]).
  rewrite Hc. simpl. f_equal. unfold Eigen.as_matrix. rewrite map_map.
  apply map_ext. intros x. simpl.
  rewrite <- (map_nth_seq (fun y => x * y + 0) v).
  apply map_ext. intros j. unfold Eigen.column. reflexivity.
Qed.

Lemma total_outer u v :
  total (map (fun x => map (fun y => x * y + 0) v) u) = Eigen.sum u * Eigen.sum v.
Proof.
  unfold total. induction u as [|x u IH]; simpl; [lra |].
  rewrite IH.
  assert (E : Eigen.sum (map (fun y => x * y + 0) v) = x * Eigen.sum v).
  { clear. induction v as [|y v IH]; simpl; [lra | rewrite IH; lra]. }
  rewrite E. lra.
Qed.

Lemma outer_rectangular (v : list R) :
  Eigen.rectangular (length v) (length v) (map (fun x => map (fun y => x * y + 0) v) v).
Proof.
  split; [apply length_map |].
  apply Forall_forall. intros row Hin. apply in_map_iff in Hin.
  destruct Hin as (x & <- & _). apply length_map.
Qed.

Lemma length_shapefn T xi particle_size deformation_gradient :
  length (HexahedronElement.shapefn T xi particle_size deformation_gradient)
  = HexahedronElement.nfunctions T.
Proof. destruct T; reflexivity. Qed.

Lemma ni_nj_fold T xi_s :
  forall L,
    Eigen.rectangular (HexahedronElement.nfunctions T) (HexahedronElement.nfunctions T) L ->
    exists L',
      fold_left
        (fun acc xi => bind acc (fun m => HexahedronElement.ni_nj_step T m xi))
        xi_s (ret L) = ret L' /\
      Eigen.rectangular (HexahedronElement.nfunctions T) (HexahedronElement.nfunctions T) L' /\
      total L' = total L + INR (length xi_s).
Proof.
  induction xi_s as [|xi xi_s IH]; intros L HL.
  - exists L. simpl. split; [reflexivity | split; [exact HL | lra]].
  - cbn [fold_left].
    set (v := HexahedronElement.shapefn T xi (Eigen.vec3 0 0 0) (Eigen.Zero 3 3)).
    assert (Hlen : length v = HexahedronElement.nfunctions T)
      by apply length_shapefn.
    assert (Hv : v <> []).
    { intro E. rewrite E in Hlen. pose proof (nfunctions_pos T). simpl in Hlen. lia. }
    pose proof (outer_rectangular v) as Ho. rewrite Hlen in Ho.
    assert (Hstep : bind (ret L) (fun m => HexahedronElement.ni_nj_step T m xi)
                    = ret (Eigen.maddXd L (map (fun x => map (fun y => x * y + 0) v) v))).
    { unfold HexahedronElement.ni_nj_step. fold v.
      unfold bind, ret, eigen. rewrite (outer_product v Hv).
      now rewrite (madd_rectangular _ _ _ _ HL Ho). }
    rewrite Hstep.
    destruct (IH _ (maddXd_rectangular _ _ _ _ HL Ho)) as (L' & HL' & Hr & Ht).
    exists L'. split; [exact HL' | split; [exact Hr |]].
    rewrite Ht, (total_maddXd _ _ _ _ HL Ho), total_outer.
    unfold v. rewrite shapefn_sum.
    change (length (xi :: xi_s)) with (S (length xi_s)). rewrite S_INR. lra.
Qed.

(** X10.  [ni_nj_matrix] of the 8-node and the 20-node element logs nothing
    and returns a square matrix with one row and one column per node whose
    coefficients sum to the number of points in [xi_s]; for an empty [xi_s]
    all coefficients sum to 0. *)
Theorem ni_nj_matrix_total :
  forall T xi_s,
    exists m,
      HexahedronElement.ni_nj_matrix T xi_s = ret m /\
      Eigen.rectangular (HexahedronElement.nfunctions T)
        (HexahedronElement.nfunctions T) m /\
      total m = INR (length xi_s).
Proof.
  intros T xi_s. unfold HexahedronElement.ni_nj_matrix.
  destruct (ni_nj_fold T xi_s _ (rectangular_Zero _ _)) as (m & Hm & Hr & Ht).
  exists m. split; [exact Hm | split; [exact Hr |]]. rewrite Ht, total_Zero. lra.
Qed.

Lemma rows_transpose m : Eigen.rows (Eigen.transpose m) = Eigen.cols m.
Proof. unfold Eigen.transpose, Eigen.rows. now rewrite length_map, length_seq. Qed.

Lemma cols_transpose m :
  (0 < Eigen.cols m)%nat -> Eigen.cols (Eigen.transpose m) = Eigen.rows m.
Proof.
  intros H. unfold Eigen.transpose.
  destruct (Eigen.cols m) as [|c]; [lia |].
  simpl. unfold Eigen.column. apply length_map.
Qed.

Lemma laplace_step_size T nodal_coordinates L xi :
  Eigen.rectangular (HexahedronElement.nfunctions T) 3 nodal_coordinates ->
  Eigen.rectangular (HexahedronElement.nfunctions T) (HexahedronElement.nfunctions T) L ->
  exists L',
    HexahedronElement.laplace_step T nodal_coordinates L xi = ret L' /\
    Eigen.rectangular (HexahedronElement.nfunctions T)
      (HexahedronElement.nfunctions T) L'.
Proof.
  intros Hnc HL.
  pose proof (nfunctions_pos T) as Hpos.
  destruct (hexahedron_bmatrix T xi nodal_coordinates (Eigen.vec3 0 0 0)
              (Eigen.Zero 3 3) Hnc) as (J & _ & HJ & _).
  set (G := HexahedronElement.grad_shapefn T xi (Eigen.vec3 0 0 0) (Eigen.Zero 3 3))
    in *.
  destruct (mmul_rectangular (HexahedronElement.nfunctions T) G (Eigen.inverse J))
    as (D & HD & HDr); [exact Hpos | apply rows_grad_shapefn | apply cols_grad_shapefn |].
  change (Eigen.cols (Eigen.inverse J)) with 3%nat in HDr.
  pose proof (rectangular_cols _ _ _ Hpos HDr) as HDc.
  destruct (mmul_rectangular (HexahedronElement.nfunctions T) D (Eigen.transpose D))
    as (P & HP & HPr); [exact Hpos | apply HDr | now rewrite rows_transpose |].
  rewrite cols_transpose in HPr by lia.
  replace (Eigen.rows D) with (HexahedronElement.nfunctions T) in HPr
    by (symmetry; apply HDr).
  exists (Eigen.maddXd L P). split.
  - unfold HexahedronElement.laplace_step. fold G. rewrite HJ.
    unfold bind, eigen, ret. rewrite HD, HP.
    now rewrite (madd_rectangular _ _ _ _ HL HPr).
  - exact (maddXd_rectangular _ _ _ _ HL HPr).
Qed.

Lemma laplace_fold T nodal_coordinates xi_s :
  Eigen.rectangular (HexahedronElement.nfunctions T) 3 nodal_coordinates ->
  forall L,
    Eigen.rectangular (HexahedronElement.nfunctions T) (HexahedronElement.nfunctions T) L ->
    exists L',
      fold_left
        (fun acc xi =>
           bind acc (fun m => HexahedronElement.laplace_step T nodal_coordinates m xi))
        xi_s (ret L) = ret L' /\
      Eigen.rectangular (HexahedronElement.nfunctions T)
        (HexahedronElement.nfunctions T) L'.
Proof.
  intros Hnc. induction xi_s as [|xi xi_s IH]; intros L HL.
  - exists L. split; [reflexivity | exact HL].
  - cbn [fold_left].
    destruct (laplace_step_size T nodal_coordinates L xi Hnc HL) as (L1 & H1 & HL1).
    assert (E : bind (ret L)
                  (fun m => HexahedronElement.laplace_step T nodal_coordinates m xi)
                = ret L1).
    { unfold bind at 1, ret at 1. rewrite H1. reflexivity. }
    rewrite E. exact (IH L1 HL1).
Qed.

(** X12.  With at least one point in [xi_s] and one row of 3 coordinates per
    node, [laplace_matrix] logs nothing and returns a square matrix with one
    row and one column per node: no size assertion is hit, also where the
    Jacobian is singular. *)
Theorem laplace_matrix_matching_sizes :
  forall T xi xi_s nodal_coordinates,
    Eigen.rectangular (HexahedronElement.nfunctions T) 3 nodal_coordinates ->
    exists L,
      HexahedronElement.laplace_matrix T (xi :: xi_s) nodal_coordinates = ret L /\
      Eigen.rectangular (HexahedronElement.nfunctions T)
        (HexahedronElement.nfunctions T) L.
Proof.
  intros T xi xi_s nc Hnc.
  pose proof (rectangular_cols _ _ _ (nfunctions_pos T) Hnc) as Hc.
  destruct (laplace_fold T nc (xi :: xi_s) Hnc _ (rectangular_Zero _ _))
    as (L & HL & Hr).
  exists L. split; [| exact Hr].
  unfold HexahedronElement.laplace_matrix, HexahedronElement.laplace_check.
  destruct Hnc as [Hrows _]. change (length nc) with (Eigen.rows nc) in Hrows.
  rewrite Hrows, Hc, Nat.eqb_refl. simpl negb. cbv iota.
  unfold bind at 1, ret at 1. rewrite HL. reflexivity.
Qed.

Lemma laplace_matrix_matching_sizes_witness :
  Eigen.rectangular 8 3 cube4 /\
  exists L,
    HexahedronElement.laplace_matrix HexahedronElement.Hex8
      [Eigen.vec3 0 0 0; Eigen.vec3 (1 / 2) 0 0] cube4 = ret L /\
    Eigen.rectangular 8 8 L.
Proof.
  assert (H : Eigen.rectangular 8 3 cube4)
    by (split; [reflexivity | repeat constructor]).
  split; [exact H |].
  exact (laplace_matrix_matching_sizes HexahedronElement.Hex8 (Eigen.vec3 0 0 0)
           [Eigen.vec3 (1 / 2) 0 0] cube4 H).
Defined.

(** X11.  With no point in [xi_s], [laplace_matrix] logs one error, the size
    error when the number of rows of the nodal coordinates is not the number
    of nodes and the [std::out_of_range] of [xi_s.at(0)] otherwise, and
    returns the zero matrix, whatever the nodal coordinates. *)
Theorem laplace_matrix_no_points :
  forall T nodal_coordinates,
    HexahedronElement.laplace_matrix T [] nodal_coordinates
    = ([if (HexahedronElement.nfunctions T =? Eigen.rows nodal_coordinates)%nat
        then out_of_range
        else runtime_error
               "Jacobian calculation: Incorrect dimension of xi & nodes"],
       Some (Eigen.Zero (HexahedronElement.nfunctions T)
               (HexahedronElement.nfunctions T))).
Proof.
  intros T nc.
  unfold HexahedronElement.laplace_matrix, HexahedronElement.laplace_check.
  destruct (HexahedronElement.nfunctions T =? Eigen.rows nc)%nat; reflexivity.
Qed.

(** *** The B-spline basis *)

Section Kernel.
Variable knot : nat -> list R.
Variable this : HexahedronBSplineElement.state.
Variables point_coord nodal_coord : R.
Variable node_type : nat.

Let kv : Eigen.VectorXd :=
HexahedronBSplineElement.knot_coord knot this nodal_coord node_type.

Let kc (i : nat) : R := nth i kv 0.

Lemma knots_ordered_le index poly_order i j :
knots_ordered kv index poly_order ->
(index <= i)%nat -> (i <= j)%nat -> (j <= index + poly_order + 1)%nat ->
kc i <= kc j.
Proof.
intros Hk Hi Hij Hj. induction Hij as [|j Hij IH]; [lra |].
apply Rle_trans with (kc j); [apply IH; lia | apply (proj2 Hk); lia].
Qed.

Lemma knots_ordered_sub index poly_order index' poly_order' :
knots_ordered kv index poly_order ->
(index <= index')%nat ->
(index' + poly_order' <= index + poly_order)%nat ->
knots_ordered kv index' poly_order'.
Proof.
intros [Hb Hk] H1 H2. split; [lia | intros i Hi; apply Hk; lia].
Qed.

Lemma kernel_vanishes_outside :
forall poly_order index,
  knots_ordered kv index poly_order ->
  point_coord < kc index \/ kc (index + poly_order + 1)%nat <= point_coord ->
  HexahedronBSplineElement.kernel knot this point_coord nodal_coord node_type
    poly_order index = 0.
Proof.
induction poly_order as [|p IH]; intros index Hk Hout.
- cbn [HexahedronBSplineElement.kernel]. fold kv. fold (kc index) (kc (index + 1)%nat).
  replace (index + 0 + 1)%nat with (index + 1)%nat in Hout by lia.
  unfold HexahedronBSplineElement.ge, HexahedronBSplineElement.lt.
  destruct (Rge_dec point_coord (kc index)),
           (Rlt_dec point_coord (kc (index + 1)%nat)); simpl; try lra.
- cbn [HexahedronBSplineElement.kernel].
  assert (H0 : HexahedronBSplineElement.kernel knot this point_coord nodal_coord
                 node_type p index = 0).
  { apply IH; [apply (knots_ordered_sub index (S p)); [exact Hk | lia | lia] |].
    destruct Hout as [Hl | Hr]; [left; exact Hl | right].
    apply Rle_trans with (kc (index + S p + 1)%nat); [| exact Hr].
    apply (knots_ordered_le index (S p)); [exact Hk | lia | lia | lia]. }
  assert (H1 : HexahedronBSplineElement.kernel knot this point_coord nodal_coord
                 node_type p (index + 1)%nat = 0).
  { apply IH; [apply (knots_ordered_sub index (S p)); [exact Hk | lia | lia] |].
    destruct Hout as [Hl | Hr]; [left | right].
    - apply Rlt_le_trans with (kc index); [exact Hl |].
      apply (knots_ordered_le index (S p)); [exact Hk | lia | lia | lia].
    - replace (index + 1 + p + 1)%nat with (index + S p + 1)%nat by lia.
      exact Hr. }
  rewrite H0, H1. ring.
Qed.

(** X13.  Local support: where the knots it reads are in the knot vector and
  in non-decreasing order, the B-spline basis function of any order vanishes
  at every point left of its first knot or at or right of its last knot. *)
Theorem kernel_local_support :
forall poly_order index,
  knots_ordered kv index poly_order ->
  point_coord < kc index \/ kc (index + poly_order + 1)%nat <= point_coord ->
  HexahedronBSplineElement.kernel knot this point_coord nodal_coord node_type
    poly_order index = 0.
Proof. exact kernel_vanishes_outside. Qed.

(** X14.  Where the knots it reads are in the knot vector and in
  non-decreasing order, the B-spline basis function of any order is
  non-negative at every point. *)
Theorem kernel_nonnegative :
forall poly_order index,
  knots_ordered kv index poly_order ->
  0 <= HexahedronBSplineElement.kernel knot this point_coord nodal_coord
         node_type poly_order index.
Proof.
pose proof epsilon_small as [Heps _].
induction poly_order as [|p IH]; intros index Hk.
- cbn [HexahedronBSplineElement.kernel].
  destruct (_ && _); autorewrite with literals; lra.
- cbn [HexahedronBSplineElement.kernel]. fold kv. fold (kc index) (kc (index + 1)%nat)
    (kc (index + S p)%nat) (kc (index + S p + 1)%nat).
  assert (Hk0 : knots_ordered kv index p)
    by (apply (knots_ordered_sub index (S p)); [exact Hk | lia | lia]).
  assert (Hk1 : knots_ordered kv (index + 1) p)
    by (apply (knots_ordered_sub index (S p)); [exact Hk | lia | lia]).
  pose proof (IH index Hk0) as N0. pose proof (IH (index + 1)%nat Hk1) as N1.
  apply Rplus_le_le_0_compat.
  + destruct (Rlt_dec point_coord (kc index)) as [Hl | Hl].
    * rewrite (kernel_vanishes_outside p index Hk0 (or_introl Hl)). lra.
    * apply Rmult_le_pos; [| exact N0].
      unfold HexahedronBSplineElement.lt.
      destruct (Rlt_dec _ _) as [Hd | Hd]; [lra |].
      apply Rmult_le_pos; [lra |].
      apply Rlt_le, Rinv_0_lt_compat. lra.
  + destruct (Rle_dec (kc (index + S p + 1)%nat) point_coord) as [Hr | Hr].
    * assert (Hout : point_coord < kc (index + 1)%nat \/
                     kc (index + 1 + p + 1)%nat <= point_coord).
      { right. replace (index + 1 + p + 1)%nat with (index + S p + 1)%nat by lia.
        exact Hr. }
      rewrite (kernel_vanishes_outside p (index + 1)%nat Hk1 Hout). lra.
    * apply Rmult_le_pos; [| exact N1].
      unfold HexahedronBSplineElement.lt.
      destruct (Rlt_dec _ _) as [Hd | Hd]; [lra |].
      apply Rmult_le_pos; [lra |].
      apply Rlt_le, Rinv_0_lt_compat. lra.
Qed.

(** X15.  Where the knots it reads are in the knot vector and in
  non-decreasing order, the derivative of the B-spline basis function of
  order 1 or more vanishes at every point left of its first knot or at or
  right of its last knot. *)
Theorem gradient_local_support :
forall poly_order index,
  (0 < poly_order)%nat ->
  knots_ordered kv index poly_order ->
  point_coord < kc index \/ kc (index + poly_order + 1)%nat <= point_coord ->
  HexahedronBSplineElement.gradient knot this point_coord nodal_coord node_type
    poly_order index = 0.
Proof.
intros [|p] index Hp Hk Hout; [lia |].
unfold HexahedronBSplineElement.gradient.
cbn [HexahedronBSplineElement.minus_one].
rewrite (kernel_vanishes_outside p index).
- rewrite (kernel_vanishes_outside p (index + 1)%nat); [ring | |].
  + apply (knots_ordered_sub index (S p)); [exact Hk | lia | lia].
  + destruct Hout as [Hl | Hr]; [left | right].
    * apply Rlt_le_trans with (kc index); [exact Hl |].
      apply (knots_ordered_le index (S p)); [exact Hk | lia | lia | lia].
    * replace (index + 1 + p + 1)%nat with (index + S p + 1)%nat by lia.
      exact Hr.
- apply (knots_ordered_sub index (S p)); [exact Hk | lia | lia].
- destruct Hout as [Hl | Hr]; [left; exact Hl | right].
  apply Rle_trans with (kc (index + S p + 1)%nat); [| exact Hr].
  apply (knots_ordered_le index (S p)); [exact Hk | lia | lia | lia].
Qed.

End Kernel.

(** The knot vector [-2, -1, 0] at spacing 4 around a node at the origin. *)
Lemma knots_ordered_example :
  knots_ordered
    (HexahedronBSplineElement.knot_coord (fun _ => [-2; -1; 0]) bspline_cube4 0 0)
    0 1.
Proof.
  split; [simpl; lia |]. intros i Hi.
  cbv [HexahedronBSplineElement.knot_coord HexahedronBSplineElement.spacing_length_
       bspline_cube4 map].
  destruct i as [|[|i]]; [simpl; lra | simpl; lra | lia].
Qed.

Lemma kernel_local_support_witness :
  knots_ordered
    (HexahedronBSplineElement.knot_coord (fun _ => [-2; -1; 0]) bspline_cube4 0 0)
    0 1 /\
  HexahedronBSplineElement.kernel (fun _ => [-2; -1; 0]) bspline_cube4 5 0 0 1 0 = 0.
Proof.
  split; [exact knots_ordered_example |].
  apply (kernel_local_support (fun _ => [-2; -1; 0]) bspline_cube4 5 0 0 1 0
           knots_ordered_example).
  right.
  cbv [HexahedronBSplineElement.knot_coord HexahedronBSplineElement.spacing_length_
       bspline_cube4 map nth Nat.add].
  lra.
Defined.

Lemma kernel_nonnegative_witness :
  knots_ordered
    (HexahedronBSplineElement.knot_coord (fun _ => [-2; -1; 0]) bspline_cube4 0 0)
    0 1 /\
  0 <= HexahedronBSplineElement.kernel (fun _ => [-2; -1; 0]) bspline_cube4
         (- (1 / 2)) 0 0 1 0.
Proof.
  split; [exact knots_ordered_example |].
  exact (kernel_nonnegative (fun _ => [-2; -1; 0]) bspline_cube4 (- (1 / 2)) 0 0 1 0
           knots_ordered_example).
Defined.

Lemma gradient_local_support_witness :
  (0 < 1)%nat /\
  knots_ordered
    (HexahedronBSplineElement.knot_coord (fun _ => [-2; -1; 0]) bspline_cube4 0 0)
    0 1 /\
  HexahedronBSplineElement.gradient (fun _ => [-2; -1; 0]) bspline_cube4 5 0 0 1 0 = 0.
Proof.
  split; [lia |]. split; [exact knots_ordered_example |].
  apply (gradient_local_support (fun _ => [-2; -1; 0]) bspline_cube4 5 0 0 1 0
           Nat.lt_0_1 knots_ordered_example).
  right.
  cbv [HexahedronBSplineElement.knot_coord HexahedronBSplineElement.spacing_length_
       bspline_cube4 map nth Nat.add].
  lra.
Defined.

(** *** Sizes and the 8-node fallback of the B-spline element *)

Lemma bind_ret_l {A B : Type} (a : A) (f : A -> M B) : bind (ret a) f = f a.
Proof. unfold bind, ret. now destruct (f a). Qed.

Lemma mapM_Forall {A B : Type} (f : A -> M B) (P : B -> Prop) :
  (forall x log y, f x = (log, Some y) -> P y) ->
  forall l log ys,
    HexahedronBSplineElement.mapM f l = (log, Some ys) ->
    Forall P ys /\ length ys = length l.
Proof.
  intros Hf. induction l as [|x l IH]; intros log ys H.
  - injection H as _ <-. split; [constructor | reflexivity].
  - cbn [HexahedronBSplineElement.mapM] in H. unfold bind at 1 in H.
    destruct (f x) as [l1 [y |]] eqn:Ex; [| discriminate].
    unfold bind at 1 in H.
    destruct (HexahedronBSplineElement.mapM f l) as [l2 [ys' |]] eqn:El;
      [| discriminate].
    unfold ret in H. injection H as _ <-.
    destruct (IH _ _ eq_refl) as [HP Hlen].
    split; [constructor; [exact (Hf _ _ _ Ex) | exact HP] | simpl; congruence].
Qed.

Lemma bspline_sizes Tpolynomial knot index_default this xi particle_size
    deformation_gradient :
  (forall log N,
     HexahedronBSplineElement.shapefn Tpolynomial knot index_default this xi
       particle_size deformation_gradient = (log, Some N) ->
     length N = HexahedronBSplineElement.nconnectivity_ this) /\
  (forall log G,
     HexahedronBSplineElement.grad_shapefn Tpolynomial knot index_default this xi
       particle_size deformation_gradient = (log, Some G) ->
     Eigen.rectangular (HexahedronBSplineElement.nconnectivity_ this) 3 G).
Proof.
  split; intros log R H.
  - unfold HexahedronBSplineElement.shapefn in H.
    destruct (Nat.eqb_spec (HexahedronBSplineElement.nconnectivity_ this) 8) as [E | E].
    + injection H as _ <-. now rewrite E.
    + unfold bind at 1 in H.
      destruct (HexahedronBSplineElement.pcoord _ _ _ _) as [l1 [p |]];
        [| discriminate].
      destruct (HexahedronBSplineElement.mapM _ _) as [l2 [ys |]] eqn:Em;
        [| discriminate].
      injection H as _ <-.
      destruct (mapM_Forall _ (fun _ => True) (fun _ _ _ _ => I) _ _ _ Em) as [_ Hl].
      now rewrite Hl, length_seq.
  - unfold HexahedronBSplineElement.grad_shapefn in H.
    destruct (Nat.eqb_spec (HexahedronBSplineElement.nconnectivity_ this) 8) as [E | E].
    + injection H as _ <-. rewrite E. split; [reflexivity |].
      destruct xi. build. repeat constructor.
    + unfold bind at 1 in H.
      destruct (HexahedronBSplineElement.pcoord _ _ _ _) as [l1 [p |]];
        [| discriminate].
      destruct (HexahedronBSplineElement.mapM _ _) as [l2 [ys |]] eqn:Em;
        [| discriminate].
      injection H as _ <-.
      apply (mapM_Forall _ (fun row => length row = 3%nat)) in Em.
      * destruct Em as [HF Hl]. split; [now rewrite Hl, length_seq | exact HF].
      * intros n l y Hn. unfold bind, eigen in Hn.
        destruct (Eigen.row3 _ _); [| discriminate].
        unfold ret in Hn. injection Hn as _ <-. reflexivity.
Qed.

Lemma row3_rectangular n m k :
  Eigen.rectangular n 3 m -> (k < n)%nat -> exists v, Eigen.row3 m k = Some v.
Proof.
  intros [Hl HF] Hk. unfold Eigen.row3.
  destruct (nth_error m k) as [row |] eqn:E.
  - pose proof (proj1 (Forall_forall _ _) HF row (nth_error_In _ _ E)) as H3.
    destruct row as [|a [|b [|c [|]]]]; try discriminate. eexists; reflexivity.
  - apply nth_error_None in E. lia.
Qed.

Lemma mapM_total {A B : Type} (f : A -> M B) (l : list A) :
  (forall x, In x l -> exists y, f x = ret y) ->
  exists ys, HexahedronBSplineElement.mapM f l = ret ys.
Proof.
  induction l as [|x l IH]; intros H; [eexists; reflexivity |].
  destruct (H x (or_introl eq_refl)) as [y Hy].
  destruct IH as [ys Hys]; [intros z Hz; apply H; right; exact Hz |].
  exists (y :: ys). cbn [HexahedronBSplineElement.mapM].
  rewrite Hy, bind_ret_l, Hys, bind_ret_l. reflexivity.
Qed.

Lemma pcoord_total n this xi particle_size deformation_gradient :
  Eigen.rectangular n 3 (HexahedronBSplineElement.nodal_coordinates_ this) ->
  (8 <= n)%nat ->
  exists p,
    HexahedronBSplineElement.pcoord this xi particle_size deformation_gradient
    = ret p.
Proof.
  intros [Hl HF] H8.
  destruct (HexahedronBSplineElement.nodal_coordinates_ this)
    as [|r0 [|r1 [|r2 [|r3 [|r4 [|r5 [|r6 [|r7 rest]]]]]]]] eqn:E;
    simpl in Hl; try lia.
  do 8 (apply Forall_cons_iff in HF; destruct HF as [? HF]).
  destruct r0 as [|? [|? [|? [|]]]]; try discriminate.
  destruct r1 as [|? [|? [|? [|]]]]; try discriminate.
  destruct r2 as [|? [|? [|? [|]]]]; try discriminate.
  destruct r3 as [|? [|? [|? [|]]]]; try discriminate.
  destruct r4 as [|? [|? [|? [|]]]]; try discriminate.
  destruct r5 as [|? [|? [|? [|]]]]; try discriminate.
  destruct r6 as [|? [|? [|? [|]]]]; try discriminate.
  destruct r7 as [|? [|? [|? [|]]]]; try discriminate.
  match type of E with
  | _ = [?a0; ?b0; ?c0] :: [?a1; ?b1; ?c1] :: [?a2; ?b2; ?c2] :: [?a3; ?b3; ?c3]
        :: [?a4; ?b4; ?c4] :: [?a5; ?b5; ?c5] :: [?a6; ?b6; ?c6]
        :: [?a7; ?b7; ?c7] :: _ =>
      destruct (bspline_pcoord_trilinear this xi particle_size deformation_gradient
                  (Eigen.vec3 a0 b0 c0) (Eigen.vec3 a1 b1 c1) (Eigen.vec3 a2 b2 c2)
                  (Eigen.vec3 a3 b3 c3) (Eigen.vec3 a4 b4 c4) (Eigen.vec3 a5 b5 c5)
                  (Eigen.vec3 a6 b6 c6) (Eigen.vec3 a7 b7 c7) rest E) as [p [Hp _]]
  end.
  exists p. exact Hp.
Qed.

Lemma bspline_returns Tpolynomial knot index_default this xi particle_size
    deformation_gradient :
  (8 <= HexahedronBSplineElement.nconnectivity_ this)%nat ->
  Eigen.rectangular (HexahedronBSplineElement.nconnectivity_ this) 3
    (HexahedronBSplineElement.nodal_coordinates_ this) ->
  exists N G,
    HexahedronBSplineElement.shapefn Tpolynomial knot index_default this xi
      particle_size deformation_gradient = ret N /\
    HexahedronBSplineElement.grad_shapefn Tpolynomial knot index_default this xi
      particle_size deformation_gradient = ret G.
Proof.
  intros H8 Hnc.
  unfold HexahedronBSplineElement.shapefn, HexahedronBSplineElement.grad_shapefn.
  destruct (HexahedronBSplineElement.nconnectivity_ this =? 8)%nat;
    [do 2 eexists; split; reflexivity |].
  destruct (pcoord_total _ this xi particle_size deformation_gradient Hnc H8)
    as [p Hp].
  rewrite Hp, !bind_ret_l.
  match goal with
  | |- exists N G, HexahedronBSplineElement.mapM ?f ?l = _ /\
                   HexahedronBSplineElement.mapM ?g ?l = _ =>
      destruct (mapM_total f l) as [N HN];
      [| destruct (mapM_total g l) as [G HG]; [| exists N, G; split; assumption]]
  end;
    intros n Hn; apply in_seq in Hn;
    (destruct (row3_rectangular _ _ n Hnc) as [v Hv]; [lia |]);
    rewrite Hv; eexists; reflexivity.
Qed.

(** X16.  For a B-spline element with at least 8 connected nodes and one row
    of 3 coordinates per connected node, whose node-type and knot tables hold
    every entry read, [shapefn] and [grad_shapefn] log nothing and return one
    shape function and one row of 3 gradient entries per connected node. *)
Theorem bspline_shapefn_sizes :
  forall Tpolynomial knot index_default this xi particle_size deformation_gradient,
    reads_in_range Tpolynomial knot index_default this ->
    (8 <= HexahedronBSplineElement.nconnectivity_ this)%nat ->
    Eigen.rectangular (HexahedronBSplineElement.nconnectivity_ this) 3
      (HexahedronBSplineElement.nodal_coordinates_ this) ->
    exists N G,
      HexahedronBSplineElement.shapefn Tpolynomial knot index_default this xi
        particle_size deformation_gradient = ret N /\
      length N = HexahedronBSplineElement.nconnectivity_ this /\
      HexahedronBSplineElement.grad_shapefn Tpolynomial knot index_default this xi
        particle_size deformation_gradient = ret G /\
      Eigen.rectangular (HexahedronBSplineElement.nconnectivity_ this) 3 G.
Proof.
  intros Tp knot idx this xi ps F _ H8 Hnc.
  destruct (bspline_returns Tp knot idx this xi ps F H8 Hnc) as (N & G & HN & HG).
  destruct (bspline_sizes Tp knot idx this xi ps F) as [SN SG].
  exists N, G. split; [exact HN |]. split; [exact (SN _ _ HN) |].
  split; [exact HG | exact (SG _ _ HG)].
Qed.

Lemma reads_in_range_example :
  reads_in_range 1 (fun _ => [-2; -1; 0]) 0 bspline_cube4_plus.
Proof.
  split; [reflexivity |]. split; [repeat constructor | intros t; simpl; lia].
Qed.

Lemma cube4_plus_rectangular :
  Eigen.rectangular (HexahedronBSplineElement.nconnectivity_ bspline_cube4_plus) 3
    (HexahedronBSplineElement.nodal_coordinates_ bspline_cube4_plus).
Proof. split; [reflexivity | repeat constructor]. Qed.

Lemma bspline_shapefn_sizes_witness :
  reads_in_range 1 (fun _ => [-2; -1; 0]) 0 bspline_cube4_plus /\
  (8 <= HexahedronBSplineElement.nconnectivity_ bspline_cube4_plus)%nat /\
  exists N,
    HexahedronBSplineElement.shapefn 1 (fun _ => [-2; -1; 0]) 0 bspline_cube4_plus
      (Eigen.vec3 0 0 0) (Eigen.vec3 0 0 0) [] = ret N /\
    length N = 9%nat.
Proof.
  assert (H8 : (8 <= HexahedronBSplineElement.nconnectivity_ bspline_cube4_plus)%nat)
    by (simpl; lia).
  split; [exact reads_in_range_example |]. split; [exact H8 |].
  destruct (bspline_shapefn_sizes 1 (fun _ => [-2; -1; 0]) 0 bspline_cube4_plus
              (Eigen.vec3 0 0 0) (Eigen.vec3 0 0 0) [] reads_in_range_example H8
              cube4_plus_rectangular) as (N & _ & HN & Hl & _).
  exists N. split; [exact HN | exact Hl].
Defined.

(** X17.  A B-spline element with exactly 8 connected nodes has the
    [jacobian] and the [bmatrix] of the 8-node element, logs included, for
    every local coordinate and every nodal-coordinate matrix. *)
Theorem bspline_base_count_jacobian_bmatrix :
  forall Tpolynomial knot index_default this xi nodal_coordinates particle_size
         deformation_gradient,
    HexahedronBSplineElement.nconnectivity_ this = 8%nat ->
    HexahedronBSplineElement.jacobian Tpolynomial knot index_default this xi
      nodal_coordinates particle_size deformation_gradient
    = HexahedronElement.jacobian HexahedronElement.Hex8 xi nodal_coordinates
        particle_size deformation_gradient /\
    HexahedronBSplineElement.bmatrix Tpolynomial knot index_default this xi
      nodal_coordinates particle_size deformation_gradient
    = HexahedronElement.bmatrix HexahedronElement.Hex8 xi nodal_coordinates
        particle_size deformation_gradient.
Proof.
  intros p knot idx this xi nc ps F H8.
  unfold HexahedronBSplineElement.jacobian, HexahedronBSplineElement.bmatrix,
    HexahedronBSplineElement.grad_shapefn.
  rewrite H8. cbn [Nat.eqb]. rewrite !bind_ret_l. split; reflexivity.
Qed.

Lemma bspline_base_count_jacobian_bmatrix_witness :
  HexahedronBSplineElement.nconnectivity_ bspline_cube4 = 8%nat /\
  HexahedronBSplineElement.jacobian 2 (fun _ => [-2; -1; 0]) 0 bspline_cube4
    (Eigen.vec3 0 0 0) cube4 (Eigen.vec3 0 0 0) []
  = HexahedronElement.jacobian HexahedronElement.Hex8 (Eigen.vec3 0 0 0) cube4
      (Eigen.vec3 0 0 0) [].
Proof.
  split; [reflexivity |].
  exact (proj1 (bspline_base_count_jacobian_bmatrix 2 (fun _ => [-2; -1; 0]) 0
                  bspline_cube4 (Eigen.vec3 0 0 0) cube4 (Eigen.vec3 0 0 0) []
                  eq_refl)).
Defined.

(** X18.  For such a B-spline element, when the nodal coordinates passed in
    do not have one row of 3 coordinates per connected node, [jacobian] logs
    the size error and returns the zero 3 by 3 matrix, and [bmatrix] logs the
    size error and returns no block. *)
Theorem bspline_size_mismatch :
  forall Tpolynomial knot index_default this xi nodal_coordinates particle_size
         deformation_gradient,
    reads_in_range Tpolynomial knot index_default this ->
    (8 <= HexahedronBSplineElement.nconnectivity_ this)%nat ->
    Eigen.rectangular (HexahedronBSplineElement.nconnectivity_ this) 3
      (HexahedronBSplineElement.nodal_coordinates_ this) ->
    Eigen.rows nodal_coordinates <> HexahedronBSplineElement.nconnectivity_ this \/
    Eigen.cols nodal_coordinates <> 3%nat ->
    HexahedronBSplineElement.jacobian Tpolynomial knot index_default this xi
      nodal_coordinates particle_size deformation_gradient
    = ([runtime_error
          "Jacobian calculation: Incorrect dimension of xi and nodal_coordinates"],
       Some [[0; 0; 0]; [0; 0; 0]; [0; 0; 0]]) /\
    HexahedronBSplineElement.bmatrix Tpolynomial knot index_default this xi
      nodal_coordinates particle_size deformation_gradient
    = ([runtime_error
          "BMatrix - Jacobian calculation: Incorrect dimension of xi and nodal_coordinates"],
       Some []).
Proof.
  intros p knot idx this xi nc ps F _ H8 Hnc Hmis.
  destruct (bspline_returns p knot idx this xi ps F H8 Hnc) as (N & G & _ & HG).
  pose proof (proj2 (bspline_sizes p knot idx this xi ps F) _ _ HG) as [Hrows _].
  change (length G) with (Eigen.rows G) in Hrows.
  assert (E : HexahedronElement.incorrect_dimension G nc = true).
  { unfold HexahedronElement.incorrect_dimension. rewrite Hrows.
    apply orb_true_iff. destruct Hmis as [H | H]; [left | right];
      apply negb_true_iff, Nat.eqb_neq; congruence. }
  unfold HexahedronBSplineElement.jacobian, HexahedronBSplineElement.bmatrix.
  rewrite HG, !bind_ret_l, E. split; reflexivity.
Qed.

Lemma bspline_size_mismatch_witness :
  reads_in_range 1 (fun _ => [-2; -1; 0]) 0 bspline_cube4_plus /\
  (8 <= HexahedronBSplineElement.nconnectivity_ bspline_cube4_plus)%nat /\
  (Eigen.rows cube4 <> HexahedronBSplineElement.nconnectivity_ bspline_cube4_plus \/
   Eigen.cols cube4 <> 3%nat) /\
  HexahedronBSplineElement.jacobian 1 (fun _ => [-2; -1; 0]) 0 bspline_cube4_plus
    (Eigen.vec3 0 0 0) cube4 (Eigen.vec3 0 0 0) []
  = ([runtime_error
        "Jacobian calculation: Incorrect dimension of xi and nodal_coordinates"],
     Some [[0; 0; 0]; [0; 0; 0]; [0; 0; 0]]).
Proof.
  assert (H8 : (8 <= HexahedronBSplineElement.nconnectivity_ bspline_cube4_plus)%nat)
    by (simpl; lia).
  assert (H : Eigen.rows cube4
              <> HexahedronBSplineElement.nconnectivity_ bspline_cube4_plus \/
              Eigen.cols cube4 <> 3%nat)
    by (left; simpl; lia).
  split; [exact reads_in_range_example |]. split; [exact H8 |]. split; [exact H |].
  exact (proj1 (bspline_size_mismatch 1 (fun _ => [-2; -1; 0]) 0 bspline_cube4_plus
                  (Eigen.vec3 0 0 0) cube4 (Eigen.vec3 0 0 0) []
                  reads_in_range_example H8 cube4_plus_rectangular H)).
Defined.

(** *** Faces and sides *)

Ltac face_nodes H :=
  let H0 := fresh "H0" in
  let H1 := fresh "H1" in
  let H2 := fresh "H2" in
  pose proof (H _ (or_introl eq_refl)) as H0;
  pose proof (H _ (or_intror (or_introl eq_refl))) as H1;
  pose proof (H _ (or_intror (or_intror (or_introl eq_refl)))) as H2;
  cbv [Eigen.mcoeff nth HexahedronElement.unit_cell_coordinates
       HexahedronElement.unit_cell_coordinates8
       HexahedronElement.unit_cell_coordinates20
       Eigen.coeff Eigen.c0 Eigen.c1 Eigen.c2] in H0, H1, H2;
  try lra; clear H; subst.

Ltac off_face Hnot :=
  first [ exfalso; apply Hnot; simpl; tauto
        | build; cbv [nth]; literals; field ].

(** X19.  On a face of the unit cell, the plane on which a coordinate takes
    the value shared by all the nodes that [face_indices] lists for the face,
    every shape function of a node that is not listed vanishes; the values on
    a face depend on the nodes of the face alone. *)
Theorem shapefn_vanishes_off_face :
  forall T face_id nodes k xi particle_size deformation_gradient i,
    HexahedronElement.face_indices T face_id = inr nodes ->
    (k < 3)%nat ->
    (forall n, In n nodes ->
               Eigen.mcoeff (HexahedronElement.unit_cell_coordinates T) n k = xi.[k]) ->
    (i < HexahedronElement.nfunctions T)%nat ->
    ~ In i nodes ->
    nth i (HexahedronElement.shapefn T xi particle_size deformation_gradient) 0 = 0.
Proof.
  intros T f nodes k [x y z] ps F i Hf Hk H Hi Hnot.
  destruct T.
  - do 6 (destruct f as [|f];
          [ injection Hf as <-;
            do 3 (destruct k as [|k];
                  [ face_nodes H;
                    do 8 (destruct i as [|i]; [off_face Hnot |]);
                    simpl in Hi; lia |]);
            lia |]).
    discriminate Hf.
  - do 6 (destruct f as [|f];
          [ injection Hf as <-;
            do 3 (destruct k as [|k];
                  [ face_nodes H;
                    do 20 (destruct i as [|i]; [off_face Hnot |]);
                    simpl in Hi; lia |]);
            lia |]).
    discriminate Hf.
Qed.

Lemma shapefn_vanishes_off_face_witness :
  HexahedronElement.face_indices HexahedronElement.Hex8 0 = inr [0; 1; 5; 4]%nat /\
  nth 2 (HexahedronElement.shapefn HexahedronElement.Hex8
           (Eigen.vec3 (1 / 2) (-1) (1 / 3)) (Eigen.vec3 0 0 0) []) 0 = 0.
Proof.
  split; [reflexivity |].
  apply (shapefn_vanishes_off_face HexahedronElement.Hex8 0 [0; 1; 5; 4]%nat 1
           (Eigen.vec3 (1 / 2) (-1) (1 / 3)) (Eigen.vec3 0 0 0) [] 2 eq_refl).
  - lia.
  - intros n [<- | [<- | [<- | [<- | []]]]]; reflexivity.
  - simpl; lia.
  - simpl. intros [H | [H | [H | [H | []]]]]; discriminate H.
Defined.

(** X20.  [face_indices] knows the faces 0 to 5: for these it returns
    distinct node indices of the element, 4 for the 8-node and 8 for the
    20-node element, the first 4 of the 20-node face being the nodes of the
    8-node face in the same order; for any other face id it throws
    [std::out_of_range]. *)
Theorem face_indices_bounds :
  forall T face_id,
    ((face_id < HexahedronElement.nfaces)%nat ->
     exists nodes,
       HexahedronElement.face_indices T face_id = inr nodes /\
       length nodes = match T with
                      | HexahedronElement.Hex8 => 4%nat
                      | HexahedronElement.Hex20 => 8%nat
                      end /\
       Forall (fun n => (n < HexahedronElement.nfunctions T)%nat) nodes /\
       NoDup nodes /\
       HexahedronElement.face_indices HexahedronElement.Hex8 face_id
       = inr (firstn 4 nodes)) /\
    ((HexahedronElement.nfaces <= face_id)%nat ->
     HexahedronElement.face_indices T face_id = inl out_of_range).
Proof.
  intros T f. split.
  - intros Hf. unfold HexahedronElement.nfaces in Hf.
    destruct T;
      do 6 (destruct f as [|f];
            [ eexists; split; [reflexivity |];
              split; [reflexivity |];
              split; [repeat (apply Forall_cons; [simpl; lia |]); apply Forall_nil |];
              split; [| reflexivity];
              repeat (apply NoDup_cons; [simpl; intuition lia |]); apply NoDup_nil |]);
      lia.
  - intros Hf. unfold HexahedronElement.nfaces in Hf.
    destruct T; do 6 (destruct f as [|f]; [lia |]); reflexivity.
Qed.

Lemma face_indices_bounds_witness :
  (2 < HexahedronElement.nfaces)%nat /\
  exists nodes,
    HexahedronElement.face_indices HexahedronElement.Hex20 2 = inr nodes /\
    length nodes = 8%nat.
Proof.
  assert (H : (2 < HexahedronElement.nfaces)%nat)
    by (unfold HexahedronElement.nfaces; lia).
  split; [exact H |].
  destruct (proj1 (face_indices_bounds HexahedronElement.Hex20 2) H)
    as (nodes & Hn & Hl & _).
  exists nodes. split; [exact Hn | exact Hl].
Defined.

(** X21.  [sides_indices] lists 12 distinct sides, each joining two corner
    nodes that lie [unit_element_length] apart in the unit cell of the 8-node
    and of the 20-node element, and any two consecutive corners of a face of
    [face_indices] are joined by a side. *)
Theorem sides_are_unit_cell_edges :
  length HexahedronElement.sides_indices = 12%nat /\
  NoDup HexahedronElement.sides_indices /\
  (forall T a b,
     In [a; b] HexahedronElement.sides_indices ->
     (a < 8)%nat /\ (b < 8)%nat /\
     unit_cell_distance2 T a b
     = HexahedronElement.unit_element_length * HexahedronElement.unit_element_length) /\
  (forall face_id n0 n1 n2 n3,
     HexahedronElement.face_indices HexahedronElement.Hex8 face_id
     = inr [n0; n1; n2; n3] ->
     joined_by_side n0 n1 /\ joined_by_side n1 n2 /\
     joined_by_side n2 n3 /\ joined_by_side n3 n0).
Proof.
  split; [reflexivity |]. split; [| split].
  - unfold HexahedronElement.sides_indices.
    repeat (apply NoDup_cons; [simpl; intuition discriminate |]). apply NoDup_nil.
  - intros T a b Hin. unfold HexahedronElement.sides_indices in Hin. simpl in Hin.
    repeat (destruct Hin as [Hin | Hin];
            [ injection Hin as <- <-;
              split; [lia |]; split; [lia |];
              destruct T;
              cbv [unit_cell_distance2 Eigen.mcoeff nth
                   HexahedronElement.unit_cell_coordinates
                   HexahedronElement.unit_cell_coordinates8
                   HexahedronElement.unit_cell_coordinates20
                   HexahedronElement.unit_element_length];
              lra |]).
    destruct Hin.
  - intros f n0 n1 n2 n3 Hf.
    do 6 (destruct f as [|f];
          [ injection Hf as <- <- <- <-;
            unfold joined_by_side, HexahedronElement.sides_indices; simpl;
            repeat split; tauto |]).
    discriminate Hf.
Qed.

Lemma sides_are_unit_cell_edges_witness :
  In [0; 1]%nat HexahedronElement.sides_indices /\
  unit_cell_distance2 HexahedronElement.Hex8 0 1
  = HexahedronElement.unit_element_length * HexahedronElement.unit_element_length.
Proof.
  assert (H : In [0; 1]%nat HexahedronElement.sides_indices) by (left; reflexivity).
  split; [exact H |].
  exact (proj2 (proj2 (proj1 (proj2 (proj2 sides_are_unit_cell_edges))
                         HexahedronElement.Hex8 0%nat 1%nat H))).
Defined.

(** *** The names of the persisted fields *)

(** X22.  The offsets, sizes and names tables of the persisted particle list
    the same 56 members in the same order, and the 56 persisted names are
    pairwise distinct. *)
Theorem particle_field_names_distinct :
  hdf5_particle.dst_offset = hdf5_particle.dst_sizes /\
  hdf5_particle.field_names
  = map hdf5_particle.persisted_name hdf5_particle.dst_offset /\
  length hdf5_particle.field_names = hdf5_particle.NFIELDS /\
  NoDup hdf5_particle.field_names.
Proof.
  split; [reflexivity |]. split; [reflexivity |]. split; [reflexivity |].
  unfold hdf5_particle.field_names.
  repeat (apply NoDup_cons; [simpl; intuition discriminate |]). apply NoDup_nil.
Qed.

(** *** Physical gradients on a box cell *)



(** *** Initialisation of the B-spline element *)

(** X24.  [initialise_bspline_connectivity_properties] fails its [assert]
    when the number of node-type lists is not the number of rows of the nodal
    coordinates.  Otherwise, on nodal coordinates with at least 2 rows and 1
    column, it gives an element with one connected node and one node-type
    list per row and a non-negative spacing; with exactly 8 rows the shape
    functions and gradients of that element are those of the 8-node
    element. *)
Theorem initialise_bspline_connectivity :
  forall r c nodal_coordinates nodal_properties,
    (Eigen.rectangular r c nodal_coordinates -> (2 <= r)%nat -> (1 <= c)%nat ->
     Eigen.rows nodal_coordinates = length nodal_properties ->
     exists this,
       HexahedronBSplineElement.initialise_bspline_connectivity_properties
         nodal_coordinates nodal_properties = Some this /\
       HexahedronBSplineElement.nconnectivity_ this = r /\
       length (HexahedronBSplineElement.node_type_ this) = r /\
       0 <= HexahedronBSplineElement.spacing_length_ this /\
       (r = 8%nat ->
        forall Tpolynomial knot index_default xi particle_size deformation_gradient,
          HexahedronBSplineElement.shapefn Tpolynomial knot index_default this xi
            particle_size deformation_gradient
          = ret (HexahedronElement.shapefn8 xi particle_size deformation_gradient) /\
          HexahedronBSplineElement.grad_shapefn Tpolynomial knot index_default this
            xi particle_size deformation_gradient
          = ret (HexahedronElement.grad_shapefn8 xi particle_size
                   deformation_gradient))) /\
    (Eigen.rows nodal_coordinates <> length nodal_properties ->
     HexahedronBSplineElement.initialise_bspline_connectivity_properties
       nodal_coordinates nodal_properties = None).
Proof.
  intros r c nc props.
  unfold HexahedronBSplineElement.initialise_bspline_connectivity_properties.
  split.
  - intros [Hr _] _ _ H. change (length nc) with (Eigen.rows nc) in Hr.
    destruct (Nat.eqb_spec (Eigen.rows nc) (length props)); [| contradiction].
    eexists. split; [reflexivity |]. cbn.
    split; [exact Hr |]. split; [congruence |]. split; [apply Rabs_pos |].
    intros H8 p knot idx xi ps F.
    unfold HexahedronBSplineElement.shapefn, HexahedronBSplineElement.grad_shapefn.
    cbn [HexahedronBSplineElement.nconnectivity_].
    rewrite Hr, H8. split; reflexivity.
  - intros H. apply Nat.eqb_neq in H. now rewrite H.
Qed.

Lemma initialise_bspline_connectivity_witness :
  Eigen.rectangular 8 3 cube4 /\ (2 <= 8)%nat /\ (1 <= 3)%nat /\
  Eigen.rows cube4 = length (repeat [0; 0; 0]%nat 8) /\
  exists this,
    HexahedronBSplineElement.initialise_bspline_connectivity_properties
      cube4 (repeat [0; 0; 0]%nat 8) = Some this /\
    HexahedronBSplineElement.nconnectivity_ this = 8%nat.
Proof.
  assert (Hc : Eigen.rectangular 8 3 cube4) by (split; [reflexivity | repeat constructor]).
  assert (H2 : (2 <= 8)%nat) by lia. assert (H1 : (1 <= 3)%nat) by lia.
  assert (H : Eigen.rows cube4 = length (repeat [0; 0; 0]%nat 8)) by reflexivity.
  split; [exact Hc |]. split; [exact H2 |]. split; [exact H1 |]. split; [exact H |].
  destruct (proj1 (initialise_bspline_connectivity 8 3 cube4 (repeat [0; 0; 0]%nat 8))
              Hc H2 H1 H)
    as (this & Hi & Hn & _).
  exists this. split; [exact Hi | exact Hn].
Defined.

(** *** Local support of the B-spline shape functions *)

Lemma mapM_nth {A B : Type} (f : A -> M B) :
  forall l log ys,
    HexahedronBSplineElement.mapM f l = (log, Some ys) ->
    forall n d d', (n < length l)%nat ->
      exists log', f (nth n l d) = (log', Some (nth n ys d')).
Proof.
  induction l as [|x l IH]; intros log ys H n d d' Hn; [simpl in Hn; lia |].
  cbn [HexahedronBSplineElement.mapM] in H. unfold bind at 1 in H.
  destruct (f x) as [l1 [y |]] eqn:Ex; [| discriminate].
  unfold bind at 1 in H.
  destruct (HexahedronBSplineElement.mapM f l) as [l2 [ys' |]] eqn:El;
    [| discriminate].
  unfold ret in H. injection H as _ <-.
  destruct n as [|n]; simpl.
  - eexists. exact Ex.
  - apply (IH _ _ eq_refl). simpl in Hn. lia.
Qed.

Lemma with_boundary_term_plain Tpolynomial index_default f pc nc nt :
  nt <> 1%nat -> nt <> 4%nat ->
  HexahedronBSplineElement.with_boundary_term Tpolynomial index_default f pc nc nt
  = f pc nc nt Tpolynomial index_default.
Proof.
  intros H1 H4. unfold HexahedronBSplineElement.with_boundary_term.
  destruct nt as [|[|[|[|[|nt]]]]]; try reflexivity; congruence.
Qed.

(** X25.  For a B-spline element with a connectivity other than 8 nodes,
    whose node-type and knot tables hold every entry read: the shape function
    of a connected node is 0 whenever, along one direction in which the node
    is not of type 1 or 4 and its knots are in non-decreasing order, the real
    coordinate of the point lies left of the first or at or right of the last
    knot that the node reads. *)
Theorem bspline_shapefn_local_support :
  forall Tpolynomial knot index_default this xi particle_size deformation_gradient
         log N p n r i,
    reads_in_range Tpolynomial knot index_default this ->
    HexahedronBSplineElement.nconnectivity_ this <> 8%nat ->
    HexahedronBSplineElement.shapefn Tpolynomial knot index_default this xi
      particle_size deformation_gradient = (log, Some N) ->
    HexahedronBSplineElement.pcoord this xi particle_size deformation_gradient
    = ret p ->
    (n < HexahedronBSplineElement.nconnectivity_ this)%nat ->
    Eigen.row3 (HexahedronBSplineElement.nodal_coordinates_ this) n = Some r ->
    (i < 3)%nat ->
    HexahedronBSplineElement.node_type this n i <> 1%nat ->
    HexahedronBSplineElement.node_type this n i <> 4%nat ->
    knots_ordered
      (HexahedronBSplineElement.knot_coord knot this r.[i]
         (HexahedronBSplineElement.node_type this n i))
      index_default Tpolynomial ->
    p.[i] < nth index_default
              (HexahedronBSplineElement.knot_coord knot this r.[i]
                 (HexahedronBSplineElement.node_type this n i)) 0
    \/ nth (index_default + Tpolynomial + 1)
           (HexahedronBSplineElement.knot_coord knot this r.[i]
              (HexahedronBSplineElement.node_type this n i)) 0 <= p.[i] ->
    nth n N 0 = 0.
Proof.
  intros Tp knot idx this xi ps F log N p n r i _ H8 HN Hp Hn Hr Hi Ht1 Ht4 Hk Hout.
  unfold HexahedronBSplineElement.shapefn in HN.
  apply Nat.eqb_neq in H8. rewrite H8, Hp, bind_ret_l in HN.
  destruct (mapM_nth _ _ _ _ HN n 0%nat 0) as [log' Hf];
    [now rewrite length_seq |].
  rewrite seq_nth in Hf by exact Hn. cbn [Nat.add] in Hf.
  rewrite Hr in Hf. unfold eigen in Hf. change (@nil exception, Some r) with (ret r) in Hf.
  rewrite bind_ret_l in Hf. unfold ret in Hf. injection Hf as _ Hf.
  rewrite <- Hf. cbn [seq fold_left].
  assert (Z : HexahedronBSplineElement.with_boundary_term Tp idx
                (HexahedronBSplineElement.kernel knot this) p.[i] r.[i]
                (HexahedronBSplineElement.node_type this n i) = 0).
  { rewrite with_boundary_term_plain by assumption.
    apply kernel_vanishes_outside; assumption. }
  do 3 (destruct i as [|i]; [cbn [Eigen.coeff] in Z; rewrite Z; ring |]). lia.
Qed.

(** The 9-node element at its centre: node 0, at [(-2, -2, -2)], reads the
    knots [-10, -6, -2], and the centre is right of them. *)
Lemma bspline_shapefn_local_support_witness :
  reads_in_range 1 (fun _ => [-2; -1; 0]) 0 bspline_cube4_plus /\
  exists N,
    HexahedronBSplineElement.shapefn 1 (fun _ => [-2; -1; 0]) 0 bspline_cube4_plus
      (Eigen.vec3 0 0 0) (Eigen.vec3 0 0 0) [] = ([], Some N) /\
    nth 0 N 0 = 0.
Proof.
  split; [exact reads_in_range_example |].
  eexists. split; [reflexivity |].
  eapply (bspline_shapefn_local_support 1 (fun _ => [-2; -1; 0]) 0 bspline_cube4_plus
            (Eigen.vec3 0 0 0) (Eigen.vec3 0 0 0) [] [] _ _ 0%nat
            (Eigen.vec3 (-2) (-2) (-2)) 0%nat reads_in_range_example).
  - simpl. lia.
  - reflexivity.
  - reflexivity.
  - simpl. lia.
  - reflexivity.
  - lia.
  - cbv. lia.
  - cbv. lia.
  - split; [simpl; lia |]. intros j Hj.
    cbv [HexahedronBSplineElement.knot_coord HexahedronBSplineElement.spacing_length_
         HexahedronBSplineElement.node_type HexahedronBSplineElement.node_type_
         bspline_cube4_plus map Eigen.coeff Eigen.c0].
    destruct j as [|[|j]]; [simpl; lra | simpl; lra | lia].
  - right.
    cbv [HexahedronBSplineElement.knot_coord HexahedronBSplineElement.spacing_length_
         HexahedronBSplineElement.node_type HexahedronBSplineElement.node_type_
         HexahedronBSplineElement.nodal_coordinates_
         bspline_cube4_plus cube4_plus map nth Nat.add Eigen.coeff Eigen.c0 Eigen.c1
         Eigen.c2 HexahedronBSplineElement.shapefn_local cube4
         length seq fold_left bind ret eigen Eigen.row3 nth_error app Eigen.add3].
    build. literals. lra.
Defined.

(** *** Concrete instances *)

Lemma shapefn_nodal_values_witness :
  Eigen.row3 (HexahedronElement.unit_cell_coordinates HexahedronElement.Hex20) 9
  = Some (Eigen.vec3 (-1) 0 (-1)) /\
  HexahedronElement.shapefn HexahedronElement.Hex20 (Eigen.vec3 (-1) 0 (-1))
    (Eigen.vec3 0 0 0) []
  = map (fun i => if (i =? 9)%nat then 1 else 0) (seq 0 20).
Proof.
  split; [reflexivity |].
  exact (shapefn_nodal_values HexahedronElement.Hex20 9 (Eigen.vec3 (-1) 0 (-1))
           (Eigen.vec3 0 0 0) [] eq_refl).
Defined.

Lemma grad_shapefn8_consistent_witness :
  (5 < 8)%nat /\ (2 < 3)%nat /\
  gradient_entry_consistent
    (fun x => HexahedronElement.shapefn8 x (Eigen.vec3 0 0 0) [])
    (fun x => HexahedronElement.grad_shapefn8 x (Eigen.vec3 0 0 0) [])
    (Eigen.vec3 (1 / 2) 0 0) 5 2.
Proof.
  assert (H5 : (5 < 8)%nat) by lia. assert (H2 : (2 < 3)%nat) by lia.
  split; [exact H5 |]. split; [exact H2 |].
  exact (grad_shapefn8_consistent (Eigen.vec3 (1 / 2) 0 0) (Eigen.vec3 0 0 0) []
           5%nat 2%nat H5 H2).
Defined.

Lemma grad_shapefn20_consistent_elsewhere_witness :
  (12 < 20)%nat /\ (1 < 3)%nat /\ grad_shapefn20_slip 12 1 = false /\
  gradient_entry_consistent
    (fun x => HexahedronElement.shapefn20 x (Eigen.vec3 0 0 0) [])
    (fun x => HexahedronElement.grad_shapefn20 x (Eigen.vec3 0 0 0) [])
    (Eigen.vec3 (1 / 2) 0 0) 12 1.
Proof.
  assert (H12 : (12 < 20)%nat) by lia. assert (H1 : (1 < 3)%nat) by lia.
  split; [exact H12 |]. split; [exact H1 |]. split; [reflexivity |].
  exact (grad_shapefn20_consistent_elsewhere (Eigen.vec3 (1 / 2) 0 0)
           (Eigen.vec3 0 0 0) [] 12%nat 1%nat H12 H1 eq_refl).
Defined.

(** ** The chain rule of [dn_dx] *)

(** For the standard elements [dn_dx] satisfies the chain rule of the
    specification at every input. *)
Lemma hexahedron_dn_dx_chain_rule :
  forall knot index_default T xi nodal_coordinates particle_size deformation_gradient,
    dn_dx_chain_rule knot index_default (Element.Hexahedron T) xi nodal_coordinates
      particle_size deformation_gradient.
Proof.
  intros knot idx T xi nc ps F G J HG HJ Hrect Hdet.
  cbn [Element.grad_shapefn Element.jacobian Element.dn_dx] in *.
  injection HG as <-.
  rewrite rows_grad_shapefn in Hrect.
  destruct (hexahedron_dn_dx T xi nc ps F Hrect) as (J' & D & HJ' & HD & Hdn).
  rewrite HJ' in HJ. injection HJ as <-.
  rewrite Hdn, HD. reflexivity.
Qed.

(** On the cube of side 4 the Jacobian of the 8-node element at the centre is
    twice the identity, and the chain rule halves the local gradients. *)
Lemma cube4_jacobian :
  Eigen.fixed 3 3
    (Eigen.mmul
       (Eigen.transpose
          (HexahedronElement.grad_shapefn8 (Eigen.vec3 0 0 0) (Eigen.vec3 0 0 0) []))
       cube4)
  = Some [[2; 0; 0]; [0; 2; 0]; [0; 0; 2]].
Proof.
  cbv [Eigen.fixed Eigen.mmul Eigen.transpose Eigen.column Eigen.cols Eigen.rows
       Eigen.dotXd cube4 length map seq nth Nat.eqb andb].
  build. cbv [length Nat.eqb map nth seq andb]. literals.
  apply (f_equal Some). rows_eq ltac:(lra).
Qed.

Lemma cube4_chain_rule :
  Eigen.mmul
    (HexahedronElement.grad_shapefn8 (Eigen.vec3 0 0 0) (Eigen.vec3 0 0 0) [])
    (Eigen.transpose (Eigen.inverse [[2; 0; 0]; [0; 2; 0]; [0; 0; 2]]))
  = Some half_gradients.
Proof.
  rewrite inverse_twice_identity.
  cbv [half_gradients Eigen.mmul Eigen.transpose Eigen.column Eigen.cols Eigen.rows
       Eigen.dotXd length map seq nth Nat.eqb].
  build. cbv [length Nat.eqb map nth seq]. literals.
  apply (f_equal Some). rows_eq ltac:(lra).
Qed.

(** C3.  The chain rule [dn_dx = grad_shapefn * jacobian^-T] fails for the
    B-spline element.  On a B-spline element of any order initialised on the
    8 corners of a cube of side 4, at the centre of the cell, the Jacobian is
    twice the identity (determinant 8) and the chain rule gives the local
    gradients halved, entry (0, 0) being -1/16; the B-spline [dn_dx] returns
    the local gradients themselves, entry (0, 0) being -1/8.  On the same
    input the 8-node element's [dn_dx] returns the halved gradients, and the
    B-spline element's own [bmatrix] is built from them. *)
Theorem bspline_dn_dx_misses_jacobian :
  forall knot index_default Tpolynomial,
    let e := Element.HexahedronBSpline Tpolynomial bspline_cube4 in
    let xi := Eigen.vec3 0 0 0 in
    let particle_size := Eigen.vec3 0 0 0 in
    let G := HexahedronElement.grad_shapefn8 xi particle_size [] in
    let J := [[2; 0; 0]; [0; 2; 0]; [0; 0; 2]] in
    Element.grad_shapefn knot index_default e xi particle_size [] = ret G /\
    Element.jacobian knot index_default e xi cube4 particle_size [] = ret J /\
    Eigen.determinant J = 8 /\
    Eigen.mmul G (Eigen.transpose (Eigen.inverse J)) = Some half_gradients /\
    Element.dn_dx knot index_default e xi cube4 particle_size [] = ret G /\
    Eigen.mcoeff G 0 0 = - (1 / 8) /\
    Eigen.mcoeff half_gradients 0 0 = - (1 / 16) /\
    Element.dn_dx knot index_default (Element.Hexahedron HexahedronElement.Hex8)
      xi cube4 particle_size [] = ret half_gradients /\
    HexahedronBSplineElement.bmatrix Tpolynomial knot index_default bspline_cube4
      xi cube4 particle_size []
    = ret (map (HexahedronElement.bi half_gradients) (seq 0 8)).
Proof.
  intros knot idx p. cbv zeta.
  assert (Hib : HexahedronElement.incorrect_dimension
                  (HexahedronElement.grad_shapefn8 (Eigen.vec3 0 0 0)
                     (Eigen.vec3 0 0 0) []) cube4 = false) by reflexivity.
  repeat split.
  - cbv [Element.jacobian HexahedronBSplineElement.jacobian
         HexahedronBSplineElement.grad_shapefn
         HexahedronBSplineElement.nconnectivity_ bspline_cube4 Nat.eqb].
    rewrite bind_ret_l, Hib, cube4_jacobian. reflexivity.
  - cbv [Eigen.determinant Eigen.cofactor Eigen.mcoeff Eigen.next3 nth]. lra.
  - exact cube4_chain_rule.
  - build. cbv [Eigen.mcoeff nth]. literals. lra.
  - cbv [half_gradients]. build. cbv [Eigen.mcoeff nth map]. literals. lra.
  - cbv [Element.dn_dx HexahedronElement.dn_dx HexahedronElement.grad_shapefn].
    rewrite cube4_jacobian. cbv [eigen bind]. rewrite cube4_chain_rule.
    reflexivity.
  - cbv [HexahedronBSplineElement.bmatrix HexahedronBSplineElement.grad_shapefn
         HexahedronBSplineElement.nconnectivity_ bspline_cube4 Nat.eqb].
    rewrite bind_ret_l, Hib, cube4_jacobian. cbv [eigen bind].
    rewrite cube4_chain_rule. reflexivity.
Qed.

(** ** The local geometry of the B-spline element *)

(** C9.  Whatever its polynomial order and whatever connectivity, node types
    and spacing have been installed, a B-spline element's [shapefn_local]
    returns what [shapefn] of the 8-node element returns, and these are the 8
    trilinear shape functions of the corners of the unit cell; and the real
    coordinates that the element interpolates from a local coordinate are the
    trilinear map of the first 8 stored nodes, also when more than 8 nodes
    are connected. *)
Theorem bspline_local_geometry_trilinear :
  forall Tpolynomial this xi particle_size deformation_gradient,
    Element.shapefn_local (Element.HexahedronBSpline Tpolynomial this)
      xi particle_size deformation_gradient
    = HexahedronElement.shapefn HexahedronElement.Hex8
        xi particle_size deformation_gradient /\
    Element.shapefn_local (Element.HexahedronBSpline Tpolynomial this)
      xi particle_size deformation_gradient
    = trilinear_shape_functions xi /\
    forall n,
      (8 <= n)%nat ->
      Eigen.rectangular n 3 (HexahedronBSplineElement.nodal_coordinates_ this) ->
      exists p,
        HexahedronBSplineElement.pcoord this xi particle_size deformation_gradient
        = ret p /\
        row_of p
        = trilinear_map (HexahedronBSplineElement.nodal_coordinates_ this) xi.
Proof.
  intros p this [x y z] ps F. split; [reflexivity |]. split.
  - cbv [Element.shapefn_local HexahedronBSplineElement.shapefn_local
         trilinear_shape_functions trilinear
         HexahedronElement.unit_cell_coordinates8 map nth].
    build. literals.
    repeat (apply (f_equal2 cons); [field |]); reflexivity.
  - intros n H8 [Hl HF].
    unfold HexahedronBSplineElement.pcoord.
    destruct (HexahedronBSplineElement.nodal_coordinates_ this)
      as [|r0 [|r1 [|r2 [|r3 [|r4 [|r5 [|r6 [|r7 rest]]]]]]]];
      simpl in Hl; try lia.
    do 8 (apply Forall_cons_iff in HF; destruct HF as [? HF]).
    destruct r0 as [|? [|? [|? [|]]]]; try discriminate.
    destruct r1 as [|? [|? [|? [|]]]]; try discriminate.
    destruct r2 as [|? [|? [|? [|]]]]; try discriminate.
    destruct r3 as [|? [|? [|? [|]]]]; try discriminate.
    destruct r4 as [|? [|? [|? [|]]]]; try discriminate.
    destruct r5 as [|? [|? [|? [|]]]]; try discriminate.
    destruct r6 as [|? [|? [|? [|]]]]; try discriminate.
    destruct r7 as [|? [|? [|? [|]]]]; try discriminate.
    eexists. split.
    + cbv [HexahedronBSplineElement.shapefn_local]. build.
      cbv [length seq fold_left bind ret eigen Eigen.row3 nth_error app nth
           Eigen.add3 Eigen.coeff Eigen.c0 Eigen.c1 Eigen.c2].
      reflexivity.
    + cbv [row_of trilinear_map trilinear_shape_functions trilinear
           HexahedronElement.unit_cell_coordinates8 Eigen.dotXd Eigen.column
           firstn map seq nth Eigen.coeff Eigen.c0 Eigen.c1 Eigen.c2].
      literals.
      repeat (apply (f_equal2 cons); [field |]); reflexivity.
Qed.

(** The element with 9 connected nodes, at [xi = (1/2, 0, 0)]. *)
Lemma bspline_local_geometry_trilinear_witness :
  (8 <= 9)%nat /\
  Eigen.rectangular 9 3 (HexahedronBSplineElement.nodal_coordinates_ bspline_cube4_plus) /\
  exists p,
    HexahedronBSplineElement.pcoord bspline_cube4_plus (Eigen.vec3 (1 / 2) 0 0)
      (Eigen.vec3 0 0 0) [] = ret p /\
    row_of p
    = trilinear_map (HexahedronBSplineElement.nodal_coordinates_ bspline_cube4_plus)
        (Eigen.vec3 (1 / 2) 0 0).
Proof.
  assert (H8 : (8 <= 9)%nat) by lia.
  split; [exact H8 |]. split; [exact cube4_plus_rectangular |].
  exact (proj2 (proj2 (bspline_local_geometry_trilinear 2 bspline_cube4_plus
                         (Eigen.vec3 (1 / 2) 0 0) (Eigen.vec3 0 0 0) []))
           9%nat H8 cube4_plus_rectangular).
Defined.

(** ** Rounding *)

(** *** The error of rounded evaluation *)

Section RoundingError.

(** A rounding whose error is at most [u] relative to the exact result, or
    [eta] where the result is too small for that; [w] bounds both. *)
Variable rnd : R -> R.
Variables u eta : R.
Hypothesis u_range : 0 <= u <= / 2 ^ 53.
Hypothesis eta_range : 0 <= eta <= / 2 ^ 1075.
Hypothesis rnd_error : forall x, Rabs (rnd x - x) <= u * Rabs x + eta.

Let w : R := u + eta.

Lemma w_range : 0 <= w <= / 2 ^ 52.
Proof.
  unfold w.
  assert (H : / 2 ^ 1075 <= / 2 ^ 53)
    by (apply Rinv_le_contravar; [apply pow_lt; lra | apply Rle_pow; [lra | lia]]).
  assert (H52 : / 2 ^ 52 = 2 * / 2 ^ 53).
  { change 53%nat with (S 52). simpl pow at 2.
    assert (0 < 2 ^ 52) by (apply pow_lt; lra). field; lra. }
  lra.
Qed.

Lemma w_small : 0 <= w <= / 1000.
Proof.
  pose proof w_range as [W0 W1]. split; [exact W0 |].
  apply Rle_trans with (1 := W1).
  apply Rinv_le_contravar; [lra |].
  change 52%nat with (10 + 42)%nat. rewrite pow_add.
  assert (1 <= 2 ^ 42) by (apply pow_R1_Rle; lra).
  assert (2 ^ 10 = 1024) by (simpl; lra). nra.
Qed.

Lemma rnd_near x : Rabs (rnd x - x) <= w * (Rabs x + 1).
Proof.
  pose proof (rnd_error x). pose proof (Rabs_pos x). unfold w.
  destruct u_range, eta_range. nra.
Qed.

Local Notation "'near'" := (Rounded.near w) (only parsing).

Lemma near_exactly c M : Rabs c <= M -> near c c M 0.
Proof.
  intros H. split; [lra |]. split; [exact H |].
  unfold Rminus. rewrite Rplus_opp_r, Rabs_R0. lra.
Qed.

Lemma near_weaken x X M k M' k' :
  near x X M k -> M <= M' -> k <= k' -> near x X M' k'.
Proof.
  intros (Hk & HM & He) HM' Hk'. pose proof w_small as [W0 _].
  split; [lra |]. split; [lra | nra].
Qed.

Lemma near_abs x X M k : near x X M k -> Rabs x <= M + k / 1000.
Proof.
  intros (Hk & HM & He). pose proof w_small as [W0 W1].
  replace x with (X + (x - X)) by ring.
  eapply Rle_trans; [apply Rabs_triang |]. nra.
Qed.

Lemma near_rounded x X M k :
  near x X M k -> near (rnd x) X M (k + (M + k / 1000 + 1)).
Proof.
  intros H. pose proof (near_abs _ _ _ _ H) as Ha.
  destruct H as (Hk & HM & He). pose proof w_small as [W0 W1].
  pose proof (Rabs_pos X). pose proof (Rabs_pos x).
  split; [nra |]. split; [exact HM |].
  replace (rnd x - X) with ((rnd x - x) + (x - X)) by ring.
  eapply Rle_trans; [apply Rabs_triang |].
  pose proof (rnd_near x). nra.
Qed.

Lemma near_plus a A Ma ka b B Mb kb :
  near a A Ma ka -> near b B Mb kb -> near (a + b) (A + B) (Ma + Mb) (ka + kb).
Proof.
  intros (Hka & HMa & Hea) (Hkb & HMb & Heb).
  split; [lra |]. split.
  - eapply Rle_trans; [apply Rabs_triang | lra].
  - replace (a + b - (A + B)) with ((a - A) + (b - B)) by ring.
    eapply Rle_trans; [apply Rabs_triang | lra].
Qed.

Lemma near_minus a A Ma ka b B Mb kb :
  near a A Ma ka -> near b B Mb kb -> near (a - b) (A - B) (Ma + Mb) (ka + kb).
Proof.
  intros (Hka & HMa & Hea) (Hkb & HMb & Heb).
  split; [lra |]. split.
  - unfold Rminus. eapply Rle_trans; [apply Rabs_triang |]. rewrite Rabs_Ropp. lra.
  - replace (a - b - (A - B)) with ((a - A) + - (b - B)) by ring.
    eapply Rle_trans; [apply Rabs_triang |]. rewrite Rabs_Ropp. lra.
Qed.

Lemma near_times a A Ma ka b B Mb kb :
  near a A Ma ka -> near b B Mb kb ->
  near (a * b) (A * B) (Ma * Mb) (ka * (Mb + kb / 1000) + Ma * kb).
Proof.
  intros Ha Hb. pose proof (near_abs _ _ _ _ Hb) as Hbb.
  destruct Ha as (Hka & HMa & Hea), Hb as (Hkb & HMb & Heb).
  pose proof w_small as [W0 W1].
  pose proof (Rabs_pos A). pose proof (Rabs_pos B). pose proof (Rabs_pos b).
  pose proof (Rabs_pos (a - A)). pose proof (Rabs_pos (b - B)).
  split; [nra |]. split.
  - rewrite Rabs_mult. nra.
  - replace (a * b - A * B) with ((a - A) * b + A * (b - B)) by ring.
    eapply Rle_trans; [apply Rabs_triang |]. rewrite !Rabs_mult.
    assert (Rabs (a - A) * Rabs b <= (ka * w) * (Mb + kb / 1000)) by nra.
    assert (Rabs A * Rabs (b - B) <= Ma * (kb * w)) by nra.
    nra.
Qed.

(** The three rounded operations, with bounds [M'] and [k'] to choose. *)
Lemma near_add a A Ma ka b B Mb kb M' k' :
  near a A Ma ka -> near b B Mb kb ->
  Ma + Mb <= M' ->
  ka + kb + (Ma + Mb + (ka + kb) / 1000 + 1) <= k' ->
  near (Rounded.add rnd a b) (A + B) M' k'.
Proof.
  intros Ha Hb HM Hk. eapply near_weaken; [| exact HM | exact Hk].
  apply near_rounded, near_plus; assumption.
Qed.

Lemma near_sub a A Ma ka b B Mb kb M' k' :
  near a A Ma ka -> near b B Mb kb ->
  Ma + Mb <= M' ->
  ka + kb + (Ma + Mb + (ka + kb) / 1000 + 1) <= k' ->
  near (Rounded.sub rnd a b) (A - B) M' k'.
Proof.
  intros Ha Hb HM Hk. eapply near_weaken; [| exact HM | exact Hk].
  apply near_rounded, near_minus; assumption.
Qed.

Lemma near_mul a A Ma ka b B Mb kb M' k' :
  near a A Ma ka -> near b B Mb kb ->
  Ma * Mb <= M' ->
  ka * (Mb + kb / 1000) + Ma * kb
  + (Ma * Mb + (ka * (Mb + kb / 1000) + Ma * kb) / 1000 + 1) <= k' ->
  near (Rounded.mul rnd a b) (A * B) M' k'.
Proof.
  intros Ha Hb HM Hk. eapply near_weaken; [| exact HM | exact Hk].
  apply near_rounded, near_times; assumption.
Qed.

Lemma near_all_sum l L K :
  Rounded.near_all w l L K -> 0 <= K /\ Rabs (Eigen.sum l - Eigen.sum L) <= K * w.
Proof.
  induction 1 as [| x X M k l L K (Hk & HM & He) _ [IH0 IH]]; simpl.
  - split; [lra |]. unfold Rminus. rewrite Rplus_opp_r, Rabs_R0. lra.
  - split; [lra |].
    replace (x + Eigen.sum l - (X + Eigen.sum L))
      with ((x - X) + (Eigen.sum l - Eigen.sum L)) by ring.
    eapply Rle_trans; [apply Rabs_triang | lra].
Qed.

Lemma Rabs_eighth : Rabs 0.125 <= 1 / 8 /\ Rabs (-0.125) <= 1 / 8.
Proof.
  autorewrite with literals. rewrite Rabs_Ropp, Rabs_pos_eq; lra.
Qed.

Lemma Rabs_quarter : Rabs 0.25 <= 1 / 4.
Proof. autorewrite with literals. rewrite Rabs_pos_eq; lra. Qed.

(** *** The factors of the shape functions *)

Section Factors.
Variables x y z : R.
Hypothesis Hx : Rabs x <= 1.
Hypothesis Hy : Rabs y <= 1.
Hypothesis Hz : Rabs z <= 1.

Let leaf t (H : Rabs t <= 1) : near t t 1 0 := near_exactly t 1 H.

Lemma near_one : near 1 1 1 0.
Proof. apply near_exactly. rewrite Rabs_pos_eq; lra. Qed.

Lemma near_two : near 2 2 2 0.
Proof. apply near_exactly. rewrite Rabs_pos_eq; lra. Qed.

(** [1 + t] and [1 - t] *)
Lemma near_one_plus t : Rabs t <= 1 -> near (Rounded.add rnd 1 t) (1 + t) 2 3.
Proof.
  intros H. eapply near_add; [exact near_one | exact (leaf t H) | lra | lra].
Qed.

Lemma near_one_minus t : Rabs t <= 1 -> near (Rounded.sub rnd 1 t) (1 - t) 2 3.
Proof.
  intros H. eapply near_sub; [exact near_one | exact (leaf t H) | lra | lra].
Qed.

(** [1 - t * t] *)
Lemma near_one_minus_square t :
  Rabs t <= 1 -> near (Rounded.sub rnd 1 (Rounded.mul rnd t t)) (1 - t * t) 2 6.
Proof.
  intros H.
  assert (S : near (Rounded.mul rnd t t) (t * t) 1 2)
    by (eapply near_mul; [exact (leaf t H) | exact (leaf t H) | lra | lra]).
  eapply near_sub; [exact near_one | exact S | lra | lra].
Qed.

(** [c * a * b * d] for a literal [c] of magnitude 1/8 and three factors
    [1 + t] or [1 - t]: an entry of the 8-node element. *)
Lemma near_trilinear c a A b B d D :
  Rabs c <= 1 / 8 ->
  near a A 2 3 -> near b B 2 3 -> near d D 2 3 ->
  near (Rounded.mul rnd (Rounded.mul rnd (Rounded.mul rnd c a) b) d)
       (c * A * B * D) 1 15.
Proof.
  intros Hc Ha Hb Hd.
  assert (S1 : near (Rounded.mul rnd c a) (c * A) (1 / 4) (17 / 10))
    by (eapply near_mul; [exact (near_exactly c _ Hc) | exact Ha | lra | lra]).
  assert (S2 : near (Rounded.mul rnd (Rounded.mul rnd c a) b) (c * A * B) (1 / 2) (57 / 10))
    by (eapply near_mul; [exact S1 | exact Hb | lra | lra]).
  eapply near_mul; [exact S2 | exact Hd | lra | lra].
Qed.

(** [2 + r + s + t] with any signs. *)
Lemma near_sum4 (op1 op2 op3 : R -> R -> R) (Op1 Op2 Op3 : R -> R -> R) r s t :
  (op1 = Rounded.add rnd /\ Op1 = Rplus) \/ (op1 = Rounded.sub rnd /\ Op1 = Rminus) ->
  (op2 = Rounded.add rnd /\ Op2 = Rplus) \/ (op2 = Rounded.sub rnd /\ Op2 = Rminus) ->
  (op3 = Rounded.add rnd /\ Op3 = Rplus) \/ (op3 = Rounded.sub rnd /\ Op3 = Rminus) ->
  Rabs r <= 1 -> Rabs s <= 1 -> Rabs t <= 1 ->
  near (op3 (op2 (op1 2 r) s) t) (Op3 (Op2 (Op1 2 r) s) t) 5 16.
Proof.
  intros H1 H2 H3 Hr Hs Ht.
  assert (S1 : near (op1 2 r) (Op1 2 r) 3 4)
    by (destruct H1 as [[-> ->] | [-> ->]];
        [eapply near_add | eapply near_sub];
        try exact near_two; try exact (leaf r Hr); lra).
  assert (S2 : near (op2 (op1 2 r) s) (Op2 (Op1 2 r) s) 4 (91 / 10))
    by (destruct H2 as [[-> ->] | [-> ->]];
        [eapply near_add | eapply near_sub];
        try exact S1; try exact (leaf s Hs); lra).
  destruct H3 as [[-> ->] | [-> ->]];
    [eapply near_add | eapply near_sub];
    try exact S2; try exact (leaf t Ht); lra.
Qed.

(** A corner entry of the 20-node element. *)
Lemma near_corner20 p P q Q :
  near p P 1 15 -> near q Q 5 16 ->
  near (Rounded.mul rnd p q) (P * Q) 5 98.
Proof. intros Hp Hq. eapply near_mul; [exact Hp | exact Hq | lra | lra]. Qed.

(** A mid-side entry of the 20-node element: [0.25 * (1 - t * t) * a * b]. *)
Lemma near_midside20 t a A b B :
  Rabs t <= 1 -> near a A 2 3 -> near b B 2 3 ->
  near (Rounded.mul rnd
          (Rounded.mul rnd
             (Rounded.mul rnd 0.25 (Rounded.sub rnd 1 (Rounded.mul rnd t t))) a) b)
       (0.25 * (1 - t * t) * A * B) 2 31.
Proof.
  intros Ht Ha Hb.
  assert (S1 : near (Rounded.mul rnd 0.25 (Rounded.sub rnd 1 (Rounded.mul rnd t t)))
                 (0.25 * (1 - t * t)) (1 / 2) 4)
    by (eapply near_mul;
        [exact (near_exactly _ _ Rabs_quarter) | exact (near_one_minus_square t Ht)
        | lra | lra]).
  assert (S2 : near (Rounded.mul rnd
                       (Rounded.mul rnd 0.25
                          (Rounded.sub rnd 1 (Rounded.mul rnd t t))) a)
                 (0.25 * (1 - t * t) * A) 1 12)
    by (eapply near_mul; [exact S1 | exact Ha | lra | lra]).
  eapply near_mul; [exact S2 | exact Hb | lra | lra].
Qed.

Ltac near_factor :=
  first [ apply near_one_plus; assumption | apply near_one_minus; assumption ].

Ltac near_entry :=
  first
    [ apply near_trilinear; [exact (proj1 Rabs_eighth) | near_factor ..]
    | apply near_corner20;
      [ apply near_trilinear; [exact (proj2 Rabs_eighth) | near_factor ..]
      | apply near_sum4; first [assumption | left; split; reflexivity
                               | right; split; reflexivity] ]
    | apply near_midside20; [assumption | near_factor ..] ].

Ltac near_entries :=
  lazymatch goal with
  | |- Rounded.near_all _ [] _ _ => apply Rounded.near_nil
  | |- Rounded.near_all _ (_ :: _) _ _ =>
      eapply Rounded.near_cons; [near_entry | near_entries]
  end.

(** The rounded shape functions of both elements sum to 1 up to 2000
    rounding errors. *)
Lemma shapefn_rounded T ps F :
  Rabs (Eigen.sum (Rounded.shapefn rnd T (Eigen.vec3 x y z) ps F) - 1) <= 2000 * w.
Proof.
  pose proof w_small as [W0 _].
  destruct T; cbv [Rounded.shapefn Rounded.shapefn8 Rounded.shapefn20 Rounded.put];
    build;
    (match goal with
     | |- Rabs (Eigen.sum ?l - 1) <= _ =>
         eassert (H : Rounded.near_all w l _ _) by near_entries
     end);
    apply near_all_sum in H; destruct H as [HK H];
    (match type of H with
     | Rabs (_ - Eigen.sum ?L) <= ?K * _ =>
         assert (E : Eigen.sum L = 1)
           by (cbv [Eigen.sum fold_right]; literals; field);
         assert (HK' : K <= 2000) by lra
     end);
    rewrite E in H; nra.
Qed.

End Factors.

End RoundingError.

(** *** Partition of unity *)

(** Evaluate the rational value of a [double]. *)
Ltac exact_value :=
  repeat match goal with
  | |- context [Binary64.exact ?x] =>
      let q := eval vm_compute in (Binary64.exact x) in
      change (Binary64.exact x) with q
  | |- context [Binary64.exact_sum ?v] =>
      let q := eval vm_compute in (Binary64.exact_sum v) in
      change (Binary64.exact_sum v) with q
  end;
  cbv [option_map Q2R QArith_base.Qnum QArith_base.Qden].

(** The claim C5 as the specification states it, an exact sum, fails in
    binary64.  At [xi = (0.1, 0.1, 0.1)] the 8 values returned for the 8-node
    element add up to [1 + 13 / 2^56] and the 20 values returned for the
    20-node element to [1 - 1 / 2^52], as rational numbers; added in binary64
    from the left they do not give 1 either. *)
Lemma shapefn_sum_inexact_in_binary64 :
  Binary64.in_unit_cell Binary64.tenths = true /\
  option_map Q2R
    (Binary64.exact_sum
       (Binary64.shapefn HexahedronElement.Hex8 Binary64.tenths Binary64.tenths []))
  = Some (1 + 13 / 2 ^ 56) /\
  option_map Q2R
    (Binary64.exact_sum
       (Binary64.shapefn HexahedronElement.Hex20 Binary64.tenths Binary64.tenths []))
  = Some (1 - / 2 ^ 52) /\
  Binary64.sum
    (Binary64.shapefn HexahedronElement.Hex8 Binary64.tenths Binary64.tenths [])
  <> Binary64.of_Z 1 /\
  Binary64.sum
    (Binary64.shapefn HexahedronElement.Hex20 Binary64.tenths Binary64.tenths [])
  <> Binary64.of_Z 1.
Proof.
  split; [vm_compute; reflexivity |].
  split; [exact_value; apply (f_equal Some); simpl pow; lra |].
  split; [exact_value; apply (f_equal Some); simpl pow; lra |].
  split; intros H; apply (f_equal Binary64.exact) in H; vm_compute in H;
    discriminate H.
Qed.

(** C5.  For the 8-node and the 20-node element, at every local coordinate of
    the unit cell and whatever the particle size and the deformation
    gradient, the shape functions sum to 1 in exact arithmetic; and when
    every operation is rounded, with a relative error of at most [2^-53] or
    an absolute error of at most [2^-1075] as rounding to nearest in binary64
    has, the values returned sum to 1 to within 2000 such errors, which is
    less than [10^-10]. *)
Theorem shapefn_partition_of_unity :
  forall T xi particle_size deformation_gradient,
    in_unit_cell xi ->
    Eigen.sum (HexahedronElement.shapefn T xi particle_size deformation_gradient) = 1 /\
    forall (rnd : R -> R) (u eta : R),
      0 <= u <= / 2 ^ 53 ->
      0 <= eta <= / 2 ^ 1075 ->
      (forall x, Rabs (rnd x - x) <= u * Rabs x + eta) ->
      Rabs (Eigen.sum (Rounded.shapefn rnd T xi particle_size deformation_gradient) - 1)
      <= 2000 * (u + eta) <= / 10 ^ 10.
Proof.
  intros T [x y z] ps F (Hx & Hy & Hz). cbn in Hx, Hy, Hz.
  split; [apply shapefn_sum |].
  intros rnd u eta Hu Heta Hrnd. split.
  - apply (shapefn_rounded rnd u eta Hu Heta Hrnd); apply Rabs_le; lra.
  - pose proof (w_range u eta Hu Heta) as [_ W].
    assert (H : 2000 * / 2 ^ 52 <= / 10 ^ 10).
    { assert (P : 2 ^ 52 = 4503599627370496) by (simpl; lra). rewrite P.
      simpl pow. lra. }
    lra.
Qed.

(** A rounding that errs by [2^-53] of every result, on the 20-node
    element. *)
Lemma shapefn_partition_of_unity_witness :
  let rnd := fun x : R => x * (1 + / 2 ^ 53) in
  let xi := Eigen.vec3 (1 / 2) (- (1 / 4)) 1 in
  in_unit_cell xi /\
  (forall x, Rabs (rnd x - x) <= / 2 ^ 53 * Rabs x + 0) /\
  Rabs (Eigen.sum (Rounded.shapefn rnd HexahedronElement.Hex20 xi (Eigen.vec3 0 0 0) [])
        - 1) <= / 10 ^ 10.
Proof.
  intros rnd xi.
  assert (P : 0 < / 2 ^ 53) by (apply Rinv_0_lt_compat, pow_lt; lra).
  assert (P' : 0 < / 2 ^ 1075) by (apply Rinv_0_lt_compat, pow_lt; lra).
  assert (Hxi : in_unit_cell xi) by (unfold in_unit_cell, xi; simpl; lra).
  assert (Hrnd : forall x, Rabs (rnd x - x) <= / 2 ^ 53 * Rabs x + 0).
  { intros x. unfold rnd. replace (x * (1 + / 2 ^ 53) - x) with (/ 2 ^ 53 * x) by ring.
    rewrite Rabs_mult, (Rabs_pos_eq (/ 2 ^ 53)); lra. }
  split; [exact Hxi |]. split; [exact Hrnd |].
  destruct (proj2 (shapefn_partition_of_unity HexahedronElement.Hex20 xi
                     (Eigen.vec3 0 0 0) [] Hxi)
              rnd (/ 2 ^ 53) 0 (conj (Rlt_le _ _ P) (Rle_refl _))
              (conj (Rle_refl 0) (Rlt_le _ _ P')) Hrnd) as [H1 H2].
  exact (Rle_trans _ _ _ H1 H2).
Defined.

(** *** The volume of the unit cell *)

(** The claim C6 as the specification states it, a volume of exactly 8.0,
    fails in binary64: [1.0 / 12] is rounded, the four scalar products are
    48, 16, 16 and 16, and the sum of the four terms is [8 - 1 / 2^50],
    whichever way the scalar products add their terms. *)
Lemma compute_volume_unit_cell_below_8 :
  exists volume,
    Binary64.compute_volume Binary64.from_the_left Binary64.unit_cell_coordinates8
    = Some volume /\
    Binary64.compute_volume Binary64.by_halves Binary64.unit_cell_coordinates8
    = Some volume /\
    volume <> Binary64.of_Z 8 /\
    option_map Q2R (Binary64.exact volume) = Some (8 - / 2 ^ 50).
Proof.
  eexists. split; [vm_compute; reflexivity |]. split; [vm_compute; reflexivity |].
  split.
  - intros H. apply (f_equal Binary64.exact) in H. vm_compute in H. discriminate H.
  - exact_value. apply (f_equal Some). simpl pow. lra.
Qed.

(** C6.  The volume of the unit cell, whose corners are [(+-1, +-1, +-1)] in
    the node order of the element, is 8 in exact arithmetic, for the 8-node
    and the 20-node element; in binary64 [compute_volume] returns the
    [double] [8 - 1 / 2^50], which is within [10^-10] of 8, whichever way the
    scalar products add their terms and whatever rows follow the 8
    corners. *)
Theorem compute_volume_unit_cell :
  (forall T,
     HexahedronElement.compute_volume (HexahedronElement.unit_cell_coordinates T)
     = Some 8) /\
  (forall order midside,
     exists volume q,
       Binary64.compute_volume order (Binary64.unit_cell_coordinates8 ++ midside)
       = Some volume /\
       Binary64.exact volume = Some q /\
       Q2R q = 8 - / 2 ^ 50 /\
       Rabs (Q2R q - 8) <= / 10 ^ 10).
Proof.
  split.
  - intros []; cbv [HexahedronElement.compute_volume HexahedronElement.unit_cell_coordinates
                    HexahedronElement.unit_cell_coordinates8
                    HexahedronElement.unit_cell_coordinates20
                    Eigen.row3 nth_error Eigen.dot3 Eigen.cross3 Eigen.add3 Eigen.sub3
                    Eigen.c0 Eigen.c1 Eigen.c2];
    f_equal; lra.
  - intros o midside. do 2 eexists.
    split; [destruct o; vm_compute; reflexivity |].
    split; [vm_compute; reflexivity |].
    assert (E : Q2R (QArith_base.Qmake 9007199254740991 1125899906842624)
                = 8 - / 2 ^ 50)
      by (cbv [Q2R QArith_base.Qnum QArith_base.Qden]; simpl pow; lra).
    split; [exact E |].
    rewrite E. unfold Rabs. destruct (Rcase_abs _); simpl pow; lra.
Qed.
